(** * freq: shell-history frequency analysis (freq.py)

    A shallow embedding of the history parsers, the command reduction, the
    alias resolver, the filters and the correlation analysis of [freq.py],
    together with the properties stated about them.

    Text.  A Python [str] is modelled as a Stdlib [string]; a character is
    an [ascii], read as the code point 0..255.  Python classifies these code
    points as follows, and the embedding does the same:
    - [str.strip()] and [str.split()] treat 9..13, 28..32, 133 and 160 as
      whitespace;
    - [str.isdigit()] holds of '0'..'9' and of the superscripts 178, 179, 185;
    - [int()] and the regular expression class [\d] accept '0'..'9' only.

    Integers are unbounded in Python and are modelled as [Z].

    The clock.  [datetime.datetime.now()] is read through an explicit
    parameter [now].

    Exceptions.  A function that can raise returns an [option]; [None] is the
    raised exception, and the [try]/[except] of the caller is written out. *)

From Stdlib Require Import String Ascii List ZArith Lia Bool Permutation Sorted.
From stdpp Require Import gmap strings.
Import ListNotations.

Local Open Scope string_scope.
Local Open Scope Z_scope.

(** ** Python string primitives *)

Module PyStr.

Definition code (c : ascii) : N := N_of_ascii c.

(** [Py_UNICODE_ISSPACE] on the code points below 256. *)
Definition isspace (c : ascii) : bool :=
  let n := code c in
  (((9 <=? n) && (n <=? 13)) || ((28 <=? n) && (n <=? 32))
   || (n =? 133) || (n =? 160))%N.

(** Decimal digits: what [int()] and [\d] accept. *)
Definition isdecimal (c : ascii) : bool :=
  let n := code c in ((48 <=? n) && (n <=? 57))%N.

(** [str.isdigit()] on one character. *)
Definition isdigit_char (c : ascii) : bool :=
  let n := code c in
  (isdecimal c || (n =? 178) || (n =? 179) || (n =? 185))%N.

(** [bool(s)] for a string: non-empty. *)
Definition truthy (s : string) : bool :=
  match s with EmptyString => false | String _ _ => true end.

(** [s.isdigit()]: non-empty and every character is a digit. *)
Fixpoint all_chars (p : ascii -> bool) (s : string) : bool :=
  match s with
  | EmptyString => true
  | String c r => p c && all_chars p r
  end.

Definition isdigit (s : string) : bool := truthy s && all_chars isdigit_char s.

(** [int(s)] for a string that passed [isdigit] or matched [\d+]:
    [None] is [ValueError]. *)
Definition digit_value (c : ascii) : Z := Z.of_N (code c) - 48.

Fixpoint int_acc (acc : Z) (s : string) : option Z :=
  match s with
  | EmptyString => Some acc
  | String c r =>
      if isdecimal c then int_acc (10 * acc + digit_value c) r else None
  end.

Definition int (s : string) : option Z :=
  if truthy s then int_acc 0 s else None.

(** [s.lstrip(chars)], [s.rstrip(chars)], [s.strip(chars)] with the set of
    characters given as a predicate. *)
Fixpoint lstrip_by (p : ascii -> bool) (s : string) : string :=
  match s with
  | EmptyString => EmptyString
  | String c r => if p c then lstrip_by p r else s
  end.

Fixpoint rstrip_by (p : ascii -> bool) (s : string) : string :=
  match s with
  | EmptyString => EmptyString
  | String c r =>
      match rstrip_by p r with
      | EmptyString => if p c then EmptyString else String c EmptyString
      | r' => String c r'
      end
  end.

Definition strip_by (p : ascii -> bool) (s : string) : string :=
  rstrip_by p (lstrip_by p s).

(** [s.strip()] *)
Definition strip (s : string) : string := strip_by isspace s.

(** [s.split()]: maximal runs of non-whitespace characters. *)
Fixpoint split (s : string) : list string :=
  match s with
  | EmptyString => []
  | String c r =>
      if isspace c then split r
      else
        match r with
        | EmptyString => [String c EmptyString]
        | String d _ =>
            if isspace d then String c EmptyString :: split r
            else
              match split r with
              | w :: ws => String c w :: ws
              | [] => [String c EmptyString]
              end
        end
  end.

(** [s.startswith(p)] *)
Fixpoint startswith (s p : string) : bool :=
  match p, s with
  | EmptyString, _ => true
  | String a p', String b s' => Ascii.eqb a b && startswith s' p'
  | String _ _, EmptyString => false
  end.

(** [s.endswith("'")] and the like, for a one-character suffix. *)
Fixpoint endswith_char (s : string) (q : ascii) : bool :=
  match s with
  | EmptyString => false
  | String c EmptyString => Ascii.eqb c q
  | String _ r => endswith_char r q
  end.

(** [s.find(sub)]: index of the first occurrence, or -1. *)
Fixpoint find (s sub : string) : Z :=
  if startswith s sub then 0
  else
    match s with
    | EmptyString => -1
    | String _ r => let k := find r sub in if k =? -1 then -1 else k + 1
    end.

(** [sub in s] *)
Definition contains (s sub : string) : bool := negb (find s sub =? -1).

(** [s[k:]] for [k >= 0]. *)
Fixpoint suffix_from (k : nat) (s : string) : string :=
  match k, s with
  | O, _ => s
  | S k', String _ r => suffix_from k' r
  | S _, EmptyString => EmptyString
  end.

Definition slice_from (k : Z) (s : string) : string :=
  suffix_from (Z.to_nat k) s.

(** [s.split(sep, 1)] when [sep in s]: the text before and after the first
    occurrence of the character [sep]. *)
Fixpoint split_once (sep : ascii) (s : string) : option (string * string) :=
  match s with
  | EmptyString => None
  | String c r =>
      if Ascii.eqb c sep then Some (EmptyString, r)
      else
        match split_once sep r with
        | Some (a, b) => Some (String c a, b)
        | None => None
        end
  end.

(** [' '.join(parts)] *)
Fixpoint join_space (parts : list string) : string :=
  match parts with
  | [] => EmptyString
  | [w] => w
  | w :: ws => w ++ " " ++ join_space ws
  end.

(** [x in [a, b, ...]] for a list of strings. *)
Definition in_list (x : string) (l : list string) : bool :=
  existsb (String.eqb x) l.

End PyStr.

Import PyStr.

(** ** The two regular expressions of the zsh parser *)

Module Re.

(** [\d{n}] at the start of [s]: the [n] digits and what follows. *)
Fixpoint digits_exact (n : nat) (s : string) : option (string * string) :=
  match n with
  | O => Some (EmptyString, s)
  | S n' =>
      match s with
      | EmptyString => None
      | String c r =>
          if isdecimal c then
            match digits_exact n' r with
            | Some (ds, rest) => Some (String c ds, rest)
            | None => None
            end
          else None
      end
  end.

(** [\d*], greedy: the longest run of digits and what follows. *)
Fixpoint digits_span (s : string) : string * string :=
  match s with
  | EmptyString => (EmptyString, EmptyString)
  | String c r =>
      if isdecimal c then
        let '(ds, rest) := digits_span r in (String c ds, rest)
      else (EmptyString, s)
  end.

(** [: (\d{10}):] anchored at the start of [s]: group 1 and what follows
    the match. *)
Definition match_timestamp (s : string) : option (string * string) :=
  match s with
  | String c0 (String c1 r) =>
      if Ascii.eqb c0 ":" && Ascii.eqb c1 " " then
        match digits_exact 10 r with
        | Some (ds, String c2 r') =>
            if Ascii.eqb c2 ":" then Some (ds, r') else None
        | _ => None
        end
      else None
  | _ => None
  end.

(** [re.search(r': (\d{10}):', s)]: group 1 of the leftmost match. *)
Fixpoint search_timestamp (s : string) : option string :=
  match match_timestamp s with
  | Some (ds, _) => Some ds
  | None =>
      match s with
      | EmptyString => None
      | String _ r => search_timestamp r
      end
  end.

(** [: \d{10}:\d+;] anchored at the start of [s]: the length of the match.
    The greedy [\d+] can only be followed by [;] when it took every digit,
    so backtracking finds nothing more. *)
Definition match_duration (s : string) : option nat :=
  match match_timestamp s with
  | Some (_, r) =>
      match digits_span r with
      | (String d ds, String c _) =>
          if Ascii.eqb c ";" then
            Some (2 + 10 + 1 + String.length (String d ds) + 1)%nat
          else None
      | _ => None
      end
  | None => None
  end.

(** [re.search(r': \d{10}:\d+;', s).end()]: the index just after the
    leftmost match. *)
Fixpoint search_duration_end (s : string) : option nat :=
  match match_duration s with
  | Some e => Some e
  | None =>
      match s with
      | EmptyString => None
      | String _ r =>
          match search_duration_end r with
          | Some e => Some (S e)
          | None => None
          end
      end
  end.

End Re.

Import Re.

(** ** Records, filters' arguments *)

(** A history record is the Python tuple [(command, timestamp)]. *)
Definition record : Type := string * Z.

(** [date_filter] is [None] or the tuple [(start_time, end_time)], each
    bound [None] or an integer. *)
Definition date_filter_t : Type := option (option Z * option Z).

(** [start_time and timestamp < start_time]: a bound that is [None] or 0 is
    falsy. *)
Definition before_start (start_time : option Z) (timestamp : Z) : bool :=
  match start_time with
  | Some s => negb (s =? 0) && (timestamp <? s)
  | None => false
  end.

(** [end_time and timestamp > end_time] *)
Definition after_end (end_time : option Z) (timestamp : Z) : bool :=
  match end_time with
  | Some e => negb (e =? 0) && (timestamp >? e)
  | None => false
  end.

(** [if command_filter:] for [None] or a string. *)
Definition filter_active (command_filter : option string) : bool :=
  match command_filter with
  | Some f => truthy f
  | None => false
  end.

(** [command.startswith(f + " ") or command == f] *)
Definition matches_filter (command f : string) : bool :=
  startswith command (f ++ " ") || String.eqb command f.

(** ** Command reduction: [extract_command] *)

(** The loop [for cmd in ["export", "echo", "set", "alias"]] followed by
    [return "malformed"]. *)
Fixpoint scan_known (full_cmd : string) (cmds : list string) : string :=
  match cmds with
  | [] => "malformed"
  | cmd :: rest =>
      if contains full_cmd cmd then cmd else scan_known full_cmd rest
  end.

Definition extract_command (full_cmd : string) (full_command : bool) : string :=
  if negb (truthy full_cmd) then EmptyString
  else if full_command then full_cmd
  else
    match split full_cmd with
    | first_word :: _ =>
        if endswith_char first_word "'"
           && (isdigit first_word || in_list first_word ["35'"; "00;35'"])
        then
          if startswith full_cmd "export" then "export"
          else scan_known full_cmd ["export"; "echo"; "set"; "alias"]
        else first_word
    | [] => EmptyString
    end.

(** ** The zsh parser: [parse_zsh_history] *)

(** The body of [for line in f]; the result is the list [history] after the
    iteration, [None] when the body raises. *)
Definition zsh_line (full_command : bool) (date_filter : date_filter_t)
    (command_filter : option string) (history : list record) (raw : string)
    : option (list record) :=
  let line := strip raw in
  if negb (truthy line) then Some history
  else
    match search_timestamp line with
    | None => Some history
    | Some group1 =>
        match int group1 with
        | None => None
        | Some timestamp =>
            if match date_filter with
               | Some (start_time, end_time) =>
                   before_start start_time timestamp
                   || after_end end_time timestamp
               | None => false
               end
            then Some history
            else
              let located :=
                if contains line ";" then
                  let timestamp_end := find line ":0;" in
                  if negb (timestamp_end =? -1) then
                    Some (strip (slice_from (timestamp_end + 3) line))
                  else
                    match search_duration_end line with
                    | Some e => Some (strip (suffix_from e line))
                    | None => None
                    end
                else None in
              match located with
              | None => Some history
              | Some full_cmd =>
                  if negb (truthy full_cmd) then Some history
                  else
                    let command := extract_command full_cmd full_command in
                    if truthy command then
                      if filter_active command_filter
                         && negb (matches_filter command
                                    (default EmptyString command_filter))
                      then Some history
                      else Some (history ++ [(command, timestamp)])%list
                    else Some history
              end
        end
    end.

(** A [for] loop whose body may raise: the first exception ends it. *)
Fixpoint for_each {S A : Type} (body : S -> A -> option S) (st : S)
    (items : list A) : option S :=
  match items with
  | [] => Some st
  | x :: rest =>
      match body st x with
      | Some st' => for_each body st' rest
      | None => None
      end
  end.

(** [lines] are the lines of the history file as the file iterator yields
    them.  An exception inside the loop is caught and the result is []. *)
Definition parse_zsh_history (lines : list string) (full_command : bool)
    (date_filter : date_filter_t) (command_filter : option string)
    : list record :=
  match for_each (zsh_line full_command date_filter command_filter) [] lines with
  | Some history => history
  | None => []
  end.

(** ** The bash parser: [parse_bash_history] *)

(** The loop state: the pending timestamp [current_timestamp] and the list
    [history] built so far. *)
Record bash_state : Type := BashState {
  current_timestamp : option Z;
  history_of : list record
}.

(** [current_timestamp if current_timestamp else int(now)]: [None] and 0 are
    both falsy. *)
Definition effective_timestamp (now : Z) (current : option Z) : Z :=
  match current with
  | Some t => if t =? 0 then now else t
  | None => now
  end.

(** [line.startswith('#') and len(line) > 1 and line[1:].isdigit()] *)
Definition is_timestamp_line (line : string) : bool :=
  startswith line "#" && (1 <? Z.of_nat (String.length line))
  && isdigit (slice_from 1 line).

(** The body of [for line in f]; [None] when [int(line[1:])] raises. *)
Definition bash_line (now : Z) (full_command : bool)
    (date_filter : date_filter_t) (command_filter : option string)
    (st : bash_state) (raw : string) : option bash_state :=
  let line := strip raw in
  if is_timestamp_line line then
    match int (slice_from 1 line) with
    | Some t => Some (BashState (Some t) (history_of st))
    | None => None
    end
  else if truthy line then
    let timestamp := effective_timestamp now (current_timestamp st) in
    if match date_filter with
       | Some (start_time, end_time) =>
           before_start start_time timestamp || after_end end_time timestamp
       | None => false
       end
    then Some (BashState None (history_of st))
    else
      let command := extract_command line full_command in
      if truthy command then
        if filter_active command_filter
           && negb (matches_filter command (default EmptyString command_filter))
        then Some (BashState None (history_of st))
        else Some (BashState None (history_of st ++ [(command, timestamp)])%list)
      else Some st
  else Some st.

Definition parse_bash_history (now : Z) (lines : list string)
    (full_command : bool) (date_filter : date_filter_t)
    (command_filter : option string) : list record :=
  match for_each (bash_line now full_command date_filter command_filter)
          (BashState None []) lines with
  | Some st => history_of st
  | None => []
  end.

(** ** The filters of [main] *)

(** The date filter of [main] (the loop building [filtered]). *)
Fixpoint date_filter_loop (start_time end_time : option Z)
    (history : list record) : list record :=
  match history with
  | [] => []
  | (command, timestamp) :: rest =>
      if before_start start_time timestamp then
        date_filter_loop start_time end_time rest
      else if after_end end_time timestamp then
        date_filter_loop start_time end_time rest
      else (command, timestamp) :: date_filter_loop start_time end_time rest
  end.

(** The command filter of [run_analysis] (the loop building [cmd_history]). *)
Fixpoint command_filter_loop (f : string) (history : list record)
    : list record :=
  match history with
  | [] => []
  | (command, timestamp) :: rest =>
      if matches_filter command f then
        (command, timestamp) :: command_filter_loop f rest
      else command_filter_loop f rest
  end.

(** ** Exclusion: [filter_commands] *)

(** [command.split()[0] if command else command]; [None] is the
    [IndexError] of indexing an empty list. *)
Definition base_cmd_of (command : string) : option string :=
  if truthy command then
    match split command with
    | w :: _ => Some w
    | [] => None
    end
  else Some command.

Fixpoint exclude_loop (exclude_set : gset string) (history : list record)
    (filtered : list record) : option (list record) :=
  match history with
  | [] => Some filtered
  | (command, timestamp) :: rest =>
      match base_cmd_of command with
      | Some base_cmd =>
          if bool_decide (base_cmd ∉ exclude_set) then
            exclude_loop exclude_set rest (filtered ++ [(command, timestamp)])%list
          else exclude_loop exclude_set rest filtered
      | None => None
      end
  end.

Definition filter_commands (history : list record) (exclude_list : list string)
    : option (list record) :=
  match exclude_list with
  | [] => Some history
  | _ => exclude_loop (list_to_set exclude_list) history []
  end.

(** ** Aliases: [load_aliases], [resolve_command] and the resolution loop *)

(** The two dictionaries that [load_aliases] fills. *)
Record alias_tables : Type := AliasTables {
  aliases : gmap string string;
  alias_sources : gmap string string
}.

(** The characters removed by the second [strip]: the single and the double
    quote. *)
Definition is_quote (c : ascii) : bool :=
  Ascii.eqb c "'" || Ascii.eqb c (ascii_of_nat 34).

(** The body of [for line in f] in [load_aliases]; [None] when it raises
    ([alias_cmd.split()[0]] on a value that is only whitespace). *)
Definition alias_line (basename : string) (st : alias_tables) (raw : string)
    : option alias_tables :=
  let line := strip raw in
  if startswith line "alias " && contains line "=" then
    let alias_def := slice_from 6 line in
    if contains alias_def "=" then
      match split_once "=" alias_def with
      | Some (alias_name, alias_cmd) =>
          let alias_cmd := strip_by is_quote (strip alias_cmd) in
          if truthy alias_cmd then
            match split alias_cmd with
            | base_cmd :: _ =>
                Some (AliasTables
                        (<[strip alias_name := base_cmd]> (aliases st))
                        (<[strip alias_name := basename]> (alias_sources st)))
            | [] => None
            end
          else Some st
      | None => None
      end
    else Some st
  else Some st.

(** One configuration file: [try: for line in f: ... except Exception:
    continue].  What was stored before the exception stays. *)
Fixpoint alias_file (basename : string) (st : alias_tables) (lines : list string)
    : alias_tables :=
  match lines with
  | [] => st
  | l :: rest =>
      match alias_line basename st l with
      | Some st' => alias_file basename st' rest
      | None => st
      end
  end.

(** [files] are the configuration files that exist, in the order of
    [alias_files], each with its basename and its lines. *)
Definition load_aliases (files : list (string * list string)) : alias_tables :=
  fold_left (fun st f => alias_file (fst f) st (snd f)) files
    (AliasTables ∅ ∅).

Definition resolve_command (command : string) (table : gmap string string)
    : string :=
  default command (table !! command).

(** The body of the resolution loop of [main]. *)
Definition resolve_record (use_full_commands : bool)
    (table : gmap string string) (r : record) : record :=
  let '(command, timestamp) := r in
  if use_full_commands then
    match split command with
    | first :: rest =>
        let resolved_cmd := resolve_command first table in
        (resolved_cmd
           ++ (if (1 <? Z.of_nat (List.length (first :: rest)))
               then " " ++ join_space rest else EmptyString),
         timestamp)
    | [] => (command, timestamp)
    end
  else (resolve_command command table, timestamp).

(** [if aliases: ... history = resolved_history] *)
Definition resolve_history (use_full_commands : bool)
    (table : gmap string string) (history : list record) : list record :=
  if bool_decide (table = ∅) then history
  else map (resolve_record use_full_commands table) history.

(** ** Correlations: [get_command_correlations], [show_command_analysis] *)

(** Python's [sorted] is stable.  It is written here as an insertion sort:
    an element goes before the first element of the sorted rest that it may
    precede, so elements with equal keys keep their order. *)
Fixpoint insert_sorted {A : Type} (precedes : A -> A -> bool) (a : A)
    (l : list A) : list A :=
  match l with
  | [] => [a]
  | x :: rest =>
      if precedes a x then a :: l else x :: insert_sorted precedes a rest
  end.

Fixpoint sorted {A : Type} (precedes : A -> A -> bool) (l : list A) : list A :=
  match l with
  | [] => []
  | a :: rest => insert_sorted precedes a (sorted precedes rest)
  end.

(** [sorted(history, key=lambda x: x[1])] *)
Definition sorted_by_time (history : list record) : list record :=
  sorted (fun r x => snd r <=? snd x) history.

(** [correlations[k] += 1] on a [defaultdict(int)]; the dictionary keeps the
    order in which its keys were first stored. *)
Fixpoint bump (k : string) (d : list (string * Z)) : list (string * Z) :=
  match d with
  | [] => [(k, 1)]
  | (k', n) :: rest =>
      if String.eqb k' k then (k', n + 1) :: rest else (k', n) :: bump k rest
  end.

(** [range(lo, hi)]: the [hi - lo] integers from [lo] on, none when
    [hi <= lo]. *)
Fixpoint range_from (lo : Z) (len : nat) : list Z :=
  match len with
  | O => []
  | S len' => lo :: range_from (lo + 1) len'
  end.

Definition range (lo hi : Z) : list Z := range_from lo (Z.to_nat (hi - lo)).

(** [enumerate(l)] *)
Definition enumerate {A : Type} (l : list A) : list (Z * A) :=
  combine (range 0 (Z.of_nat (List.length l))) l.

(** The inner loop [for j in range(max(0, i-10), min(len, i+11))].
    [sorted_history[j]] is in range for every such [j]. *)
Definition correlate_one (sorted_history : list record)
    (target_command : string) (window_seconds : Z) (i : Z) (timestamp : Z)
    (correlations : list (string * Z)) : list (string * Z) :=
  fold_left
    (fun correlations j =>
       if negb (i =? j) then
         match nth_error sorted_history (Z.to_nat j) with
         | Some (other_cmd, other_time) =>
             if (Z.abs (other_time - timestamp) <=? window_seconds)
                && negb (String.eqb other_cmd target_command)
             then bump other_cmd correlations
             else correlations
         | None => correlations
         end
       else correlations)
    (range (Z.max 0 (i - 10))
           (Z.min (Z.of_nat (List.length sorted_history)) (i + 11)))
    correlations.

Definition get_command_correlations (history : list record)
    (target_command : string) (window_seconds : Z) : list (string * Z) :=
  let sorted_history := sorted_by_time history in
  fold_left
    (fun correlations e =>
       let '(i, (cmd, timestamp)) := e in
       if String.eqb cmd target_command then
         correlate_one sorted_history target_command window_seconds i
           timestamp correlations
       else correlations)
    (enumerate sorted_history) [].

(** [sorted(correlations.items(), key=lambda x: x[1], reverse=True)]: with
    [reverse=True] equal tallies still keep the dictionary's order. *)
Definition sorted_by_tally (items : list (string * Z)) : list (string * Z) :=
  sorted (fun e x => snd x <=? snd e) items.

(** The default of [window_seconds]. *)
Definition default_window : Z := 300.

(** [top_correlations] as [show_command_analysis] prints it; [] when the
    section is not printed. *)
Definition top_correlations (history : list record) (target_command : string)
    (show_correlations : bool) : list (string * Z) :=
  if show_correlations && (1 <? Z.of_nat (List.length history)) then
    let correlations :=
      get_command_correlations history target_command default_window in
    match correlations with
    | [] => []
    | _ => take 5 (sorted_by_tally correlations)
    end
  else [].

(** ** Format detection and dispatch: [detect_shell_type], [parse_history] *)

(** [zsh_pattern.match(line)] for [^: \d{10}:\d+;]: a match at the start. *)
Definition zsh_pattern_match (line : string) : bool :=
  match match_duration line with
  | Some _ => true
  | None => false
  end.

(** [line.startswith('#') and line[1:].isdigit()] *)
Definition looks_like_marker (line : string) : bool :=
  startswith line "#" && isdigit (slice_from 1 line).

(** [detect_shell_type] on a file that exists and can be read, given by its
    lines: the loop keeps the first 11 lines, stripped. *)
Definition detect_shell_type (file_lines : list string) : string :=
  let lines := map strip (take 11 file_lines) in
  if existsb zsh_pattern_match lines then "zsh"
  else if existsb looks_like_marker lines then "bash_timestamped"
  else "bash".

(** [parse_history]; [shell_type] is [None] or a string. *)
Definition parse_history (now : Z) (file_lines : list string)
    (full_command : bool) (shell_type : option string)
    (date_filter : date_filter_t) (command_filter : option string)
    : list record :=
  let shell_type :=
    match shell_type with
    | None => detect_shell_type file_lines
    | Some given => given
    end in
  if String.eqb shell_type "zsh" then
    parse_zsh_history file_lines full_command date_filter command_filter
  else if in_list shell_type ["bash"; "bash_timestamped"] then
    parse_bash_history now file_lines full_command date_filter command_filter
  else [].

(** ** Ranking: [Counter] and [most_common] *)

(** [Counter([item[0] for item in history])]: a dictionary in the order in
    which the commands are first met. *)
Definition command_counter (history : list record) : list (string * Z) :=
  fold_left (fun counts item => bump (fst item) counts) history [].

(** [counts.most_common(n)] for an integer [n]: [heapq.nlargest] with the
    count as key, that is the first [n] entries of the stable sort by count
    descending, and nothing when [n < 1]. *)
Definition most_common (counts : list (string * Z)) (n : Z)
    : list (string * Z) :=
  if n <? 1 then [] else take (Z.to_nat n) (sorted_by_tally counts).

(** The list that [show_basic_analysis] and [show_advanced_analysis] print:
    nothing for an empty history. *)
Definition top_commands (history : list record) (num_commands : Z)
    : list (string * Z) :=
  match history with
  | [] => []
  | _ => most_common (command_counter history) num_commands
  end.

(** [len(set(item[0] for item in history))] *)
Definition unique_commands (history : list record) : nat :=
  size (list_to_set (map fst history) : gset string).

(** [[cmd for cmd, count in Counter(...).items() if count == 1]] *)
Definition single_use (history : list record) : list string :=
  map fst (List.filter (fun e => snd e =? 1) (command_counter history)).

(** * Vocabulary of the properties *)

(** Filtering afterwards, as the claim words it: the date filter of [main],
    then the command filter of [run_analysis], each when it is supplied. *)
Definition filter_afterwards (date_filter : date_filter_t)
    (command_filter : option string) (history : list record) : list record :=
  let dated :=
    match date_filter with
    | Some (start_time, end_time) => date_filter_loop start_time end_time history
    | None => history
    end in
  if filter_active command_filter
  then command_filter_loop (default EmptyString command_filter) dated
  else dated.

(** The zsh history line [: T:D;cmd]. *)
Definition zsh_entry (T D cmd : string) : string :=
  String ":" (String " " (T ++ String ":" (D ++ String ";" cmd))).

(** The leading whitespace token of a command. *)
Definition leading_token (command : string) : string :=
  hd EmptyString (split command).

Definition has_leading_token (r : record) : Prop := split (fst r) <> [].

(** A token: a non-empty text with no whitespace in it. *)
Definition is_token (w : string) : bool :=
  truthy w && all_chars (fun c => negb (isspace c)) w.

(** The line [raw] is an alias definition of [name] whose value, stripped of
    whitespace and then of quotes, has [base] as its first whitespace
    token. *)
Definition defines (raw name base : string) : Prop :=
  startswith (strip raw) "alias " = true
  /\ exists alias_name alias_cmd,
       split_once "=" (slice_from 6 (strip raw)) = Some (alias_name, alias_cmd)
       /\ strip alias_name = name
       /\ hd_error (split (strip_by is_quote (strip alias_cmd))) = Some base.

(** Every entry of the table comes from a definition line of one of the
    [files]. *)
Definition from_files (files : list (string * list string))
    (st : alias_tables) : Prop :=
  forall name base,
    aliases st !! name = Some base ->
    exists basename lines raw,
      In (basename, lines) files /\ In raw lines /\ defines raw name base.

(** [correlations.get(c, 0)] *)
Fixpoint tally (d : list (string * Z)) (c : string) : Z :=
  match d with
  | [] => 0
  | (k, n) :: rest => if String.eqb k c then n else tally rest c
  end.

(** The record at index [j] is tallied for the occurrence at index [i]:
    [i] holds the target, [j] is another position at most 10 away, its
    timestamp differs by at most the window, and its command is [c],
    which is not the target. *)
Definition is_neighbour (sorted_history : list record) (target : string)
    (window : Z) (c : string) (i j : Z) : bool :=
  match nth_error sorted_history (Z.to_nat i),
        nth_error sorted_history (Z.to_nat j) with
  | Some (ci, ti), Some (cj, tj) =>
      String.eqb ci target && negb (i =? j) && (Z.abs (j - i) <=? 10)
      && (Z.abs (tj - ti) <=? window)
      && negb (String.eqb cj target) && String.eqb cj c
  | _, _ => false
  end.

(** The number of pairs of positions [(i, j)] of the sorted sequence with
    [j] tallied for [i] under the command [c].  The positions are counted
    with the library's [seq], on their own: [0, 1, ..., length - 1], each
    once. *)
Definition neighbour_pairs (sorted_history : list record) (target : string)
    (window : Z) (c : string) : Z :=
  let positions := map Z.of_nat (seq 0 (List.length sorted_history)) in
  Z.of_nat
    (List.length
       (List.filter
          (fun p => is_neighbour sorted_history target window c (fst p) (snd p))
          (list_prod positions positions))).

(** A dictionary: distinct keys; here every stored tally is positive. *)
Definition dict_ok (d : list (string * Z)) : Prop :=
  List.NoDup (map fst d) /\ Forall (fun e => 0 < snd e) d.

(** The test of the inner loop for the occurrence [(i, timestamp)]: the
    record at [j] is tallied, and its command is [c]. *)
Definition hit (sorted_history : list record) (target : string) (window : Z)
    (i timestamp : Z) (c : string) (j : Z) : bool :=
  negb (i =? j)
  && match nth_error sorted_history (Z.to_nat j) with
     | Some (other_cmd, other_time) =>
         (Z.abs (other_time - timestamp) <=? window)
         && negb (String.eqb other_cmd target)
         && String.eqb other_cmd c
     | None => false
     end.

(** The timestamp of the record passes both date tests. *)
Definition in_date_window (start_time end_time : option Z) (r : record)
    : bool :=
  negb (before_start start_time (snd r)) && negb (after_end end_time (snd r)).

(** The record is dropped by the exclusion set: its base command is in the
    set. *)
Definition excluded (exclude_set : gset string) (r : record) : bool :=
  match base_cmd_of (fst r) with
  | Some base_cmd => bool_decide (base_cmd ∈ exclude_set)
  | None => false
  end.

(** [command.split()[0] if command else command] does not raise. *)
Definition has_base_cmd (r : record) : Prop := base_cmd_of (fst r) <> None.

(** The line [raw] is the zsh entry with timestamp [T], duration [D] and
    command [cmd]: ten digits, at least one digit, a command that is not
    blank; and the duration is 0 or the line holds no [:0;]. *)
Definition valid_zsh_line (raw : string) (e : string * string * string)
    : Prop :=
  let '(T, D, cmd) := e in
  strip raw = zsh_entry T D cmd
  /\ String.length T = 10%nat /\ all_chars isdecimal T = true
  /\ truthy D = true /\ all_chars isdecimal D = true
  /\ truthy (strip cmd) = true
  /\ (D = "0" \/ find (zsh_entry T D cmd) ":0;" = -1).

(** The record that a valid zsh entry stands for. *)
Definition zsh_record (full_command : bool) (e : string * string * string)
    : record :=
  let '(T, D, cmd) := e in
  (extract_command (strip cmd) full_command, default 0 (int T)).

(** The line makes the bash parser raise: it passes the timestamp test and
    [int] rejects its digits. *)
Definition bash_aborts (raw : string) : bool :=
  is_timestamp_line (strip raw)
  && match int (slice_from 1 (strip raw)) with
     | Some _ => false
     | None => true
     end.

(** The line is a command line for the bash parser: not blank and not a
    timestamp line. *)
Definition is_command_line (raw : string) : bool :=
  negb (is_timestamp_line (strip raw)) && truthy (strip raw).

(** Where a bash timestamp can come from: the clock, or a marker line of
    the file whose number is not 0. *)
Definition from_clock_or_marker (now : Z) (lines : list string) (t : Z)
    : Prop :=
  t = now
  \/ exists raw ds,
       In raw lines /\ strip raw = String "#" ds /\ int ds = Some t /\ t <> 0.

(** The command of the record is the reduction of a stripped text that is
    not empty. *)
Definition is_extraction (full_command : bool) (r : record) : Prop :=
  exists x,
    truthy (strip x) = true /\ fst r = extract_command (strip x) full_command.

(** The alias line makes [load_aliases] raise inside its [try]: it is a
    definition whose value, stripped of whitespace and of quotes, is not
    empty and holds whitespace only. *)
Definition alias_raises (raw : string) : bool :=
  let line := strip raw in
  startswith line "alias "
  && match split_once "=" (slice_from 6 line) with
     | Some (_, alias_cmd) =>
         let value := strip_by is_quote (strip alias_cmd) in
         truthy value
         && match split value with
            | [] => true
            | _ :: _ => false
            end
     | None => false
     end.

(** The distinct elements of a list in the order of their first
    occurrence. *)
Fixpoint first_occurrences (l : list string) : list string :=
  match l with
  | [] => []
  | x :: rest =>
      x :: List.filter (fun y => negb (String.eqb y x)) (first_occurrences rest)
  end.

(** The number of records of the history whose command is [c]. *)
Definition occurrences (history : list record) (c : string) : Z :=
  Z.of_nat (List.length (List.filter (fun r => String.eqb (fst r) c) history)).

(** * Properties *)

(** ** Examples *)

Example strip_ex : strip "  echo  hello 	 " = "echo  hello".
Proof. reflexivity. Qed.

Example split_ex : split "  git   commit -m  " = ["git"; "commit"; "-m"].
Proof. reflexivity. Qed.

Example find_ex : find ": 1700000000:0;ls" ":0;" = 12.
Proof. reflexivity. Qed.

Example int_ex : int "0012" = Some 12.
Proof. reflexivity. Qed.

Example search_timestamp_ex :
  search_timestamp ": 1700000000:0;ls -la" = Some "1700000000".
Proof. reflexivity. Qed.

Example search_duration_end_ex :
  search_duration_end ": 1700000000:15;ls -la" = Some 16%nat.
Proof. reflexivity. Qed.

Example extract_reduced_ex : extract_command "echo hello" false = "echo".
Proof. reflexivity. Qed.

Example extract_full_ex : extract_command "echo hello" true = "echo hello".
Proof. reflexivity. Qed.

Example parse_zsh_ex :
  parse_zsh_history
    [": 1700000000:0;ls -la"; EmptyString; ": 1700000005:12;git status";
     "garbage"]
    false None None
  = [("ls", 1700000000); ("git", 1700000005)].
Proof. reflexivity. Qed.

Example parse_bash_ex :
  parse_bash_history 1800000000
    ["#1700000000"; "ls -la"; EmptyString; "git status"; "#1700000009"; "  ";
     "pwd"]
    false None None
  = [("ls", 1700000000); ("git", 1800000000); ("pwd", 1700000009)].
Proof. reflexivity. Qed.

Example filter_commands_ex :
  filter_commands [("ls", 1); ("git", 2); ("ls -la", 3); ("pwd", 4)] ["ls"]
  = Some [("git", 2); ("pwd", 4)].
Proof. vm_compute. reflexivity. Qed.

Example load_aliases_ex :
  resolve_command "ll"
    (aliases (load_aliases [(".bashrc", ["alias ll='ls -la'"; "export A=1"])]))
  = "ls".
Proof. vm_compute. reflexivity. Qed.

Example correlations_300 :
  get_command_correlations [("git", 1000); ("ls", 1300); ("vim", 700)] "git" 300
  = [("vim", 1); ("ls", 1)].
Proof. reflexivity. Qed.

Example sorted_stable_ex :
  sorted_by_tally [("a", 1); ("b", 3); ("c", 1); ("d", 3)]
  = [("b", 3); ("d", 3); ("a", 1); ("c", 1)].
Proof. reflexivity. Qed.

Example correlations_301 :
  get_command_correlations [("git", 1000); ("ls", 1301); ("vim", 699)] "git" 300
  = [].
Proof. reflexivity. Qed.

(** ** Stripped lines and leading tokens *)

Section StripSplit.

Lemma lstrip_by_head p s c r :
  lstrip_by p s = String c r -> p c = false.
Proof.
  induction s as [|a s IH]; simpl; [discriminate|].
  destruct (p a) eqn:Ha; [exact IH|].
  intros H; injection H as <- _; exact Ha.
Qed.

Lemma rstrip_by_head p c r c' r' :
  p c = false -> rstrip_by p (String c r) = String c' r' -> c' = c.
Proof.
  intros Hc; simpl.
  destruct (rstrip_by p r); [rewrite Hc|]; intros H; injection H as <- _;
    reflexivity.
Qed.

(** A stripped line starts with a character that is not whitespace. *)
Lemma strip_head raw c r : strip raw = String c r -> isspace c = false.
Proof.
  unfold strip, strip_by.
  destruct (lstrip_by isspace raw) as [|a s] eqn:Hl; [discriminate|].
  intros H. pose proof (lstrip_by_head _ _ _ _ Hl) as Ha.
  apply (rstrip_by_head _ _ _ _ _ Ha) in H. subst; exact Ha.
Qed.

(** [split] of such a text has a first token, and the token starts with
    that character. *)
Lemma split_head c r :
  isspace c = false -> exists w ws, split (String c r) = String c w :: ws.
Proof.
  intros Hc. simpl. rewrite Hc.
  destruct r as [|d r']; [eauto|].
  destruct (isspace d); [eauto|].
  destruct (split (String d r')); eauto.
Qed.

Lemma scan_known_truthy full_cmd cmds :
  Forall (fun c => truthy c = true) cmds ->
  truthy (scan_known full_cmd cmds) = true.
Proof.
  induction 1 as [|c cmds Hc _ IH]; simpl; [reflexivity|].
  destruct (contains full_cmd c); assumption.
Qed.

(** A non-empty stripped line always reduces to a non-empty command. *)
Lemma extract_command_truthy raw full_command :
  truthy (strip raw) = true ->
  truthy (extract_command (strip raw) full_command) = true.
Proof.
  destruct (strip raw) as [|c r] eqn:Hs; [discriminate|]. intros _.
  unfold extract_command. cbn [truthy negb].
  destruct full_command; [reflexivity|].
  destruct (split_head c r (strip_head _ _ _ Hs)) as (w & ws & ->).
  destruct (_ && _); [|reflexivity].
  destruct (startswith _ _); [reflexivity|].
  apply scan_known_truthy. repeat constructor.
Qed.

End StripSplit.

(** ** Searching a text *)

Lemma append_cons c s1 s2 : String c s1 ++ s2 = String c (s1 ++ s2).
Proof. reflexivity. Qed.

Lemma append_empty s : s ++ EmptyString = s.
Proof.
  induction s as [|c s IH]; [reflexivity|].
  rewrite append_cons, IH. reflexivity.
Qed.

Lemma append_assoc s1 s2 s3 : (s1 ++ s2) ++ s3 = s1 ++ (s2 ++ s3).
Proof.
  induction s1 as [|c s1 IH]; [reflexivity|].
  rewrite !append_cons, IH. reflexivity.
Qed.

Lemma find_cons c r sub :
  find (String c r) sub
  = if startswith (String c r) sub then 0
    else if find r sub =? -1 then -1 else find r sub + 1.
Proof. reflexivity. Qed.

Lemma find_range s sub : find s sub = -1 \/ 0 <= find s sub.
Proof.
  induction s as [|c r IH].
  - cbn [find]. destruct (startswith _ _); [right; lia|left; reflexivity].
  - rewrite find_cons. destruct (startswith _ _); [right; lia|].
    destruct (Z.eqb_spec (find r sub) (-1)); [left; reflexivity|].
    right. lia.
Qed.

Lemma contains_cons c r sub :
  contains r sub = true -> contains (String c r) sub = true.
Proof.
  unfold contains. rewrite find_cons.
  destruct (startswith (String c r) sub); [reflexivity|].
  destruct (Z.eqb_spec (find r sub) (-1)) as [Heq|Hne]; [discriminate|].
  intros _. destruct (find_range r sub) as [H|H]; [contradiction|].
  destruct (Z.eqb_spec (find r sub + 1) (-1)); [lia|reflexivity].
Qed.

Lemma contains_suffix_from k : forall s sub,
  contains (suffix_from k s) sub = true -> contains s sub = true.
Proof.
  induction k as [|k IH]; intros s sub; [exact (fun H => H)|].
  destruct s as [|c r]; [exact (fun H => H)|].
  simpl. intros H. apply contains_cons, IH, H.
Qed.

Lemma split_once_contains sep s a b :
  split_once sep s = Some (a, b) ->
  contains s (String sep EmptyString) = true.
Proof.
  revert a b. induction s as [|c r IH]; intros a b; simpl; [discriminate|].
  destruct (Ascii.eqb_spec c sep) as [->|Hne].
  - intros _. unfold contains. rewrite find_cons. cbn [startswith].
    rewrite Ascii.eqb_refl. destruct r; reflexivity.
  - destruct (split_once sep r) as [[a' b']|] eqn:Hr; [|discriminate].
    intros _. apply contains_cons. exact (IH _ _ eq_refl).
Qed.

(** ** Early filtering against filtering afterwards *)

Section Refinement.

Variable full_command : bool.
Variable date_filter : date_filter_t.
Variable command_filter : option string.

Let after := filter_afterwards date_filter command_filter.

Lemma date_filter_loop_app s e (h1 h2 : list record) :
  date_filter_loop s e (h1 ++ h2)%list
  = (date_filter_loop s e h1 ++ date_filter_loop s e h2)%list.
Proof.
  induction h1 as [|[c t] h1 IH]; simpl; [reflexivity|].
  destruct (before_start s t); [exact IH|].
  destruct (after_end e t); [exact IH|]. simpl; f_equal; exact IH.
Qed.

Lemma command_filter_loop_app f (h1 h2 : list record) :
  command_filter_loop f (h1 ++ h2)%list
  = (command_filter_loop f h1 ++ command_filter_loop f h2)%list.
Proof.
  induction h1 as [|[c t] h1 IH]; simpl; [reflexivity|].
  destruct (matches_filter c f); simpl; [f_equal|]; exact IH.
Qed.

Lemma after_app (h1 h2 : list record) :
  after (h1 ++ h2)%list = (after h1 ++ after h2)%list.
Proof.
  unfold after, filter_afterwards.
  destruct date_filter as [[s e]|], (filter_active command_filter);
    rewrite ?date_filter_loop_app, ?command_filter_loop_app; reflexivity.
Qed.

Lemma after_nil : after [] = [].
Proof.
  unfold after, filter_afterwards.
  destruct date_filter as [[s e]|], (filter_active command_filter);
    reflexivity.
Qed.

(** What the two early tests of a parser do to the one record of a line. *)
Lemma after_one command timestamp :
  after [(command, timestamp)]
  = if match date_filter with
       | Some (start_time, end_time) =>
           before_start start_time timestamp || after_end end_time timestamp
       | None => false
       end
    then []
    else if filter_active command_filter
            && negb (matches_filter command
                       (default EmptyString command_filter))
         then []
         else [(command, timestamp)].
Proof.
  unfold after, filter_afterwards.
  destruct date_filter as [[s e]|]; simpl;
    [destruct (before_start s timestamp); simpl;
     [|destruct (after_end e timestamp); simpl]|];
    destruct (filter_active command_filter); simpl; try reflexivity;
    destruct (matches_filter command _); reflexivity.
Qed.

(** One zsh line: the filtered body appends to [history] what filtering
    afterwards keeps of the unfiltered body's output. *)
Lemma zsh_line_refines history raw :
  zsh_line full_command date_filter command_filter history raw
  = match zsh_line full_command None None [] raw with
    | Some out => Some (history ++ after out)%list
    | None => None
    end.
Proof.
  unfold zsh_line.
  destruct (negb (truthy (strip raw)));
    [rewrite after_nil, app_nil_r; reflexivity|].
  destruct (search_timestamp (strip raw)) as [g|];
    [|rewrite after_nil, app_nil_r; reflexivity].
  destruct (int g) as [timestamp|]; [|reflexivity].
  cbn [filter_active andb].
  match goal with
  | |- context [match ?loc with Some _ => _ | None => Some [] end] =>
      destruct loc as [full_cmd|]
  end.
  2:{ destruct (match date_filter with Some _ => _ | None => _ end);
        rewrite after_nil, app_nil_r; reflexivity. }
  destruct (negb (truthy full_cmd)).
  { destruct (match date_filter with Some _ => _ | None => _ end);
      rewrite after_nil, app_nil_r; reflexivity. }
  destruct (truthy (extract_command full_cmd full_command)).
  2:{ destruct (match date_filter with Some _ => _ | None => _ end);
        rewrite after_nil, app_nil_r; reflexivity. }
  cbn [app]. rewrite after_one.
  destruct (match date_filter with Some _ => _ | None => _ end);
    [rewrite app_nil_r; reflexivity|].
  destruct (_ && _); [rewrite app_nil_r|]; reflexivity.
Qed.

(** One bash line, likewise; the pending timestamp moves the same way
    with and without the early filters. *)
Lemma bash_line_refines now pending history raw :
  bash_line now full_command date_filter command_filter
    (BashState pending history) raw
  = match bash_line now full_command None None (BashState pending []) raw with
    | Some st => Some (BashState (current_timestamp st)
                         (history ++ after (history_of st))%list)
    | None => None
    end.
Proof.
  unfold bash_line.
  destruct (is_timestamp_line (strip raw)).
  { destruct (int _); [|reflexivity]. simpl.
    rewrite after_nil, app_nil_r; reflexivity. }
  destruct (truthy (strip raw)) eqn:Hline;
    [|simpl; rewrite after_nil, app_nil_r; reflexivity].
  rewrite (extract_command_truthy raw full_command Hline).
  cbn [filter_active andb current_timestamp history_of app].
  rewrite after_one.
  destruct (match date_filter with Some _ => _ | None => _ end);
    [rewrite app_nil_r; reflexivity|].
  destruct (_ && _); [rewrite app_nil_r|]; reflexivity.
Qed.

End Refinement.

Lemma filter_afterwards_none history :
  filter_afterwards None None history = history.
Proof. reflexivity. Qed.

Lemma zsh_loop_refines full_command date_filter command_filter lines :
  forall history plain,
    for_each (zsh_line full_command date_filter command_filter)
      (history ++ filter_afterwards date_filter command_filter plain)%list lines
    = match for_each (zsh_line full_command None None) plain lines with
      | Some out =>
          Some (history ++ filter_afterwards date_filter command_filter out)%list
      | None => None
      end.
Proof.
  induction lines as [|raw lines IH]; intros history plain; simpl;
    [reflexivity|].
  rewrite zsh_line_refines.
  rewrite (zsh_line_refines full_command None None plain raw).
  destruct (zsh_line full_command None None [] raw) as [out|]; [|reflexivity].
  rewrite filter_afterwards_none, <- app_assoc, <- after_app. apply IH.
Qed.

Lemma bash_loop_refines now full_command date_filter command_filter lines :
  forall pending history plain,
    for_each (bash_line now full_command date_filter command_filter)
      (BashState pending
         (history ++ filter_afterwards date_filter command_filter plain)%list)
      lines
    = match for_each (bash_line now full_command None None)
              (BashState pending plain) lines with
      | Some st =>
          Some (BashState (current_timestamp st)
                  (history
                   ++ filter_afterwards date_filter command_filter
                        (history_of st))%list)
      | None => None
      end.
Proof.
  induction lines as [|raw lines IH]; intros pending history plain; simpl;
    [reflexivity|].
  rewrite bash_line_refines.
  rewrite (bash_line_refines full_command None None now pending plain raw).
  destruct (bash_line now full_command None None (BashState pending []) raw)
    as [[pending' out]|]; [|reflexivity].
  cbn [current_timestamp history_of].
  rewrite filter_afterwards_none, <- app_assoc, <- after_app. apply IH.
Qed.

Lemma parse_zsh_refines lines full_command date_filter command_filter :
  parse_zsh_history lines full_command date_filter command_filter
  = filter_afterwards date_filter command_filter
      (parse_zsh_history lines full_command None None).
Proof.
  unfold parse_zsh_history.
  pose proof (zsh_loop_refines full_command date_filter command_filter
                lines [] []) as H.
  rewrite after_nil in H. simpl in H. rewrite H.
  destruct (for_each (zsh_line full_command None None) [] lines);
    [reflexivity|]. symmetry; apply after_nil.
Qed.

Lemma parse_bash_refines now lines full_command date_filter command_filter :
  parse_bash_history now lines full_command date_filter command_filter
  = filter_afterwards date_filter command_filter
      (parse_bash_history now lines full_command None None).
Proof.
  unfold parse_bash_history.
  pose proof (bash_loop_refines now full_command date_filter command_filter
                lines None [] []) as H.
  rewrite after_nil in H. simpl in H. rewrite H.
  destruct (for_each (bash_line now full_command None None) _ lines);
    [reflexivity|]. symmetry; apply after_nil.
Qed.

(** C3.  For every history file, date filter and command filter, each parser
    run with the early filters returns exactly the records that the same
    parser, run with no filters, returns once the date filter and the
    command filter are applied to them afterwards; the clock reading [now]
    is the same in both runs. *)
Theorem early_filtering_is_filtering_afterwards
    (now : Z) (lines : list string) (full_command : bool)
    (date_filter : date_filter_t) (command_filter : option string) :
  parse_zsh_history lines full_command date_filter command_filter
  = filter_afterwards date_filter command_filter
      (parse_zsh_history lines full_command None None)
  /\ parse_bash_history now lines full_command date_filter command_filter
     = filter_afterwards date_filter command_filter
         (parse_bash_history now lines full_command None None).
Proof. split; [apply parse_zsh_refines | apply parse_bash_refines]. Qed.

(** ** The date window *)

Lemma before_start_ltb s t : s <> 0 -> before_start (Some s) t = (t <? s).
Proof.
  intros Hs; unfold before_start.
  destruct (Z.eqb_spec s 0); [contradiction|reflexivity].
Qed.

Lemma after_end_ltb e t : e <> 0 -> after_end (Some e) t = (e <? t).
Proof.
  intros He; unfold after_end.
  destruct (Z.eqb_spec e 0); [contradiction|]. simpl. apply Z.gtb_ltb.
Qed.

(** On bounds that are not 0 the date filter of [main] keeps the records
    whose timestamp lies between the two bounds, both included. *)
Lemma date_filter_loop_closed s e (history : list record) :
  s <> 0 -> e <> 0 ->
  date_filter_loop (Some s) (Some e) history
  = List.filter (fun r => (s <=? snd r) && (snd r <=? e)) history.
Proof.
  intros Hs He.
  induction history as [|[c t] history IH]; [reflexivity|].
  cbn [date_filter_loop List.filter snd].
  rewrite before_start_ltb, after_end_ltb, IH by assumption.
  destruct (Z.ltb_spec t s), (Z.leb_spec s t); try lia; [reflexivity|].
  destruct (Z.ltb_spec e t), (Z.leb_spec t e); try lia; reflexivity.
Qed.

(** C5, as the code has it.  With both bounds set and not 0, the date filter
    keeps exactly the records with [start <= timestamp <= end], in their
    order: at the filter of [main] and, through the parsers' early filter,
    in what the zsh and bash parsers return. *)
Theorem date_filter_keeps_closed_window
    (start_time end_time : Z) (history : list record)
    (now : Z) (lines : list string) (full_command : bool) :
  start_time <> 0 -> end_time <> 0 ->
  let inside (r : record) :=
    (start_time <=? snd r) && (snd r <=? end_time) in
  date_filter_loop (Some start_time) (Some end_time) history
  = List.filter inside history
  /\ parse_zsh_history lines full_command
       (Some (Some start_time, Some end_time)) None
     = List.filter inside (parse_zsh_history lines full_command None None)
  /\ parse_bash_history now lines full_command
       (Some (Some start_time, Some end_time)) None
     = List.filter inside (parse_bash_history now lines full_command None None).
Proof.
  intros Hs He inside.
  rewrite parse_zsh_refines, (parse_bash_refines now).
  unfold filter_afterwards. cbn [filter_active].
  rewrite !date_filter_loop_closed by assumption. auto.
Qed.

(** The window 10..20 keeps the record at 20 as well as the record at 10. *)
Lemma date_filter_keeps_closed_window_witness :
  date_filter_loop (Some 10) (Some 20) [("a", 9); ("b", 10); ("c", 20); ("d", 21)]
  = [("b", 10); ("c", 20)].
Proof.
  destruct (date_filter_keeps_closed_window 10 20
              [("a", 9); ("b", 10); ("c", 20); ("d", 21)] 0 [] false)
    as [H _]; [lia | lia |].
  rewrite H. reflexivity.
Defined.

(** C5, as the claim words it, fails: with the window [10, 20) a record whose
    timestamp equals the end bound would be dropped, and the filter keeps
    it. *)
Lemma date_filter_end_is_not_exclusive :
  ~ (forall r : record,
        In r (date_filter_loop (Some 10) (Some 20) [("ls", 20)])
        <-> In r [("ls", 20)] /\ 10 <= snd r < 20).
Proof.
  intros H. destruct (H ("ls", 20)) as [H1 _].
  destruct H1 as [_ [_ Hlt]]; [left; reflexivity|]. simpl in Hlt. lia.
Qed.

(** ** A bound of 0 *)

(** C10.  At each of the three places that filter by date (the zsh parser,
    the bash parser, the filter of [main]) a bound equal to 0 behaves as an
    absent bound: with [start = 0] the start test drops no record, with
    [end = 0] the end test drops no record. *)
Theorem zero_bound_is_absent
    (now : Z) (lines : list string) (full_command : bool)
    (command_filter : option string) (bound : option Z)
    (history : list record) (timestamp : Z) :
  (before_start (Some 0) timestamp = false
   /\ after_end (Some 0) timestamp = false)
  /\ (parse_zsh_history lines full_command (Some (Some 0, bound)) command_filter
      = parse_zsh_history lines full_command (Some (None, bound)) command_filter
      /\ parse_zsh_history lines full_command (Some (bound, Some 0)) command_filter
         = parse_zsh_history lines full_command (Some (bound, None)) command_filter)
  /\ (parse_bash_history now lines full_command (Some (Some 0, bound))
        command_filter
      = parse_bash_history now lines full_command (Some (None, bound))
          command_filter
      /\ parse_bash_history now lines full_command (Some (bound, Some 0))
           command_filter
         = parse_bash_history now lines full_command (Some (bound, None))
             command_filter)
  /\ (date_filter_loop (Some 0) bound history
      = date_filter_loop None bound history
      /\ date_filter_loop bound (Some 0) history
         = date_filter_loop bound None history).
Proof.
  assert (Hdate : forall b h,
             date_filter_loop (Some 0) b h = date_filter_loop None b h
             /\ date_filter_loop b (Some 0) h = date_filter_loop b None h).
  { intros b h; induction h as [|[c t] h [IH1 IH2]]; [split; reflexivity|].
    split; cbn [date_filter_loop].
    - change (before_start (Some 0) t) with (before_start None t).
      rewrite IH1; reflexivity.
    - change (after_end (Some 0) t) with (after_end None t).
      rewrite IH2; reflexivity. }
  split; [split; reflexivity|].
  split; [|split; [|apply Hdate]].
  - rewrite (parse_zsh_refines _ _ (Some (Some 0, bound))),
      (parse_zsh_refines _ _ (Some (None, bound))),
      (parse_zsh_refines _ _ (Some (bound, Some 0))),
      (parse_zsh_refines _ _ (Some (bound, None))).
    unfold filter_afterwards; cbv zeta.
    destruct (Hdate bound (parse_zsh_history lines full_command None None))
      as [-> ->]. split; reflexivity.
  - rewrite (parse_bash_refines _ _ _ (Some (Some 0, bound))),
      (parse_bash_refines _ _ _ (Some (None, bound))),
      (parse_bash_refines _ _ _ (Some (bound, Some 0))),
      (parse_bash_refines _ _ _ (Some (bound, None))).
    unfold filter_afterwards; cbv zeta.
    destruct (Hdate bound (parse_bash_history now lines full_command None None))
      as [-> ->]. split; reflexivity.
Qed.

(** ** Malformed entries *)

(** C7.  In reduced-token mode, when the first whitespace token of the raw
    text ends with a single quote and is all digits or is one of 35' and
    00;35', the result is [export] if the text starts with [export], else
    the first of [export], [echo], [set], [alias] that occurs in the text,
    else [malformed]. *)
Theorem extract_command_malformed
    (full_cmd first_word : string) (others : list string) :
  split full_cmd = first_word :: others ->
  endswith_char first_word "'" = true ->
  isdigit first_word = true \/ first_word = "35'" \/ first_word = "00;35'" ->
  extract_command full_cmd false
  = if startswith full_cmd "export" then "export"
    else if contains full_cmd "export" then "export"
    else if contains full_cmd "echo" then "echo"
    else if contains full_cmd "set" then "set"
    else if contains full_cmd "alias" then "alias"
    else "malformed".
Proof.
  intros Hsplit Hquote Hkind.
  unfold extract_command.
  destruct full_cmd as [|c r]; [discriminate|].
  cbn [truthy negb]. rewrite Hsplit, Hquote.
  assert (isdigit first_word || in_list first_word ["35'"; "00;35'"] = true)
    as ->.
  { destruct Hkind as [-> | [-> | ->]]; [reflexivity | |];
      rewrite orb_true_iff; right; reflexivity. }
  reflexivity.
Qed.

(** The token 00;35' followed by an alias definition reduces to [alias]. *)
Lemma extract_command_malformed_witness :
  extract_command "00;35' alias ll=ls" false = "alias".
Proof.
  rewrite (extract_command_malformed "00;35' alias ll=ls" "00;35'"
             ["alias"; "ll=ls"]).
  - reflexivity.
  - reflexivity.
  - reflexivity.
  - right; right; reflexivity.
Defined.

(** ** The pending timestamp of the bash parser *)

Lemma int_acc_all_decimal ds : forall acc T,
  int_acc acc ds = Some T -> all_chars isdigit_char ds = true.
Proof.
  induction ds as [|c ds IH]; intros acc T; simpl; [reflexivity|].
  unfold isdigit_char. destruct (isdecimal c); [|discriminate].
  intros H. simpl. exact (IH _ _ H).
Qed.

(** A text that [int] accepts passes [isdigit]. *)
Lemma int_isdigit ds T : int ds = Some T -> isdigit ds = true.
Proof.
  unfold int, isdigit. destruct (truthy ds); [|discriminate].
  intros H. simpl. exact (int_acc_all_decimal _ _ _ H).
Qed.

Lemma is_timestamp_line_marker ds T :
  int ds = Some T -> is_timestamp_line (String "#" ds) = true.
Proof.
  intros H. unfold is_timestamp_line.
  change (slice_from 1 (String "#" ds)) with ds.
  rewrite (int_isdigit _ _ H).
  destruct ds as [|c ds]; [discriminate|].
  rewrite andb_true_r. cbn [startswith String.length].
  apply andb_true_intro; split; [reflexivity|]. apply Z.ltb_lt. lia.
Qed.

Section BashMachine.

Variable now : Z.
Variable full_command : bool.
Variable date_filter : date_filter_t.
Variable command_filter : option string.

Let step := bash_line now full_command date_filter command_filter.

Lemma bash_marker_step st raw ds T :
  strip raw = String "#" ds -> int ds = Some T ->
  step st raw = Some (BashState (Some T) (history_of st)).
Proof.
  intros Hs Hi. unfold step, bash_line. rewrite Hs.
  rewrite (is_timestamp_line_marker _ _ Hi).
  change (slice_from 1 (String "#" ds)) with ds. rewrite Hi. reflexivity.
Qed.


Lemma bash_command_step st raw :
  is_timestamp_line (strip raw) = false -> strip raw <> EmptyString ->
  step st raw
  = Some (BashState None
            (history_of st
             ++ filter_afterwards date_filter command_filter
                  [(extract_command (strip raw) full_command,
                    effective_timestamp now (current_timestamp st))])%list).
Proof.
  intros Hm Hne. unfold step, bash_line. rewrite Hm.
  assert (Hline : truthy (strip raw) = true)
    by (destruct (strip raw); [contradiction|reflexivity]).
  rewrite Hline, (extract_command_truthy raw full_command Hline).
  rewrite after_one.
  destruct (match date_filter with Some _ => _ | None => _ end);
    [rewrite app_nil_r; reflexivity|].
  destruct (_ && _); [rewrite app_nil_r|]; reflexivity.
Qed.


End BashMachine.



(** C2, at the marker #0.  The marker stores 0 as the pending timestamp, and
    the command line that follows takes the clock reading instead of 0. *)
Theorem bash_marker_zero_takes_the_clock (now : Z) :
  for_each (bash_line now false None None) (BashState None []) ["#0"]
  = Some (BashState (Some 0) [])
  /\ parse_bash_history now ["#0"; "ls"] false None None = [("ls", now)].
Proof. split; reflexivity. Qed.

(** For a marker other than 0 the command line takes the marker's
    timestamp; a command line with no marker takes the clock reading. *)
Lemma bash_marker_then_command now full_command marker cmd ds T :
  strip marker = String "#" ds -> int ds = Some T -> T <> 0 ->
  is_timestamp_line (strip cmd) = false -> strip cmd <> EmptyString ->
  parse_bash_history now [marker; cmd] full_command None None
  = [(extract_command (strip cmd) full_command, T)].
Proof.
  intros Hs Hi HT Hm Hne. unfold parse_bash_history. cbn [for_each].
  rewrite (bash_marker_step now full_command None None _ marker ds T Hs Hi).
  rewrite (bash_command_step now full_command None None _ cmd Hm Hne).
  cbn [current_timestamp history_of effective_timestamp].
  destruct (Z.eqb_spec T 0); [contradiction|]. reflexivity.
Qed.

Lemma bash_command_without_marker now full_command cmd :
  is_timestamp_line (strip cmd) = false -> strip cmd <> EmptyString ->
  parse_bash_history now [cmd] full_command None None
  = [(extract_command (strip cmd) full_command, now)].
Proof.
  intros Hm Hne. unfold parse_bash_history. cbn [for_each].
  rewrite (bash_command_step now full_command None None _ cmd Hm Hne).
  reflexivity.
Qed.

(** A marker whose digits are not decimal (here the superscript two, code
    point 178) passes [isdigit] and makes [int] raise: the parser catches
    the exception and returns no record at all. *)
Lemma bash_superscript_marker_aborts now :
  parse_bash_history now
    ["ls"; String "#" (String (ascii_of_nat 178) EmptyString)]
    false None None
  = [].
Proof. reflexivity. Qed.

(** ** The separator of a zsh line *)

Section ZshEntry.

Lemma all_chars_impl (p q : ascii -> bool) s :
  (forall c, p c = true -> q c = true) ->
  all_chars p s = true -> all_chars q s = true.
Proof.
  intros Hpq. induction s as [|c s IH]; simpl; [reflexivity|].
  intros H. apply andb_true_iff in H. destruct H as [Hc Hs].
  rewrite (Hpq c Hc), (IH Hs). reflexivity.
Qed.

Lemma digits_exact_app T r :
  all_chars isdecimal T = true ->
  digits_exact (String.length T) (T ++ r) = Some (T, r).
Proof.
  induction T as [|c T IH]; simpl; [reflexivity|].
  intros H. apply andb_true_iff in H. destruct H as [Hc HT].
  rewrite Hc, (IH HT). reflexivity.
Qed.

Lemma digits_span_app D c r :
  all_chars isdecimal D = true -> isdecimal c = false ->
  digits_span (D ++ String c r) = (D, String c r).
Proof.
  intros HD Hc. induction D as [|d D IH]; simpl; [rewrite Hc; reflexivity|].
  simpl in HD. apply andb_true_iff in HD. destruct HD as [Hd HD].
  rewrite Hd, (IH HD). reflexivity.
Qed.

Lemma int_acc_decimal s : forall acc,
  all_chars isdecimal s = true -> exists t, int_acc acc s = Some t.
Proof.
  induction s as [|c s IH]; intros acc; simpl; [eauto|].
  intros H. apply andb_true_iff in H. destruct H as [Hc Hs].
  rewrite Hc. apply IH; exact Hs.
Qed.

Lemma suffix_from_app s1 s2 : suffix_from (String.length s1) (s1 ++ s2) = s2.
Proof. induction s1 as [|c s1 IH]; simpl; [reflexivity|exact IH]. Qed.

Lemma length_append s1 s2 :
  String.length (s1 ++ s2) = (String.length s1 + String.length s2)%nat.
Proof. induction s1 as [|c s1 IH]; simpl; [reflexivity|rewrite IH; reflexivity]. Qed.

Lemma contains_char_app s1 c s2 :
  contains (s1 ++ String c s2) (String c EmptyString) = true.
Proof.
  induction s1 as [|a s1 IH].
  - unfold contains. change (EmptyString ++ String c s2) with (String c s2).
    rewrite find_cons. cbn [startswith]. rewrite Ascii.eqb_refl.
    destruct s2; reflexivity.
  - apply contains_cons. exact IH.
Qed.

(** A prefix none of whose characters starts [sub] is skipped by [find]. *)
Lemma find_skip_prefix a sub s1 rest :
  all_chars (fun c => negb (Ascii.eqb a c)) s1 = true ->
  0 <= find rest (String a sub) ->
  find (s1 ++ rest) (String a sub)
  = Z.of_nat (String.length s1) + find rest (String a sub).
Proof.
  intros H Hk. induction s1 as [|c s1 IH]; [reflexivity|].
  simpl in H. apply andb_true_iff in H. destruct H as [Hc Hs].
  apply negb_true_iff in Hc. specialize (IH Hs).
  change (String c s1 ++ rest) with (String c (s1 ++ rest)).
  rewrite find_cons. cbn [startswith]. rewrite Hc. cbn [andb].
  rewrite IH.
  destruct (Z.eqb_spec (Z.of_nat (String.length s1) + find rest (String a sub))
              (-1)); [lia|].
  cbn [String.length]. lia.
Qed.

Lemma decimal_not_colon c : isdecimal c = true -> Ascii.eqb ":" c = false.
Proof.
  intros H. destruct (Ascii.eqb_spec ":" c) as [<-|]; [discriminate|reflexivity].
Qed.

Variables T D cmd : string.
Hypothesis T_length : String.length T = 10%nat.
Hypothesis T_decimal : all_chars isdecimal T = true.
Hypothesis D_nonempty : truthy D = true.
Hypothesis D_decimal : all_chars isdecimal D = true.

Lemma zsh_entry_match :
  match_timestamp (zsh_entry T D cmd) = Some (T, D ++ String ";" cmd).
Proof.
  assert (E : digits_exact 10 (T ++ String ":" (D ++ String ";" cmd))
              = Some (T, String ":" (D ++ String ";" cmd)))
    by (rewrite <- T_length; apply digits_exact_app; exact T_decimal).
  cbv beta iota delta [match_timestamp zsh_entry].
  rewrite E. reflexivity.
Qed.

Lemma zsh_entry_timestamp : search_timestamp (zsh_entry T D cmd) = Some T.
Proof.
  pose proof zsh_entry_match as E. unfold zsh_entry in *.
  cbn [search_timestamp]. rewrite E. reflexivity.
Qed.

Lemma zsh_entry_duration_end :
  search_duration_end (zsh_entry T D cmd)
  = Some (14 + String.length D)%nat.
Proof.
  assert (E : match_duration (zsh_entry T D cmd)
              = Some (14 + String.length D)%nat).
  { unfold match_duration. rewrite zsh_entry_match.
    rewrite digits_span_app by (exact D_decimal || reflexivity).
    destruct D as [|d D']; [discriminate|].
    change (Ascii.eqb ";" ";") with true. cbv iota. f_equal. lia. }
  unfold zsh_entry in *. cbn [search_duration_end]. rewrite E. reflexivity.
Qed.

Lemma zsh_entry_suffix :
  suffix_from (14 + String.length D) (zsh_entry T D cmd) = cmd.
Proof.
  unfold zsh_entry.
  replace (14 + String.length D)%nat
    with (S (S (String.length (T ++ String ":" (D ++ String ";" EmptyString)))))
    by (rewrite length_append; cbn [String.length];
        rewrite length_append, T_length; cbn [String.length]; lia).
  cbn [suffix_from].
  replace (T ++ String ":" (D ++ String ";" cmd))
    with ((T ++ String ":" (D ++ String ";" EmptyString)) ++ cmd).
  - apply suffix_from_app.
  - rewrite append_assoc, append_cons, append_assoc. reflexivity.
Qed.

Lemma zsh_entry_has_semicolon : contains (zsh_entry T D cmd) ";" = true.
Proof.
  unfold zsh_entry. do 2 apply contains_cons.
  replace (T ++ String ":" (D ++ String ";" cmd))
    with ((T ++ String ":" D) ++ String ";" cmd).
  - apply contains_char_app.
  - rewrite append_assoc, append_cons. reflexivity.
Qed.

(** With duration 0 the first [:0;] of the line is the end of the header. *)
Lemma zsh_entry_fast_path :
  D = "0" -> find (zsh_entry T D cmd) ":0;" = 12.
Proof.
  intros ->. unfold zsh_entry.
  rewrite find_cons. cbn [startswith Ascii.eqb]. 
  change (Ascii.eqb ":" ":" && (Ascii.eqb "0" " " && _)) with false.
  cbv iota.
  change (String " " (T ++ String ":" ("0" ++ String ";" cmd)))
    with (String " " T ++ String ":" (String "0" (String ";" cmd))).
  assert (Hhere : find (String ":" (String "0" (String ";" cmd))) ":0;" = 0).
  { rewrite find_cons. cbn [startswith].
    change (Ascii.eqb ":" ":") with true. change (Ascii.eqb "0" "0") with true.
    change (Ascii.eqb ";" ";") with true. destruct cmd; reflexivity. }
  rewrite find_skip_prefix.
  - rewrite Hhere. cbn [String.length]. rewrite T_length. reflexivity.
  - cbn [all_chars]. apply andb_true_iff. split; [reflexivity|].
    apply (all_chars_impl isdecimal); [|exact T_decimal].
    intros c Hc. rewrite (decimal_not_colon c Hc). reflexivity.
  - rewrite Hhere. lia.
Qed.

(** A line [: T:D;cmd] with 10 digits [T], digits [D] and a command that is
    not blank parses to the record of [cmd] and [T] when the duration is 0
    or the line holds no [:0;] at all. *)
Lemma zsh_valid_line_parses raw full_command history :
  strip raw = zsh_entry T D cmd ->
  truthy (strip cmd) = true ->
  D = "0" \/ find (zsh_entry T D cmd) ":0;" = -1 ->
  exists t,
    int T = Some t
    /\ zsh_line full_command None None history raw
       = Some (history ++ [(extract_command (strip cmd) full_command, t)])%list.
Proof.
  intros Hraw Hcmd Hsep.
  assert (HT : truthy T = true) by (destruct T; [discriminate|reflexivity]).
  destruct (int_acc_decimal T 0 T_decimal) as [t Ht].
  assert (Hint : int T = Some t) by (unfold int; rewrite HT; exact Ht).
  exists t. split; [exact Hint|].
  unfold zsh_line. rewrite Hraw.
  change (truthy (zsh_entry T D cmd)) with true. cbn [negb].
  rewrite zsh_entry_timestamp, Hint, zsh_entry_has_semicolon.
  assert (Hloc :
            (if negb (find (zsh_entry T D cmd) ":0;" =? -1)
             then Some (strip (slice_from (find (zsh_entry T D cmd) ":0;" + 3)
                                 (zsh_entry T D cmd)))
             else match search_duration_end (zsh_entry T D cmd) with
                  | Some e => Some (strip (suffix_from e (zsh_entry T D cmd)))
                  | None => None
                  end) = Some (strip cmd)).
  { destruct Hsep as [HD|Hnone].
    - rewrite (zsh_entry_fast_path HD). cbn [Z.eqb negb].
      unfold slice_from. change (Z.to_nat (12 + 3)) with 15%nat.
      pose proof zsh_entry_suffix as Hs. rewrite HD in Hs.
      cbn [String.length Nat.add] in Hs. rewrite HD, Hs. reflexivity.
    - rewrite Hnone. cbn [Z.eqb negb].
      rewrite zsh_entry_duration_end, zsh_entry_suffix. reflexivity. }
  cbv zeta. rewrite Hloc. rewrite Hcmd. cbn [negb].
  pose proof (extract_command_truthy cmd full_command Hcmd) as Hx.
  unfold strip in Hx. fold (strip cmd) in Hx. rewrite Hx. reflexivity.
Qed.

End ZshEntry.

(** C1, at a line whose duration is not 0 and whose command contains the
    text :0; .  The header ends at index 15 and the command is
    [echo a:0;b]; the parser cuts after the :0; inside the command and
    returns [b]. *)
Theorem zsh_separator_found_inside_command :
  let line := ": 1700000000:5;echo a:0;b" in
  search_duration_end line = Some 15%nat
  /\ extract_command (strip (suffix_from 15 line)) false = "echo"
  /\ find line ":0;" = 21
  /\ parse_zsh_history [line] false None None = [("b", 1700000000)]
  /\ parse_zsh_history [line] true None None = [("b", 1700000000)].
Proof. repeat split; reflexivity. Qed.

(** ** Exclusion *)

Lemma base_cmd_of_leading command :
  split command <> [] -> base_cmd_of command = Some (leading_token command).
Proof.
  unfold base_cmd_of, leading_token. intros H.
  destruct command as [|c r]; [contradiction H; reflexivity|].
  cbn [truthy]. destruct (split (String c r)); [contradiction|reflexivity].
Qed.

Lemma exclude_loop_filter (exclude_set : gset string) history :
  Forall (fun r : record => split (fst r) <> []) history ->
  forall filtered,
    exclude_loop exclude_set history filtered
    = Some (filtered
            ++ filter (fun r : record => leading_token (fst r) ∉ exclude_set)
                 history)%list.
Proof.
  induction 1 as [|[command timestamp] history Hr _ IH]; intros filtered.
  - simpl. rewrite app_nil_r. reflexivity.
  - cbn [exclude_loop]. rewrite (base_cmd_of_leading command Hr).
    rewrite filter_cons. cbn [fst].
    destruct (decide (leading_token command ∉ exclude_set)) as [Hin|Hin].
    + rewrite bool_decide_eq_true_2 by exact Hin.
      rewrite IH, <- app_assoc. reflexivity.
    + rewrite bool_decide_eq_false_2 by exact Hin. apply IH.
Qed.

(** C8.  On records that each have a leading token, [filter_commands]
    returns, for every exclusion list, exactly the records whose leading
    token is not in the exclusion set: the survivors are a subsequence of
    the input (same order, same values), and a record survives if and only
    if its leading token is not excluded.  The test reads the leading token
    of the command whether the command is a single token or a full command
    line. *)
Theorem filter_commands_removes_excluded
    (history : list record) (exclude_list : list string) :
  Forall (fun r : record => split (fst r) <> []) history ->
  let exclude_set : gset string := list_to_set exclude_list in
  exists survivors : list record,
    filter_commands history exclude_list = Some survivors
    /\ survivors
       = filter (fun r : record => leading_token (fst r) ∉ exclude_set) history
    /\ sublist survivors history
    /\ (forall r : record,
           r ∈ survivors
           <-> r ∈ history /\ leading_token (fst r) ∉ exclude_set).
Proof.
  intros Hwf exclude_set.
  exists (filter (fun r : record => leading_token (fst r) ∉ exclude_set) history).
  split; [|split; [reflexivity|split]].
  - unfold filter_commands. destruct exclude_list as [|x l] eqn:Hl.
    + f_equal. subst exclude_set. clear.
      induction history as [|r history IH]; [reflexivity|].
      rewrite filter_cons_True by apply not_elem_of_empty.
      f_equal; exact IH.
    + rewrite (exclude_loop_filter _ _ Hwf). reflexivity.
  - apply sublist_filter.
  - intros r. rewrite list_elem_of_filter. tauto.
Qed.

(** Excluding [ls] removes [ls] and [ls -la] and keeps the rest in order. *)
Lemma filter_commands_removes_excluded_witness :
  filter_commands [("ls", 1); ("git", 2); ("ls -la", 3); ("pwd", 4)] ["ls"]
  = Some [("git", 2); ("pwd", 4)].
Proof.
  destruct (filter_commands_removes_excluded
              [("ls", 1); ("git", 2); ("ls -la", 3); ("pwd", 4)] ["ls"])
    as (survivors & -> & -> & _).
  - repeat constructor; discriminate.
  - vm_compute. reflexivity.
Defined.

(** *** The records of both parsers have a leading token *)

Lemma split_first_token s : forall w ws,
  split s = w :: ws -> exists c w', w = String c w' /\ isspace c = false.
Proof.
  induction s as [|c r IH]; intros w ws; simpl; [discriminate|].
  destruct (isspace c) eqn:Hc; [apply IH|].
  destruct r as [|d r']; [intros [= <- _]; eauto|].
  destruct (isspace d); [intros [= <- _]; eauto|].
  destruct (split (String d r')); intros [= <- _]; eauto.
Qed.

Lemma split_token c w : isspace c = false -> split (String c w) <> [].
Proof. intros Hc. destruct (split_head c w Hc) as (? & ? & ->). discriminate. Qed.

Lemma scan_known_leading full_cmd cmds :
  Forall (fun c => split c <> []) cmds ->
  split (scan_known full_cmd cmds) <> [].
Proof.
  induction 1 as [|c cmds Hc _ IH]; simpl; [discriminate|].
  destruct (contains full_cmd c); assumption.
Qed.

Lemma extract_command_leading raw full_command :
  truthy (strip raw) = true ->
  split (extract_command (strip raw) full_command) <> [].
Proof.
  destruct (strip raw) as [|c r] eqn:Hs; [discriminate|]. intros _.
  pose proof (strip_head _ _ _ Hs) as Hc.
  unfold extract_command. cbn [truthy negb].
  destruct full_command; [apply split_token; exact Hc|].
  destruct (split_head c r Hc) as (w & ws & ->).
  destruct (_ && _); [|apply split_token; exact Hc].
  destruct (startswith _ _); [discriminate|].
  apply scan_known_leading. repeat constructor; discriminate.
Qed.

Lemma zsh_line_leading full_command raw out :
  zsh_line full_command None None [] raw = Some out ->
  Forall has_leading_token out.
Proof.
  unfold zsh_line.
  destruct (negb (truthy (strip raw))); [intros [= <-]; constructor|].
  destruct (search_timestamp (strip raw)) as [g|]; [|intros [= <-]; constructor].
  destruct (int g) as [timestamp|]; [|discriminate].
  cbn [filter_active andb].
  match goal with
  | |- context [match ?loc with Some _ => _ | None => Some [] end] =>
      assert (Hloc : loc = None \/ exists x, loc = Some (strip x))
  end.
  { destruct (contains _ _); [|left; reflexivity].
    destruct (negb _); [right; eauto|].
    destruct (search_duration_end _); [right; eauto|left; reflexivity]. }
  destruct Hloc as [-> | [x ->]]; [intros [= <-]; constructor|].
  destruct (truthy (strip x)) eqn:Hx; cbn [negb];
    [|intros [= <-]; constructor].
  destruct (truthy (extract_command (strip x) full_command));
    intros [= <-]; repeat constructor.
  apply extract_command_leading; exact Hx.
Qed.

Lemma bash_line_leading now full_command pending raw st :
  bash_line now full_command None None (BashState pending []) raw = Some st ->
  Forall has_leading_token (history_of st).
Proof.
  unfold bash_line.
  destruct (is_timestamp_line (strip raw)).
  { destruct (int _); [|discriminate]. intros [= <-]; constructor. }
  destruct (truthy (strip raw)) eqn:Hline; [|intros [= <-]; constructor].
  rewrite (extract_command_truthy raw full_command Hline).
  cbn. intros [= <-]. repeat constructor.
  apply extract_command_leading; exact Hline.
Qed.

Lemma filter_afterwards_leading date_filter command_filter history :
  Forall has_leading_token history ->
  Forall has_leading_token (filter_afterwards date_filter command_filter history).
Proof.
  intros H. unfold filter_afterwards.
  assert (Hd : forall s e,
             Forall has_leading_token (date_filter_loop s e history)).
  { intros s e. induction H as [|[c t] h Hr _ IH]; simpl; [constructor|].
    destruct (before_start s t); [exact IH|].
    destruct (after_end e t); [exact IH|]. constructor; assumption. }
  assert (Hc : forall f h, Forall has_leading_token h ->
                           Forall has_leading_token (command_filter_loop f h)).
  { intros f h Hh. induction Hh as [|[c t] h Hr _ IH]; simpl; [constructor|].
    destruct (matches_filter c f); [constructor|]; assumption. }
  destruct date_filter as [[s e]|], (filter_active command_filter); auto.
Qed.

(** Every record that a parser returns has a leading token, so the
    exclusion filter never fails on parsed history. *)
Lemma parsed_records_have_leading_token
    now lines full_command date_filter command_filter :
  Forall has_leading_token
    (parse_zsh_history lines full_command date_filter command_filter)
  /\ Forall has_leading_token
       (parse_bash_history now lines full_command date_filter command_filter).
Proof.
  split.
  - rewrite parse_zsh_refines. apply filter_afterwards_leading.
    unfold parse_zsh_history.
    assert (H : forall history,
               Forall has_leading_token history ->
               forall out,
                 for_each (zsh_line full_command None None) history lines
                 = Some out -> Forall has_leading_token out).
    { induction lines as [|raw rest IH]; intros history Hh out; simpl;
        [intros [= <-]; exact Hh|].
      rewrite (zsh_line_refines full_command None None history raw).
      destruct (zsh_line full_command None None [] raw) as [o|] eqn:Ho;
        [|discriminate].
      apply IH. rewrite filter_afterwards_none.
      apply Forall_app; split; [exact Hh|].
      exact (zsh_line_leading _ _ _ Ho). }
    destruct (for_each _ _ _) as [out|] eqn:Hout; [|constructor].
    exact (H [] ltac:(constructor) out Hout).
  - rewrite (parse_bash_refines now). apply filter_afterwards_leading.
    unfold parse_bash_history.
    assert (H : forall pending history,
               Forall has_leading_token history ->
               forall st,
                 for_each (bash_line now full_command None None)
                   (BashState pending history) lines = Some st ->
                 Forall has_leading_token (history_of st)).
    { induction lines as [|raw rest IH]; intros pending history Hh st; simpl;
        [intros [= <-]; exact Hh|].
      rewrite (bash_line_refines full_command None None now pending history raw).
      destruct (bash_line now full_command None None (BashState pending []) raw)
        as [o|] eqn:Ho; [|discriminate].
      apply IH. rewrite filter_afterwards_none.
      apply Forall_app; split; [exact Hh|].
      exact (bash_line_leading _ _ _ _ _ Ho). }
    destruct (for_each _ _ _) as [st|] eqn:Hst; [|constructor].
    exact (H None [] ltac:(constructor) st Hst).
Qed.

(** ** Tokens, [split] and [join] *)

Lemma is_token_cons c w :
  isspace c = false -> w = EmptyString \/ is_token w = true ->
  is_token (String c w) = true.
Proof.
  intros Hc [-> | Hw]; unfold is_token in *; simpl; rewrite Hc; simpl;
    [reflexivity|].
  apply andb_true_iff in Hw. tauto.
Qed.

Lemma split_all_tokens s : Forall (fun w => is_token w = true) (split s).
Proof.
  induction s as [|c r IH]; simpl; [constructor|].
  destruct (isspace c) eqn:Hc; [exact IH|].
  destruct r as [|d r'].
  { repeat constructor. apply is_token_cons; auto. }
  destruct (isspace d) eqn:Hd.
  { constructor; [apply is_token_cons; auto|exact IH]. }
  destruct (split (String d r')) as [|w ws].
  { repeat constructor. apply is_token_cons; auto. }
  inversion IH as [|? ? Hw Hws]; subst.
  constructor; [apply is_token_cons; auto|exact Hws].
Qed.

(** A token followed by a whitespace character: [split] cuts there. *)
Lemma split_token_app w : forall sp s,
  is_token w = true -> isspace sp = true ->
  split (w ++ String sp s) = w :: split s.
Proof.
  induction w as [|c w IH]; intros sp s Hw Hsp; [discriminate|].
  unfold is_token in Hw. simpl in Hw.
  destruct (isspace c) eqn:Hc; [discriminate|]. simpl in Hw.
  destruct w as [|d w'].
  - simpl. rewrite Hc, Hsp. reflexivity.
  - assert (Hw' : is_token (String d w') = true) by exact Hw.
    specialize (IH sp s Hw' Hsp).
    change (String c (String d w') ++ String sp s)
      with (String c (String d w' ++ String sp s)).
    remember (String d w' ++ String sp s) as r eqn:Hr.
    simpl in Hw. destruct (isspace d) eqn:Hd; [discriminate|].
    cbn [split]. rewrite Hc.
    destruct r as [|d0 r0]; [discriminate|].
    simpl in Hr. injection Hr as -> ->.
    rewrite Hd, IH. reflexivity.
Qed.

Lemma split_one_token w : is_token w = true -> split w = [w].
Proof.
  induction w as [|c w IH]; intros Hw; [discriminate|].
  unfold is_token in Hw. simpl in Hw.
  destruct (isspace c) eqn:Hc; [discriminate|]. simpl in Hw.
  destruct w as [|d w']; [simpl; rewrite Hc; reflexivity|].
  assert (Hw' : is_token (String d w') = true) by exact Hw.
  specialize (IH Hw').
  simpl in Hw. destruct (isspace d) eqn:Hd; [discriminate|].
  cbn [split]. rewrite Hc, Hd.
  cbn [split] in IH. rewrite Hd in IH. rewrite IH. reflexivity.
Qed.

(** Joining tokens with single spaces and splitting again gives the
    tokens back. *)
Lemma split_join_space ws :
  Forall (fun w => is_token w = true) ws -> split (join_space ws) = ws.
Proof.
  induction 1 as [|w ws Hw Hws IH]; [reflexivity|].
  destruct ws as [|w2 ws']; [exact (split_one_token w Hw)|].
  change (join_space (w :: w2 :: ws'))
    with (w ++ String " " (join_space (w2 :: ws'))).
  rewrite split_token_app by (exact Hw || reflexivity).
  rewrite IH. reflexivity.
Qed.

(** ** Alias resolution *)

Lemma alias_line_defines basename st raw name base :
  defines raw name base ->
  alias_line basename st raw
  = Some (AliasTables (<[name := base]> (aliases st))
            (<[name := basename]> (alias_sources st))).
Proof.
  intros (Hstart & alias_name & alias_cmd & Hsplit & <- & Hbase).
  unfold alias_line. rewrite Hstart.
  pose proof (split_once_contains _ _ _ _ Hsplit) as Hc.
  unfold slice_from in Hc.
  rewrite (contains_suffix_from _ _ _ Hc).
  fold (slice_from 6 (strip raw)) in Hc. rewrite Hc. cbn [andb].
  rewrite Hsplit.
  destruct (strip_by is_quote (strip alias_cmd)) as [|c r] eqn:Hv;
    [discriminate|].
  cbn [truthy]. destruct (split (String c r)); [discriminate|].
  injection Hbase as ->. reflexivity.
Qed.

Lemma alias_line_inv basename st raw st' :
  alias_line basename st raw = Some st' ->
  st' = st
  \/ exists name base,
       defines raw name base
       /\ st' = AliasTables (<[name := base]> (aliases st))
                  (<[name := basename]> (alias_sources st)).
Proof.
  unfold alias_line.
  destruct (startswith (strip raw) "alias ") eqn:Hstart;
    [|intros [= <-]; left; reflexivity].
  destruct (contains (strip raw) "="); cbn [andb];
    [|intros [= <-]; left; reflexivity].
  destruct (contains (slice_from 6 (strip raw)) "=");
    [|intros [= <-]; left; reflexivity].
  destruct (split_once "=" (slice_from 6 (strip raw)))
    as [[alias_name alias_cmd]|] eqn:Hsplit; [|discriminate].
  destruct (truthy _); [|intros [= <-]; left; reflexivity].
  destruct (split (strip_by is_quote (strip alias_cmd))) as [|base ws] eqn:Hv;
    [discriminate|].
  intros [= <-]. right. exists (strip alias_name), base.
  split; [|reflexivity].
  split; [exact Hstart|]. exists alias_name, alias_cmd.
  rewrite Hv. auto.
Qed.

Section AliasOrigin.

Variable files : list (string * list string).

Lemma alias_file_origin basename lines : forall todo st,
  In (basename, lines) files -> incl todo lines ->
  from_files files st -> from_files files (alias_file basename st todo).
Proof.
  induction todo as [|raw todo IH]; intros st Hf Hincl Hst; [exact Hst|].
  simpl. destruct (alias_line basename st raw) as [st'|] eqn:Hline;
    [|exact Hst].
  apply IH; [exact Hf| intros x Hx; apply Hincl; right; exact Hx |].
  destruct (alias_line_inv _ _ _ _ Hline) as [-> | (name & base & Hdef & ->)];
    [exact Hst|].
  intros n b. cbn [aliases].
  destruct (decide (name = n)) as [->|Hne].
  - rewrite lookup_insert_eq. intros [= <-].
    exists basename, lines, raw. split; [exact Hf|].
    split; [apply Hincl; left; reflexivity|exact Hdef].
  - rewrite lookup_insert_ne by exact Hne. apply Hst.
Qed.

Lemma load_aliases_origin : from_files files (load_aliases files).
Proof.
  unfold load_aliases.
  assert (H : forall todo st,
             incl todo files -> from_files files st ->
             from_files files
               (fold_left (fun st f => alias_file (fst f) st (snd f)) todo st)).
  { induction todo as [|[basename lines] todo IH]; intros st Hincl Hst;
      [exact Hst|].
    simpl. apply IH; [intros x Hx; apply Hincl; right; exact Hx|].
    apply (alias_file_origin basename lines);
      [apply Hincl; left; reflexivity | intros x Hx; exact Hx | exact Hst]. }
  apply H; [intros x Hx; exact Hx|].
  intros name base. cbn [aliases]. rewrite lookup_empty. discriminate.
Qed.

End AliasOrigin.

Lemma defines_token raw name base : defines raw name base -> is_token base = true.
Proof.
  intros (_ & alias_name & alias_cmd & _ & _ & Hbase).
  pose proof (split_all_tokens (strip_by is_quote (strip alias_cmd))) as H.
  destruct (split _) as [|w ws]; [discriminate|].
  injection Hbase as <-. inversion H; assumption.
Qed.

(** Resolving a token with a loaded table gives a token. *)
Lemma resolve_command_token files first :
  is_token first = true ->
  is_token (resolve_command first (aliases (load_aliases files))) = true.
Proof.
  intros Hfirst. unfold resolve_command.
  destruct (aliases (load_aliases files) !! first) as [base|] eqn:Hl;
    [|exact Hfirst].
  destruct (load_aliases_origin files first base Hl) as (? & ? & raw & _ & _ & Hd).
  exact (defines_token _ _ _ Hd).
Qed.

Lemma resolve_record_full table command timestamp first rest :
  split command = first :: rest ->
  resolve_record true table (command, timestamp)
  = (resolve_command first table
       ++ match rest with
          | [] => EmptyString
          | _ => " " ++ join_space rest
          end,
     timestamp).
Proof.
  intros Hs. unfold resolve_record. rewrite Hs.
  destruct rest as [|r rest]; [reflexivity|].
  assert ((1 <? Z.of_nat (List.length (first :: r :: rest))) = true) as ->;
    [|reflexivity].
  apply Z.ltb_lt. cbn [List.length]. lia.
Qed.

(** In full-command mode the tokens of the resolved command are the resolved
    leading token followed by the other tokens of the command. *)
Lemma resolve_record_full_tokens files command timestamp first rest :
  split command = first :: rest ->
  split (fst (resolve_record true (aliases (load_aliases files))
                (command, timestamp)))
  = resolve_command first (aliases (load_aliases files)) :: rest.
Proof.
  intros Hs. rewrite (resolve_record_full _ command timestamp first rest Hs).
  cbn [fst].
  pose proof (split_all_tokens command) as Htok. rewrite Hs in Htok.
  inversion Htok as [|? ? Hfirst Hrest]; subst.
  pose proof (resolve_command_token files first Hfirst) as Hres.
  destruct rest as [|r rest].
  - rewrite append_empty. apply split_one_token; exact Hres.
  - change (" " ++ join_space (r :: rest))
      with (String " " (join_space (r :: rest))).
    rewrite split_token_app by (exact Hres || reflexivity).
    rewrite split_join_space by exact Hrest. reflexivity.
Qed.

(** Resolution keeps the leading token of every record in place, so the
    exclusion filter does not fail on resolved history either. *)
Lemma resolve_history_leading files use_full_commands history :
  Forall has_leading_token history ->
  Forall has_leading_token
    (resolve_history use_full_commands (aliases (load_aliases files)) history).
Proof.
  intros H. unfold resolve_history.
  destruct (bool_decide _); [exact H|].
  induction H as [|[command timestamp] history Hr _ IH]; [constructor|].
  cbn [map]. constructor; [|exact IH].
  unfold has_leading_token in *. cbn [fst] in Hr.
  destruct (split command) as [|first rest] eqn:Hs; [contradiction|].
  destruct use_full_commands.
  - rewrite (resolve_record_full_tokens files command timestamp first rest Hs).
    discriminate.
  - cbn [resolve_record fst]. unfold resolve_command.
    destruct (aliases (load_aliases files) !! command) as [base|] eqn:Hl;
      cbn [default]; [|rewrite Hs; discriminate].
    destruct (load_aliases_origin files command base Hl)
      as (? & ? & raw & _ & _ & Hd).
    change (id base) with base.
    rewrite (split_one_token base (defines_token _ _ _ Hd)). discriminate.
Qed.

(** C9.  Resolution is a lookup with identity fallback.  In the table
    loaded from the configuration files, a mapped name resolves to the
    first whitespace token of the unquoted value of one of its definition
    lines, and a definition line takes effect as soon as it is read (so
    [alias ll='ls -la'] makes [ll] resolve to [ls]); an unmapped name
    resolves to itself.  In reduced mode the whole command is looked up; in
    full-command mode only the leading token is replaced and the other
    tokens follow it unchanged, joined by single spaces. *)
Theorem alias_resolution_is_lookup
    (files : list (string * list string)) (name command : string)
    (timestamp : Z) :
  let table := aliases (load_aliases files) in
  (forall base,
      table !! name = Some base ->
      resolve_command name table = base
      /\ exists basename lines raw,
           In (basename, lines) files /\ In raw lines /\ defines raw name base)
  /\ (table !! name = None -> resolve_command name table = name)
  /\ (forall basename st raw base,
      defines raw name base ->
      exists st',
        alias_line basename st raw = Some st'
        /\ resolve_command name (aliases st') = base)
  /\ resolve_command "ll"
       (aliases (load_aliases [(".bashrc", ["alias ll='ls -la'"])])) = "ls"
  /\ resolve_record false table (command, timestamp)
     = (resolve_command command table, timestamp)
  /\ (forall first rest,
      split command = first :: rest ->
      resolve_record true table (command, timestamp)
      = (resolve_command first table
           ++ match rest with
              | [] => EmptyString
              | _ => " " ++ join_space rest
              end,
         timestamp)
      /\ split (fst (resolve_record true table (command, timestamp)))
         = resolve_command first table :: rest).
Proof.
  intros table. repeat apply conj.
  - intros base Hl. split.
    + unfold resolve_command. rewrite Hl. reflexivity.
    + exact (load_aliases_origin files name base Hl).
  - intros Hl. unfold resolve_command. rewrite Hl. reflexivity.
  - intros basename st raw base Hd. eexists. split.
    + exact (alias_line_defines basename st raw name base Hd).
    + unfold resolve_command. cbn [aliases].
      rewrite lookup_insert_eq. reflexivity.
  - vm_compute. reflexivity.
  - reflexivity.
  - intros first rest Hs. split.
    + exact (resolve_record_full table command timestamp first rest Hs).
    + exact (resolve_record_full_tokens files command timestamp first rest Hs).
Qed.

(** With [ll] defined as [ls -la] and [g] as [git], [ll] resolves to [ls],
    [vim] to itself, and [g  commit   -m] to [git commit -m]. *)
Lemma alias_resolution_is_lookup_witness :
  let files := [(".bashrc", ["alias ll='ls -la'"; "alias g=git"])] in
  let table := aliases (load_aliases files) in
  resolve_command "ll" table = "ls"
  /\ resolve_command "vim" table = "vim"
  /\ split (fst (resolve_record true table ("g  commit   -m", 7)))
     = ["git"; "commit"; "-m"].
Proof.
  intros files table.
  destruct (alias_resolution_is_lookup files "ll" "g  commit   -m" 7)
    as (Hmapped & _ & _ & _ & _ & Hfull).
  destruct (alias_resolution_is_lookup files "vim" "g  commit   -m" 7)
    as (_ & Hunmapped & _).
  split; [|split].
  - apply (Hmapped "ls"). vm_compute. reflexivity.
  - apply Hunmapped. vm_compute. reflexivity.
  - destruct (Hfull "g" ["commit"; "-m"]) as [_ H]; [reflexivity|].
    etransitivity; [exact H|]. vm_compute. reflexivity.
Defined.

(** ** Sorting *)

Section InsertionSort.

Context {A : Type}.
Variable precedes : A -> A -> bool.
Hypothesis precedes_total :
  forall a b, precedes a b = false -> precedes b a = true.
Hypothesis precedes_trans :
  forall a b c, precedes a b = true -> precedes b c = true ->
                precedes a c = true.

Let ordered (a b : A) : Prop := precedes a b = true.

Lemma insert_sorted_perm a l :
  Permutation (insert_sorted precedes a l) (a :: l).
Proof.
  induction l as [|x l IH]; simpl; [reflexivity|].
  destruct (precedes a x); [reflexivity|].
  rewrite IH. apply perm_swap.
Qed.

Lemma sorted_perm l : Permutation (sorted precedes l) l.
Proof.
  induction l as [|a l IH]; simpl; [reflexivity|].
  rewrite insert_sorted_perm, IH. reflexivity.
Qed.

Lemma insert_sorted_ordered a l :
  StronglySorted ordered l ->
  StronglySorted ordered (insert_sorted precedes a l).
Proof.
  induction 1 as [|x l Hl IH Hx]; simpl; [repeat constructor|].
  destruct (precedes a x) eqn:Hax.
  - constructor; [constructor; assumption|].
    constructor; [exact Hax|].
    eapply List.Forall_impl; [|exact Hx].
    intros b Hb. exact (precedes_trans _ _ _ Hax Hb).
  - constructor; [exact IH|].
    eapply Permutation_Forall;
      [symmetry; apply insert_sorted_perm|].
    constructor; [exact (precedes_total _ _ Hax)|exact Hx].
Qed.

Lemma sorted_ordered l : StronglySorted ordered (sorted precedes l).
Proof.
  induction l as [|a l IH]; simpl; [constructor|].
  apply insert_sorted_ordered; exact IH.
Qed.

End InsertionSort.

Lemma StronglySorted_weaken {A : Type} (R R' : A -> A -> Prop) l :
  (forall a b, R a b -> R' a b) -> StronglySorted R l -> StronglySorted R' l.
Proof.
  intros HR. induction 1 as [|x l _ IH Hx]; constructor; [exact IH|].
  eapply List.Forall_impl; [|exact Hx]. intros b; apply HR.
Qed.

Lemma sorted_by_time_spec history :
  Permutation (sorted_by_time history) history
  /\ StronglySorted (fun a b : record => snd a <= snd b)
       (sorted_by_time history).
Proof.
  split; [apply sorted_perm|].
  eapply StronglySorted_weaken;
    [|apply (sorted_ordered (fun r x : record => snd r <=? snd x))].
  - intros a b H. apply Z.leb_le; exact H.
  - intros a b H. apply Z.leb_le. apply Z.leb_gt in H. lia.
  - intros a b c H1 H2. apply Z.leb_le. apply Z.leb_le in H1, H2. lia.
Qed.

Lemma sorted_by_tally_spec items :
  Permutation (sorted_by_tally items) items
  /\ StronglySorted (fun a b : string * Z => snd b <= snd a)
       (sorted_by_tally items).
Proof.
  split; [apply sorted_perm|].
  eapply StronglySorted_weaken;
    [|apply (sorted_ordered (fun e x : string * Z => snd x <=? snd e))].
  - intros a b H. apply Z.leb_le; exact H.
  - intros a b H. apply Z.leb_le. apply Z.leb_gt in H. lia.
  - intros a b c H1 H2. apply Z.leb_le. apply Z.leb_le in H1, H2. lia.
Qed.

(** ** Correlations *)

Section Tally.

Lemma tally_bump k d c :
  tally (bump k d) c = tally d c + (if String.eqb k c then 1 else 0).
Proof.
  induction d as [|[k' n] d IH]; simpl.
  - destruct (String.eqb k c); lia.
  - destruct (String.eqb_spec k' k) as [->|Hne]; simpl.
    + destruct (String.eqb k c); lia.
    + destruct (String.eqb_spec k' c) as [->|Hc]; [|exact IH].
      destruct (String.eqb_spec k c); [subst; contradiction|lia].
Qed.

Lemma bump_keys k d x :
  In x (map fst (bump k d)) <-> x = k \/ In x (map fst d).
Proof.
  induction d as [|[k' n] d IH]; simpl; [intuition|].
  destruct (String.eqb_spec k' k) as [->|Hne]; simpl; [intuition|].
  rewrite IH. intuition.
Qed.

Lemma bump_ok k d : dict_ok d -> dict_ok (bump k d).
Proof.
  intros [Hnd Hpos]. induction d as [|[k' n] d IH]; simpl.
  - split.
    + constructor; [intros []|constructor].
    + constructor; [simpl; lia|constructor].
  - inversion Hnd as [|? ? Hnotin Hnd']; subst.
    inversion Hpos as [|? ? Hn Hpos']; subst. simpl in Hn.
    destruct (String.eqb_spec k' k) as [->|Hne].
    + split; [exact Hnd|]. constructor; [simpl; lia|exact Hpos'].
    + destruct (IH Hnd' Hpos') as [IH1 IH2].
      split; simpl; constructor; auto.
      rewrite bump_keys. intros [->|Hin]; [apply Hne; reflexivity|].
      exact (Hnotin Hin).
Qed.

Lemma tally_in d c n :
  List.NoDup (map fst d) -> In (c, n) d -> tally d c = n.
Proof.
  induction d as [|[k m] d IH]; simpl; [tauto|].
  intros Hnd Hin. inversion Hnd as [|? ? Hnotin Hnd']; subst.
  destruct Hin as [[= -> ->]|Hin]; [rewrite String.eqb_refl; reflexivity|].
  destruct (String.eqb_spec k c) as [->|Hne]; [|apply IH; assumption].
  exfalso. apply Hnotin. apply (in_map fst) in Hin. exact Hin.
Qed.

Lemma in_tally d c : tally d c <> 0 -> In (c, tally d c) d.
Proof.
  induction d as [|[k m] d IH]; simpl; [congruence|].
  destruct (String.eqb_spec k c) as [->|Hne]; [left; reflexivity|].
  intros H. right. exact (IH H).
Qed.

Lemma dict_ok_in d c n :
  dict_ok d -> (In (c, n) d <-> 0 < n /\ n = tally d c).
Proof.
  intros [Hnd Hpos]. split.
  - intros Hin. split.
    + rewrite List.Forall_forall in Hpos. exact (Hpos _ Hin).
    + symmetry. exact (tally_in _ _ _ Hnd Hin).
  - intros [Hn ->]. apply in_tally. lia.
Qed.

End Tally.

Section Ranges.

Lemma range_from_in len : forall lo j,
  In j (range_from lo len) <-> lo <= j < lo + Z.of_nat len.
Proof.
  induction len as [|len IH]; intros lo j.
  - simpl. lia.
  - cbn [range_from In]. rewrite IH. lia.
Qed.

Lemma range_in lo hi j : In j (range lo hi) <-> lo <= j < hi.
Proof. unfold range. rewrite range_from_in. lia. Qed.

Lemma range_from_app a : forall lo b,
  range_from lo (a + b)
  = (range_from lo a ++ range_from (lo + Z.of_nat a) b)%list.
Proof.
  induction a as [|a IH]; intros lo b.
  - simpl. f_equal. lia.
  - cbn [Nat.add range_from app]. rewrite IH. do 3 f_equal. lia.
Qed.

Lemma range_split lo mid hi :
  lo <= mid <= hi -> range lo hi = (range lo mid ++ range mid hi)%list.
Proof.
  intros H. unfold range.
  replace (Z.to_nat (hi - lo))
    with (Z.to_nat (mid - lo) + Z.to_nat (hi - mid))%nat by lia.
  rewrite range_from_app. do 2 f_equal. lia.
Qed.

Lemma filter_none {A : Type} (f : A -> bool) l :
  (forall x, In x l -> f x = false) -> List.filter f l = [].
Proof.
  induction l as [|x l IH]; intros H; simpl; [reflexivity|].
  rewrite (H x (or_introl eq_refl)). apply IH.
  intros y Hy; apply H; right; exact Hy.
Qed.

(** Restricting the positions [0..n-1] to the window [lo..hi-1] by a test
    gives the same hits as running over the window. *)
Lemma filter_window (f : Z -> bool) lo hi n :
  0 <= lo -> hi <= n ->
  List.filter f (range lo hi)
  = List.filter (fun j => (lo <=? j) && (j <? hi) && f j) (range 0 n).
Proof.
  intros Hlo Hhi.
  destruct (Z.le_gt_cases lo hi) as [Hle|Hgt].
  - rewrite (range_split 0 lo n), (range_split lo hi n) by lia.
    rewrite !List.filter_app.
    rewrite (filter_none _ (range 0 lo)), (filter_none _ (range hi n)).
    + rewrite app_nil_r. simpl. apply List.filter_ext_in.
      intros j Hj. apply range_in in Hj.
      destruct (Z.leb_spec lo j), (Z.ltb_spec j hi); try lia. reflexivity.
    + intros j Hj. apply range_in in Hj.
      destruct (Z.ltb_spec j hi); [lia|]. rewrite andb_false_r. reflexivity.
    + intros j Hj. apply range_in in Hj.
      destruct (Z.leb_spec lo j); [lia|]. reflexivity.
  - unfold range at 1. replace (Z.to_nat (hi - lo)) with 0%nat by lia.
    symmetry. apply filter_none. intros j _.
    destruct (Z.leb_spec lo j), (Z.ltb_spec j hi); try lia; reflexivity.
Qed.

Lemma enumerate_from {A : Type} (l : list A) : forall s i x,
  In (i, x) (combine (range_from s (List.length l)) l) ->
  s <= i /\ nth_error l (Z.to_nat (i - s)) = Some x.
Proof.
  induction l as [|a l IH]; intros s i x; simpl; [tauto|].
  intros [[= <- <-]|Hin].
  - split; [lia|]. replace (s - s) with 0 by lia. reflexivity.
  - destruct (IH _ _ _ Hin) as [Hs Hn]. split; [lia|].
    replace (Z.to_nat (i - s)) with (S (Z.to_nat (i - (s + 1)))) by lia.
    exact Hn.
Qed.

Lemma enumerate_in {A : Type} (l : list A) i x :
  In (i, x) (enumerate l) -> 0 <= i /\ nth_error l (Z.to_nat i) = Some x.
Proof.
  unfold enumerate, range. rewrite Z.sub_0_r, Nat2Z.id.
  intros H. apply enumerate_from in H. rewrite Z.sub_0_r in H. exact H.
Qed.

Lemma enumerate_positions {A : Type} (l : list A) :
  map fst (enumerate l) = range 0 (Z.of_nat (List.length l)).
Proof.
  unfold enumerate, range. rewrite Z.sub_0_r, Nat2Z.id.
  generalize 0. induction l as [|a l IH]; intros s; simpl; [reflexivity|].
  f_equal. apply IH.
Qed.

(** [range(n)] runs over the positions [0, 1, ..., n - 1], each once and in
    this order. *)
Lemma range_from_seq len : forall s,
  range_from (Z.of_nat s) len = map Z.of_nat (seq s len).
Proof.
  induction len as [|len IH]; intros s; [reflexivity|].
  cbn [range_from seq map]. f_equal. rewrite <- IH. f_equal. lia.
Qed.

Lemma range_seq n : range 0 (Z.of_nat n) = map Z.of_nat (seq 0 n).
Proof.
  unfold range. rewrite Z.sub_0_r, Nat2Z.id. exact (range_from_seq n 0).
Qed.

End Ranges.

Section CorrelationLoops.

Variable sorted_history : list record.
Variable target : string.
Variable window : Z.

Let n : Z := Z.of_nat (List.length sorted_history).

Local Abbreviation hit_at := (hit sorted_history target window).

Lemma inner_step_spec i timestamp d j :
  dict_ok d ->
  let d' :=
    if negb (i =? j) then
      match nth_error sorted_history (Z.to_nat j) with
      | Some (other_cmd, other_time) =>
          if (Z.abs (other_time - timestamp) <=? window)
             && negb (String.eqb other_cmd target)
          then bump other_cmd d
          else d
      | None => d
      end
    else d in
  dict_ok d'
  /\ forall c,
       tally d' c = tally d c + (if hit_at i timestamp c j then 1 else 0).
Proof.
  intros Hd. unfold hit.
  destruct (negb (i =? j)); cbn [andb];
    [|split; [exact Hd|intros c; lia]].
  destruct (nth_error sorted_history (Z.to_nat j)) as [[oc ot]|];
    [|split; [exact Hd|intros c; lia]].
  destruct ((Z.abs (ot - timestamp) <=? window)
            && negb (String.eqb oc target)); cbn [andb];
    [|split; [exact Hd|intros c; lia]].
  split; [exact (bump_ok oc d Hd)|]. intros c. apply tally_bump.
Qed.

Lemma correlate_one_spec i timestamp d :
  dict_ok d ->
  let d' := correlate_one sorted_history target window i timestamp d in
  dict_ok d'
  /\ forall c,
       tally d' c
       = tally d c
         + Z.of_nat
             (List.length
                (List.filter (hit_at i timestamp c)
                   (range (Z.max 0 (i - 10)) (Z.min n (i + 11))))).
Proof.
  unfold correlate_one. fold n.
  generalize (range (Z.max 0 (i - 10)) (Z.min n (i + 11))) as js.
  intros js. revert d.
  induction js as [|j js IH]; intros d Hd.
  - simpl. split; [exact Hd|intros c; lia].
  - cbn [fold_left List.filter].
    destruct (inner_step_spec i timestamp d j Hd) as [Hok1 Ht1].
    destruct (IH _ Hok1) as [Hok Ht].
    split; [exact Hok|]. intros c.
    etransitivity; [apply Ht|]. rewrite Ht1.
    destruct (hit_at i timestamp c j);
      cbn [List.length]; lia.
Qed.

Lemma is_neighbour_hit i timestamp c j :
  0 <= i -> 0 <= j < n ->
  nth_error sorted_history (Z.to_nat i) = Some (target, timestamp) ->
  is_neighbour sorted_history target window c i j
  = (Z.max 0 (i - 10) <=? j) && (j <? Z.min n (i + 11))
    && hit_at i timestamp c j.
Proof.
  intros Hi Hj Hnth. unfold is_neighbour, hit. rewrite Hnth.
  rewrite String.eqb_refl. cbn [andb].
  assert (Hwin : (Z.abs (j - i) <=? 10)
                 = (Z.max 0 (i - 10) <=? j) && (j <? Z.min n (i + 11))).
  { destruct (Z.leb_spec (Z.abs (j - i)) 10),
      (Z.leb_spec (Z.max 0 (i - 10)) j),
      (Z.ltb_spec j (Z.min n (i + 11))); try reflexivity; lia. }
  rewrite <- Hwin.
  destruct (nth_error sorted_history (Z.to_nat j)) as [[cj tj]|].
  - destruct (negb (i =? j)), (Z.abs (j - i) <=? 10),
      (Z.abs (tj - timestamp) <=? window), (negb (String.eqb cj target)),
      (String.eqb cj c); reflexivity.
  - destruct (negb (i =? j)), (Z.abs (j - i) <=? 10); reflexivity.
Qed.

Lemma is_neighbour_not_target i cmd timestamp c j :
  nth_error sorted_history (Z.to_nat i) = Some (cmd, timestamp) ->
  String.eqb cmd target = false ->
  is_neighbour sorted_history target window c i j = false.
Proof.
  intros Hnth Hne. unfold is_neighbour. rewrite Hnth, Hne.
  destruct (nth_error sorted_history (Z.to_nat j)) as [[cj tj]|];
    reflexivity.
Qed.

Lemma filter_pairs_with {B : Type} (P : Z * B -> bool) (i : Z) (l : list B) :
  List.length (List.filter P (map (fun y => (i, y)) l))
  = List.length (List.filter (fun y => P (i, y)) l).
Proof.
  induction l as [|y l IH]; simpl; [reflexivity|].
  destruct (P (i, y)); simpl; rewrite IH; reflexivity.
Qed.

Lemma outer_loop_spec (es : list (Z * record)) : forall d,
  (forall i r, In (i, r) es ->
               0 <= i /\ nth_error sorted_history (Z.to_nat i) = Some r) ->
  dict_ok d ->
  let d' :=
    fold_left
      (fun correlations e =>
         let '(i, (cmd, timestamp)) := e in
         if String.eqb cmd target then
           correlate_one sorted_history target window i timestamp
             correlations
         else correlations)
      es d in
  dict_ok d'
  /\ forall c,
       tally d' c
       = tally d c
         + Z.of_nat
             (List.length
                (List.filter
                   (fun p =>
                      is_neighbour sorted_history target window c
                        (fst p) (snd p))
                   (list_prod (map fst es) (range 0 n)))).
Proof.
  induction es as [|[i [cmd timestamp]] es IH]; intros d Hes Hd.
  - simpl. split; [exact Hd|intros c; lia].
  - destruct (Hes i (cmd, timestamp) (or_introl eq_refl)) as [Hi Hnth].
    assert (Hes' : forall i r, In (i, r) es ->
               0 <= i /\ nth_error sorted_history (Z.to_nat i) = Some r)
      by (intros i' r' H'; apply Hes; right; exact H').
    cbn [fold_left map fst list_prod].
    assert (Hcount : forall c,
               List.length
                 (List.filter
                    (fun p => is_neighbour sorted_history target window c
                                (fst p) (snd p))
                    (map (fun y => (i, y)) (range 0 n)))
               = if String.eqb cmd target
                 then List.length
                        (List.filter (hit_at i timestamp c)
                           (range (Z.max 0 (i - 10)) (Z.min n (i + 11))))
                 else 0%nat).
    { intros c. rewrite filter_pairs_with. cbn [fst snd].
      destruct (String.eqb_spec cmd target) as [->|Hne].
      - rewrite (filter_window (hit_at i timestamp c) (Z.max 0 (i - 10))
                   (Z.min n (i + 11)) n) by lia.
        f_equal.
        apply List.filter_ext_in. intros j Hj. apply range_in in Hj.
        apply is_neighbour_hit; assumption.
      - rewrite filter_none; [reflexivity|]. intros j _.
        apply (is_neighbour_not_target i cmd timestamp); [exact Hnth|].
        apply String.eqb_neq; exact Hne. }
    destruct (String.eqb cmd target).
    + destruct (correlate_one_spec i timestamp d Hd) as [Hok Ht].
      destruct (IH _ Hes' Hok) as [Hok' Ht'].
      split; [exact Hok'|]. intros c.
      rewrite Ht', Ht, List.filter_app, length_app, Hcount. lia.
    + destruct (IH _ Hes' Hd) as [Hok' Ht'].
      split; [exact Hok'|]. intros c.
      rewrite Ht', List.filter_app, length_app, Hcount. lia.
Qed.

End CorrelationLoops.

(** What [get_command_correlations] returns: a dictionary whose tally for
    each command is the number of neighbour pairs of the sorted sequence. *)
Lemma get_command_correlations_spec history target window :
  let correlations := get_command_correlations history target window in
  dict_ok correlations
  /\ forall c,
       tally correlations c
       = neighbour_pairs (sorted_by_time history) target window c.
Proof.
  unfold get_command_correlations.
  destruct (outer_loop_spec (sorted_by_time history) target window
              (enumerate (sorted_by_time history)) [])
    as [Hok Ht].
  - intros i r H. exact (enumerate_in _ _ _ H).
  - split; constructor.
  - split; [exact Hok|]. intros c. rewrite Ht.
    rewrite enumerate_positions. unfold neighbour_pairs.
    rewrite <- range_seq. reflexivity.
Qed.

Lemma is_neighbour_true sorted_history target window c i j :
  is_neighbour sorted_history target window c i j = true
  <-> exists ti tj,
        nth_error sorted_history (Z.to_nat i) = Some (target, ti)
        /\ nth_error sorted_history (Z.to_nat j) = Some (c, tj)
        /\ i <> j /\ Z.abs (j - i) <= 10 /\ Z.abs (tj - ti) <= window
        /\ c <> target.
Proof.
  unfold is_neighbour. split.
  - destruct (nth_error sorted_history (Z.to_nat i)) as [[ci ti]|];
      [|discriminate].
    destruct (nth_error sorted_history (Z.to_nat j)) as [[cj tj]|];
      [|discriminate].
    intros H.
    apply andb_true_iff in H; destruct H as [H H6].
    apply andb_true_iff in H; destruct H as [H H5].
    apply andb_true_iff in H; destruct H as [H H4].
    apply andb_true_iff in H; destruct H as [H H3].
    apply andb_true_iff in H; destruct H as [H1 H2].
    apply String.eqb_eq in H1, H6. subst ci cj.
    apply negb_true_iff in H2, H5.
    apply Z.eqb_neq in H2. apply String.eqb_neq in H5.
    apply Z.leb_le in H3, H4.
    exists ti, tj. repeat split; assumption.
  - intros (ti & tj & -> & -> & Hne & H10 & Hw & Hc).
    rewrite !String.eqb_refl.
    apply Z.eqb_neq in Hne. apply String.eqb_neq in Hc.
    apply Z.leb_le in H10, Hw.
    rewrite Hne, Hc, H10, Hw. reflexivity.
Qed.

Lemma top_correlations_take history target :
  top_correlations history target true
  = take 5 (sorted_by_tally
              (get_command_correlations history target default_window)).
Proof.
  unfold top_correlations. cbn [andb].
  destruct (1 <? Z.of_nat (List.length history)) eqn:Hlen.
  - destruct (get_command_correlations history target default_window);
      reflexivity.
  - apply Z.ltb_ge in Hlen.
    destruct history as [|[c t] [|r history]];
      [reflexivity| |cbn [List.length] in Hlen; lia].
    unfold get_command_correlations. simpl.
    destruct (String.eqb c target); reflexivity.
Qed.

(** C4.  Correlation analysis sorts the records by timestamp ascending.
    Then the tally it keeps for a command [c] is the number of pairs of
    positions [(i, j)] of the sorted sequence where [i] holds the target,
    [j] is another position at most 10 away from [i], the two timestamps
    differ by at most the window (a difference equal to the window counts,
    one second more does not) and the record at [j] is [c], which is not
    the target; commands with no such pair are not in the dictionary.  The
    reported list is the first 5 entries of the dictionary sorted by tally
    descending, computed with the default window of 300 seconds. *)
Theorem correlations_tally_positional_neighbours
    (history : list record) (target_command : string) (window_seconds : Z) :
  let sorted_history := sorted_by_time history in
  let correlations :=
    get_command_correlations history target_command window_seconds in
  let reported :=
    get_command_correlations history target_command default_window in
  let top := top_correlations history target_command true in
  (Permutation sorted_history history
   /\ StronglySorted (fun a b : record => snd a <= snd b) sorted_history)
  /\ (forall c i j,
         is_neighbour sorted_history target_command window_seconds c i j = true
         <-> exists ti tj,
               nth_error sorted_history (Z.to_nat i)
               = Some (target_command, ti)
               /\ nth_error sorted_history (Z.to_nat j) = Some (c, tj)
               /\ i <> j /\ Z.abs (j - i) <= 10
               /\ Z.abs (tj - ti) <= window_seconds
               /\ c <> target_command)
  /\ List.NoDup (map fst correlations)
  /\ (forall c k,
         In (c, k) correlations
         <-> 0 < k
             /\ k = neighbour_pairs sorted_history target_command
                      window_seconds c)
  /\ default_window = 300
  /\ top = take 5 (sorted_by_tally reported)
  /\ exists rest,
       Permutation (top ++ rest)%list reported
       /\ StronglySorted (fun a b : string * Z => snd b <= snd a)
            (top ++ rest)%list
       /\ List.length top = Nat.min 5 (List.length reported).
Proof.
  intros sorted_history correlations reported top.
  split; [apply sorted_by_time_spec|].
  split; [intros c i j; apply is_neighbour_true|].
  destruct (get_command_correlations_spec history target_command
              window_seconds) as [Hok Ht].
  split; [exact (proj1 Hok)|].
  split.
  { intros c k. fold correlations in Hok, Ht.
    rewrite (dict_ok_in correlations c k Hok), Ht. reflexivity. }
  split; [reflexivity|].
  assert (Htop : top = take 5 (sorted_by_tally reported))
    by apply top_correlations_take.
  split; [exact Htop|].
  exists (drop 5 (sorted_by_tally reported)).
  destruct (sorted_by_tally_spec reported) as [Hperm Hsorted].
  rewrite Htop, take_drop. split; [exact Hperm|]. split; [exact Hsorted|].
  rewrite length_take. rewrite (Permutation_length Hperm). reflexivity.
Qed.

Lemma correlations_tally_positional_neighbours_witness :
  In ("ls", 1)
    (get_command_correlations [("git", 1000); ("ls", 1300); ("vim", 700)]
       "git" 300)
  /\ In ("vim", 1)
       (get_command_correlations [("git", 1000); ("ls", 1300); ("vim", 700)]
          "git" 300)
  /\ (forall k,
        ~ In ("ls", k)
            (get_command_correlations
               [("git", 1000); ("ls", 1301); ("vim", 700)] "git" 300))
  /\ top_correlations [("git", 1000); ("ls", 1300); ("vim", 700)] "git" true
     = [("vim", 1); ("ls", 1)].
Proof.
  pose proof (correlations_tally_positional_neighbours
                [("git", 1000); ("ls", 1300); ("vim", 700)] "git" 300)
    as H300.
  pose proof (correlations_tally_positional_neighbours
                [("git", 1000); ("ls", 1301); ("vim", 700)] "git" 300)
    as H301.
  cbv zeta in H300, H301.
  destruct H300 as (_ & _ & _ & Hin300 & _ & Htop & _).
  destruct H301 as (_ & _ & _ & Hin301 & _).
  split; [apply Hin300; split; [lia|vm_compute; reflexivity]|].
  split; [apply Hin300; split; [lia|vm_compute; reflexivity]|].
  split.
  - intros k Hk. apply Hin301 in Hk. destruct Hk as [Hpos Hk].
    vm_compute in Hk. subst k. discriminate Hpos.
  - rewrite Htop. vm_compute. reflexivity.
Defined.

(** * Further properties *)

Example detect_zsh_ex :
  detect_shell_type ["#1700000000"; ": 1700000000:0;ls"] = "zsh".
Proof. reflexivity. Qed.

Example detect_marked_ex :
  detect_shell_type ["ls"; "#1700000000"; "pwd"] = "bash_timestamped".
Proof. reflexivity. Qed.

Example detect_plain_ex : detect_shell_type ["ls"; "# a comment"] = "bash".
Proof. reflexivity. Qed.

Example top_commands_ex :
  top_commands [("git", 1); ("git", 2); ("ls", 3)] 10 = [("git", 2); ("ls", 1)].
Proof. reflexivity. Qed.

Example top_commands_ties_ex :
  top_commands [("b", 1); ("a", 2); ("c", 3); ("a", 4); ("c", 5)] 2
  = [("a", 2); ("c", 2)].
Proof. reflexivity. Qed.

(** ** Filters as list filters *)

Lemma date_filter_loop_filter s e (history : list record) :
  date_filter_loop s e history = List.filter (in_date_window s e) history.
Proof.
  induction history as [|[c t] history IH]; [reflexivity|].
  cbn [date_filter_loop List.filter]. unfold in_date_window at 1. cbn [snd].
  destruct (before_start s t); cbn [negb andb]; [exact IH|].
  destruct (after_end e t); cbn [negb]; [exact IH|]. f_equal; exact IH.
Qed.

Lemma command_filter_loop_filter f (history : list record) :
  command_filter_loop f history
  = List.filter (fun r => matches_filter (fst r) f) history.
Proof.
  induction history as [|[c t] history IH]; [reflexivity|].
  cbn [command_filter_loop List.filter fst].
  destruct (matches_filter c f); [f_equal|]; exact IH.
Qed.

Lemma List_filter_sublist {A : Type} (f : A -> bool) l :
  sublist (List.filter f l) l.
Proof.
  induction l as [|x l IH]; simpl; [constructor|].
  destruct (f x); [apply sublist_skip|apply sublist_cons]; exact IH.
Qed.

Lemma List_filter_idem {A : Type} (f : A -> bool) l :
  List.filter f (List.filter f l) = List.filter f l.
Proof.
  induction l as [|x l IH]; simpl; [reflexivity|].
  destruct (f x) eqn:Hx; simpl; [rewrite Hx; f_equal|]; exact IH.
Qed.

Lemma List_filter_comm {A : Type} (f g : A -> bool) l :
  List.filter f (List.filter g l) = List.filter g (List.filter f l).
Proof.
  induction l as [|x l IH]; simpl; [reflexivity|].
  destruct (f x) eqn:Hf, (g x) eqn:Hg; simpl; rewrite ?Hf, ?Hg, IH;
    reflexivity.
Qed.

Lemma filter_afterwards_sublist date_filter command_filter history :
  sublist (filter_afterwards date_filter command_filter history) history.
Proof.
  unfold filter_afterwards.
  destruct date_filter as [[s e]|], (filter_active command_filter);
    rewrite ?command_filter_loop_filter, ?date_filter_loop_filter;
    try reflexivity; try apply List_filter_sublist.
  etransitivity; apply List_filter_sublist.
Qed.

(** X1.  Filtering by date twice with the same bounds removes nothing more
    than filtering once, whatever the bounds are (absent, 0 or set). *)
Theorem date_filter_idempotent
    (start_time end_time : option Z) (history : list record) :
  date_filter_loop start_time end_time
    (date_filter_loop start_time end_time history)
  = date_filter_loop start_time end_time history.
Proof. rewrite !date_filter_loop_filter. apply List_filter_idem. Qed.

(** X2.  Filters only remove records.  The date filter and the command
    filter of [main] return a subsequence of their input, and each parser
    run with any date and command filter returns a subsequence of what it
    returns with no filter: same order, same records, nothing added. *)
Theorem filters_only_remove
    (now : Z) (lines : list string) (full_command : bool)
    (date_filter : date_filter_t) (command_filter : option string)
    (start_time end_time : option Z) (f : string) (history : list record) :
  sublist (date_filter_loop start_time end_time history) history
  /\ sublist (command_filter_loop f history) history
  /\ sublist
       (parse_zsh_history lines full_command date_filter command_filter)
       (parse_zsh_history lines full_command None None)
  /\ sublist
       (parse_bash_history now lines full_command date_filter command_filter)
       (parse_bash_history now lines full_command None None).
Proof.
  split; [rewrite date_filter_loop_filter; apply List_filter_sublist|].
  split; [rewrite command_filter_loop_filter; apply List_filter_sublist|].
  split.
  - rewrite parse_zsh_refines. apply filter_afterwards_sublist.
  - rewrite (parse_bash_refines now). apply filter_afterwards_sublist.
Qed.

(** X3.  The date filter and the command filter commute: the order in which
    [main] and [run_analysis] apply them does not change the result. *)
Theorem date_and_command_filters_commute
    (start_time end_time : option Z) (f : string) (history : list record) :
  date_filter_loop start_time end_time (command_filter_loop f history)
  = command_filter_loop f (date_filter_loop start_time end_time history).
Proof.
  rewrite !date_filter_loop_filter, !command_filter_loop_filter.
  apply List_filter_comm.
Qed.

(** ** Exclusion composes *)

Lemma exclude_loop_some exclude_set history : forall filtered out,
  exclude_loop exclude_set history filtered = Some out ->
  Forall has_base_cmd history
  /\ out = (filtered
            ++ List.filter (fun r => negb (excluded exclude_set r)) history)%list.
Proof.
  induction history as [|[command timestamp] history IH]; intros filtered out.
  - simpl. intros [= <-]. split; [constructor|]. rewrite app_nil_r; reflexivity.
  - cbn [exclude_loop List.filter]. unfold excluded at 1, has_base_cmd.
    cbn [fst].
    destruct (base_cmd_of command) as [base_cmd|] eqn:Hb; [|discriminate].
    destruct (decide (base_cmd ∈ exclude_set)) as [Hin|Hin].
    + rewrite (bool_decide_eq_false_2 (base_cmd ∉ exclude_set))
        by (intros H; exact (H Hin)).
      rewrite (bool_decide_eq_true_2 _ Hin). cbn [negb].
      intros H. destruct (IH _ _ H) as [Hall ->].
      split; [|reflexivity]. constructor; [cbn [fst]; congruence|exact Hall].
    + rewrite (bool_decide_eq_true_2 (base_cmd ∉ exclude_set)) by exact Hin.
      rewrite (bool_decide_eq_false_2 _ Hin). cbn [negb].
      intros H. destruct (IH _ _ H) as [Hall ->].
      split; [constructor; [cbn [fst]; congruence|exact Hall]|].
      rewrite <- app_assoc. reflexivity.
Qed.

Lemma exclude_loop_total exclude_set history : forall filtered,
  Forall has_base_cmd history ->
  exclude_loop exclude_set history filtered
  = Some (filtered
          ++ List.filter (fun r => negb (excluded exclude_set r)) history)%list.
Proof.
  induction history as [|[command timestamp] history IH]; intros filtered Hall.
  - simpl. rewrite app_nil_r; reflexivity.
  - inversion Hall as [|? ? Hr Hrest]; subst. unfold has_base_cmd in Hr.
    cbn [fst] in Hr.
    cbn [exclude_loop List.filter]. unfold excluded at 1. cbn [fst].
    destruct (base_cmd_of command) as [base_cmd|] eqn:Hb; [|contradiction].
    destruct (decide (base_cmd ∈ exclude_set)) as [Hin|Hin].
    + rewrite (bool_decide_eq_false_2 (base_cmd ∉ exclude_set))
        by (intros H; exact (H Hin)).
      rewrite (bool_decide_eq_true_2 _ Hin). cbn [negb]. apply IH; exact Hrest.
    + rewrite (bool_decide_eq_true_2 (base_cmd ∉ exclude_set)) by exact Hin.
      rewrite (bool_decide_eq_false_2 _ Hin). cbn [negb].
      rewrite (IH _ Hrest), <- app_assoc. reflexivity.
Qed.

Lemma List_filter_true {A : Type} (f : A -> bool) l :
  (forall x, In x l -> f x = true) -> List.filter f l = l.
Proof.
  induction l as [|x l IH]; intros H; simpl; [reflexivity|].
  rewrite (H x (or_introl eq_refl)). f_equal. apply IH.
  intros y Hy; apply H; right; exact Hy.
Qed.

Lemma excluded_empty r : excluded ∅ r = false.
Proof.
  unfold excluded. destruct (base_cmd_of (fst r)); [|reflexivity].
  apply bool_decide_eq_false_2. apply not_elem_of_empty.
Qed.

Lemma excluded_app l1 l2 r :
  excluded (list_to_set (l1 ++ l2)%list) r
  = excluded (list_to_set l1) r || excluded (list_to_set l2) r.
Proof.
  unfold excluded. destruct (base_cmd_of (fst r)) as [b|]; [|reflexivity].
  rewrite list_to_set_app_L.
  destruct (decide (b ∈ (list_to_set l1 : gset string))) as [H1|H1],
    (decide (b ∈ (list_to_set l2 : gset string))) as [H2|H2].
  all: rewrite ?(bool_decide_eq_true_2 _ H1), ?(bool_decide_eq_false_2 _ H1),
         ?(bool_decide_eq_true_2 _ H2), ?(bool_decide_eq_false_2 _ H2);
       cbn [orb].
  all: try (apply bool_decide_eq_true_2; set_solver).
  apply bool_decide_eq_false_2. set_solver.
Qed.

(** What [filter_commands] returns when it returns. *)
Lemma filter_commands_some history exclude_list out :
  filter_commands history exclude_list = Some out ->
  out = List.filter (fun r => negb (excluded (list_to_set exclude_list) r))
          history
  /\ (exclude_list <> [] -> Forall has_base_cmd history).
Proof.
  unfold filter_commands. destruct exclude_list as [|x l].
  - intros [= <-]. split; [|intros H; contradiction H; reflexivity].
    symmetry. apply List_filter_true. intros r _.
    change (list_to_set []) with (∅ : gset string).
    rewrite excluded_empty. reflexivity.
  - intros H. destruct (exclude_loop_some _ _ _ _ H) as [Hall ->].
    split; [reflexivity|]. intros _; exact Hall.
Qed.

Lemma filter_commands_total history exclude_list :
  Forall has_base_cmd history ->
  filter_commands history exclude_list
  = Some (List.filter
            (fun r => negb (excluded (list_to_set exclude_list) r)) history).
Proof.
  intros Hall. unfold filter_commands. destruct exclude_list as [|x l].
  - f_equal. symmetry. apply List_filter_true. intros r _.
    change (list_to_set []) with (∅ : gset string).
    rewrite excluded_empty. reflexivity.
  - rewrite (exclude_loop_total _ _ _ Hall). reflexivity.
Qed.

Lemma Forall_List_filter {A : Type} (P : A -> Prop) (f : A -> bool) l :
  Forall P l -> Forall P (List.filter f l).
Proof.
  induction 1 as [|x l Hx _ IH]; simpl; [constructor|].
  destruct (f x); [constructor|]; assumption.
Qed.

(** X4.  Excluding in two steps is excluding the joined list: when
    [filter_commands] returns [h1] for the list [l1] and [h2] for [h1] and
    the list [l2], it returns [h2] for the input and [l1 ++ l2].  In
    particular excluding the same list again changes nothing. *)
Theorem exclusion_composes
    (history h1 h2 : list record) (l1 l2 : list string) :
  filter_commands history l1 = Some h1 ->
  filter_commands h1 l2 = Some h2 ->
  filter_commands history (l1 ++ l2)%list = Some h2
  /\ filter_commands h1 l1 = Some h1.
Proof.
  intros H1 H2.
  destruct (filter_commands_some _ _ _ H1) as [E1 W1].
  destruct (filter_commands_some _ _ _ H2) as [E2 W2].
  split.
  - destruct l1 as [|x l1].
    + injection H1 as <-. exact H2.
    + assert (Hall : Forall has_base_cmd history) by (apply W1; discriminate).
      rewrite (filter_commands_total _ _ Hall). f_equal.
      rewrite E2, E1. clear.
      induction history as [|r history IH]; [reflexivity|].
      cbn [List.filter]. rewrite excluded_app.
      destruct (excluded (list_to_set (x :: l1)) r); cbn [negb orb];
        [exact IH|].
      cbn [List.filter].
      destruct (excluded (list_to_set l2) r); cbn [negb];
        [|f_equal]; exact IH.
  - destruct l1 as [|x l1]; [reflexivity|].
    assert (Hall : Forall has_base_cmd history) by (apply W1; discriminate).
    rewrite filter_commands_total
      by (rewrite E1; apply Forall_List_filter; exact Hall).
    f_equal. rewrite E1. apply List_filter_idem.
Qed.

(** Excluding [ls] and then [cd] is excluding both at once. *)
Lemma exclusion_composes_witness :
  filter_commands [("ls -la", 1); ("cd /", 2); ("git", 3)] ["ls"; "cd"]
  = Some [("git", 3)].
Proof.
  apply (exclusion_composes [("ls -la", 1); ("cd /", 2); ("git", 3)]
           [("cd /", 2); ("git", 3)] [("git", 3)] ["ls"] ["cd"]).
  - vm_compute. reflexivity.
  - vm_compute. reflexivity.
Defined.

(** X5.  Exclusion and date filtering commute: when [filter_commands]
    returns, it returns for the date-filtered history the date-filtered
    result. *)
Theorem exclusion_commutes_with_date_filter
    (history out : list record) (exclude_list : list string)
    (start_time end_time : option Z) :
  filter_commands history exclude_list = Some out ->
  filter_commands (date_filter_loop start_time end_time history) exclude_list
  = Some (date_filter_loop start_time end_time out).
Proof.
  intros H. destruct (filter_commands_some _ _ _ H) as [-> W].
  destruct exclude_list as [|x l].
  - unfold filter_commands. f_equal. rewrite !date_filter_loop_filter.
    f_equal. symmetry. apply List_filter_true. intros r _.
    change (list_to_set []) with (∅ : gset string).
    rewrite excluded_empty. reflexivity.
  - assert (Hall : Forall has_base_cmd history) by (apply W; discriminate).
    rewrite !date_filter_loop_filter.
    rewrite filter_commands_total by (apply Forall_List_filter; exact Hall).
    f_equal. apply List_filter_comm.
Qed.

Lemma exclusion_commutes_with_date_filter_witness :
  filter_commands
    (date_filter_loop (Some 2) None [("ls", 1); ("ls", 2); ("git", 3)]) ["ls"]
  = Some [("git", 3)].
Proof.
  etransitivity.
  - apply (exclusion_commutes_with_date_filter
             [("ls", 1); ("ls", 2); ("git", 3)] [("git", 3)] ["ls"]).
    vm_compute. reflexivity.
  - reflexivity.
Defined.

(** ** Command reduction *)

Lemma scan_known_cases full_cmd cmds :
  scan_known full_cmd cmds = "malformed" \/ In (scan_known full_cmd cmds) cmds.
Proof.
  induction cmds as [|c cmds IH]; simpl; [left; reflexivity|].
  destruct (contains full_cmd c); [right; left; reflexivity|].
  destruct IH as [IH|IH]; [left|right; right]; exact IH.
Qed.

Lemma digits_do_not_end_with_quote w :
  all_chars isdigit_char w = true -> endswith_char w "'" = false.
Proof.
  induction w as [|c w IH]; [reflexivity|].
  cbn [all_chars]. intros H. apply andb_true_iff in H. destruct H as [Hc Hw].
  destruct w as [|d w'].
  - cbn [endswith_char]. destruct (Ascii.eqb_spec c "'") as [->|];
      [discriminate|reflexivity].
  - exact (IH Hw).
Qed.

(** X6.  Reduced-token extraction.  A text with no token reduces to the
    empty string.  Otherwise the result is a single token (not empty, no
    whitespace), reducing it again returns it unchanged, and it is the
    leading token of the text unless that token is one of the two malformed
    tokens 35' and 00;35'. *)
Theorem extract_command_reduced (full_cmd : string) :
  let command := extract_command full_cmd false in
  (split full_cmd = [] -> command = EmptyString)
  /\ (split full_cmd <> [] ->
      is_token command = true
      /\ extract_command command false = command
      /\ (command = leading_token full_cmd
          \/ leading_token full_cmd = "35'"
          \/ leading_token full_cmd = "00;35'")).
Proof.
  intros command. subst command. unfold leading_token.
  split.
  - intros Hs. unfold extract_command.
    destruct full_cmd; [reflexivity|]. cbn [truthy negb].
    rewrite Hs. reflexivity.
  - intros Hs. destruct full_cmd as [|c r]; [contradiction Hs; reflexivity|].
    pose proof (split_all_tokens (String c r)) as Htok.
    destruct (split (String c r)) as [|w ws] eqn:Hsplit; [contradiction|].
    inversion Htok as [|? ? Hw _]; subst. cbn [hd].
    assert (Hres : forall x,
               In x ["export"; "echo"; "set"; "alias"; "malformed"] ->
               is_token x = true /\ extract_command x false = x).
    { intros x Hx. repeat (destruct Hx as [<-|Hx]; [split; reflexivity|]).
      destruct Hx. }
    destruct (endswith_char w "'"
              && (isdigit w || in_list w ["35'"; "00;35'"])) eqn:Hmal.
    + assert (Hleading : w = "35'" \/ w = "00;35'").
      { apply andb_true_iff in Hmal. destruct Hmal as [Hq Hkind].
        apply orb_true_iff in Hkind. destruct Hkind as [Hd|Hl].
        - unfold isdigit in Hd. apply andb_true_iff in Hd.
          rewrite (digits_do_not_end_with_quote w (proj2 Hd)) in Hq.
          discriminate.
        - unfold in_list in Hl. cbn [existsb] in Hl.
          rewrite !orb_true_iff in Hl.
          destruct Hl as [Hl|[Hl|Hl]]; [| |discriminate];
            apply String.eqb_eq in Hl; auto. }
      assert (Hin : In (extract_command (String c r) false)
                      ["export"; "echo"; "set"; "alias"; "malformed"]).
      { unfold extract_command. cbn [truthy negb]. rewrite Hsplit, Hmal.
        destruct (startswith (String c r) "export"); [left; reflexivity|].
        destruct (scan_known_cases (String c r)
                    ["export"; "echo"; "set"; "alias"]) as [Hm|Hk].
        - rewrite Hm. do 4 right. left. reflexivity.
        - destruct Hk as [H|[H|[H|[H|[]]]]]; rewrite <- H; simpl; tauto. }
      destruct (Hres _ Hin) as [H1 H2].
      split; [exact H1|]. split; [exact H2|]. right; exact Hleading.
    + assert (Hcmd : extract_command (String c r) false = w).
      { unfold extract_command. cbn [truthy negb]. rewrite Hsplit, Hmal.
        reflexivity. }
      rewrite Hcmd.
      split; [exact Hw|]. split; [|left; reflexivity].
      unfold extract_command.
      assert (truthy w = true) as ->
          by (unfold is_token in Hw; apply andb_true_iff in Hw; tauto).
      cbn [negb]. rewrite (split_one_token w Hw), Hmal. reflexivity.
Qed.

Lemma extract_command_reduced_witness :
  extract_command (extract_command "  git   commit -m x" false) false = "git".
Proof.
  destruct (extract_command_reduced "  git   commit -m x") as [_ H].
  destruct H as (_ & Hidem & _); [discriminate|].
  etransitivity; [exact Hidem|]. reflexivity.
Defined.

(** ** What the zsh parser returns *)

Lemma digits_exact_spec n : forall s ds rest,
  digits_exact n s = Some (ds, rest) ->
  String.length ds = n /\ all_chars isdecimal ds = true.
Proof.
  induction n as [|n IH]; intros s ds rest; simpl.
  - intros [= <- _]. split; reflexivity.
  - destruct s as [|c r]; [discriminate|].
    destruct (isdecimal c) eqn:Hc; [|discriminate].
    destruct (digits_exact n r) as [[ds' rest']|] eqn:Hr; [|discriminate].
    intros [= <- _]. destruct (IH _ _ _ Hr) as [Hlen Hdec].
    simpl. rewrite Hc, Hdec, Hlen. split; reflexivity.
Qed.

Lemma search_timestamp_spec s g :
  search_timestamp s = Some g ->
  String.length g = 10%nat /\ all_chars isdecimal g = true.
Proof.
  induction s as [|c s IH].
  - cbn [search_timestamp match_timestamp]. discriminate.
  - cbn [search_timestamp].
    destruct (match_timestamp (String c s)) as [[ds rest]|] eqn:Hm;
      [|exact IH].
    intros [= <-]. unfold match_timestamp in Hm.
    destruct s as [|c1 r]; [discriminate|].
    destruct (Ascii.eqb c ":" && Ascii.eqb c1 " "); [|discriminate].
    destruct (digits_exact 10 r) as [[ds' [|c2 r']]|] eqn:Hd; try discriminate.
    destruct (Ascii.eqb c2 ":"); [|discriminate].
    injection Hm as <- _. exact (digits_exact_spec _ _ _ _ Hd).
Qed.

Lemma digit_value_range c : isdecimal c = true -> 0 <= digit_value c <= 9.
Proof.
  unfold isdecimal, digit_value. intros H.
  apply andb_true_iff in H. destruct H as [H1 H2].
  apply N.leb_le in H1, H2. lia.
Qed.

Lemma int_acc_range s : forall acc,
  all_chars isdecimal s = true ->
  exists t,
    int_acc acc s = Some t
    /\ acc * 10 ^ Z.of_nat (String.length s) <= t
       < (acc + 1) * 10 ^ Z.of_nat (String.length s).
Proof.
  induction s as [|c s IH]; intros acc; cbn [all_chars int_acc String.length].
  - intros _. exists acc. split; [reflexivity|]. simpl. lia.
  - intros H. apply andb_true_iff in H. destruct H as [Hc Hs].
    rewrite Hc. destruct (IH (10 * acc + digit_value c) Hs) as (t & Ht & Hr).
    exists t. split; [exact Ht|].
    pose proof (digit_value_range c Hc) as Hd.
    rewrite Nat2Z.inj_succ, Z.pow_succ_r by lia.
    assert (0 < 10 ^ Z.of_nat (String.length s)) by (apply Z.pow_pos_nonneg; lia).
    nia.
Qed.

(** [int] on digits: a value, not negative, below 10 to the length. *)
Lemma int_digits s :
  truthy s = true -> all_chars isdecimal s = true ->
  exists t, int s = Some t /\ 0 <= t < 10 ^ Z.of_nat (String.length s).
Proof.
  intros Ht Hd. unfold int. rewrite Ht.
  destruct (int_acc_range s 0 Hd) as (t & E & Hr). exists t.
  split; [exact E|]. lia.
Qed.

Lemma zsh_line_plain full_command raw :
  exists out,
    zsh_line full_command None None [] raw = Some out
    /\ Forall (fun r : record => 0 <= snd r < 10 ^ 10) out.
Proof.
  unfold zsh_line.
  destruct (negb (truthy (strip raw))); [exists []; split; constructor|].
  destruct (search_timestamp (strip raw)) as [g|] eqn:Hg;
    [|exists []; split; constructor].
  destruct (search_timestamp_spec _ _ Hg) as [Hlen Hdec].
  destruct (int_digits g) as (t & -> & Ht);
    [destruct g; [discriminate|reflexivity]|exact Hdec|].
  rewrite Hlen in Ht. cbn [filter_active andb].
  match goal with
  | |- context [match ?loc with Some _ => _ | None => Some [] end] =>
      destruct loc as [full_cmd|]
  end; [|exists []; split; constructor].
  destruct (negb (truthy full_cmd)); [exists []; split; constructor|].
  destruct (truthy (extract_command full_cmd full_command));
    [|exists []; split; constructor].
  eexists. split; [reflexivity|]. repeat constructor; cbn [snd]; lia.
Qed.

Lemma zsh_loop_plain full_command lines : forall history,
  Forall (fun r : record => 0 <= snd r < 10 ^ 10) history ->
  exists out,
    for_each (zsh_line full_command None None) history lines = Some out
    /\ Forall (fun r : record => 0 <= snd r < 10 ^ 10) out.
Proof.
  induction lines as [|raw lines IH]; intros history Hh.
  - exists history. split; [reflexivity|exact Hh].
  - cbn [for_each].
    rewrite (zsh_line_refines full_command None None history raw).
    destruct (zsh_line_plain full_command raw) as (out & -> & Hout).
    rewrite filter_afterwards_none. apply IH.
    apply Forall_app; split; assumption.
Qed.

Lemma Forall_of_sublist {A : Type} (P : A -> Prop) (l1 l2 : list A) :
  sublist l1 l2 -> Forall P l2 -> Forall P l1.
Proof.
  induction 1 as [|x l1 l2 _ IH|x l1 l2 _ IH]; intros H;
    [constructor| |]; inversion H; subst; [constructor|]; auto.
Qed.

(** X7.  The zsh parser never takes its exception path on account of a
    line: the loop completes for every file and every filter, and every
    record it returns carries a ten-digit timestamp, [0 <= t < 10^10]. *)
Theorem zsh_parser_never_raises
    (lines : list string) (full_command : bool)
    (date_filter : date_filter_t) (command_filter : option string) :
  for_each (zsh_line full_command date_filter command_filter) [] lines
  = Some (parse_zsh_history lines full_command date_filter command_filter)
  /\ Forall (fun r : record => 0 <= snd r < 10 ^ 10)
       (parse_zsh_history lines full_command date_filter command_filter).
Proof.
  destruct (zsh_loop_plain full_command lines [] ltac:(constructor))
    as (out & Hloop & Hout).
  pose proof (zsh_loop_refines full_command date_filter command_filter
                lines [] []) as H.
  rewrite after_nil in H. cbn [app] in H. rewrite Hloop in H.
  unfold parse_zsh_history. rewrite H. split; [reflexivity|].
  cbn [app]. eapply Forall_of_sublist; [|exact Hout].
  apply filter_afterwards_sublist.
Qed.

(** X8.  A file of valid zsh entries parses line by line.  When every line
    is an entry [: T:D;cmd] with ten digits [T], digits [D] and a command
    that is not blank, and on each line the duration is 0 or the text [:0;]
    does not occur, the parser returns, in order, one record per line: the
    command (or its leading token) and the number [T]. *)
Theorem zsh_valid_file_parses
    (lines : list string) (entries : list (string * string * string))
    (full_command : bool) :
  Forall2 valid_zsh_line lines entries ->
  parse_zsh_history lines full_command None None
  = map (zsh_record full_command) entries.
Proof.
  intros Hvalid. unfold parse_zsh_history.
  assert (H : forall history,
             for_each (zsh_line full_command None None) history lines
             = Some (history ++ map (zsh_record full_command) entries)%list).
  { induction Hvalid as [|raw [[T D] cmd] lines entries Hline _ IH];
      intros history.
    - simpl. rewrite app_nil_r. reflexivity.
    - destruct Hline as (Hraw & HT & HTd & HD & HDd & Hcmd & Hsep).
      destruct (zsh_valid_line_parses T D cmd HT HTd HD HDd raw full_command
                  history Hraw Hcmd Hsep) as (t & Hint & Hstep).
      cbn [for_each map]. rewrite Hstep, IH, <- app_assoc.
      unfold zsh_record at 2. rewrite Hint. reflexivity. }
  rewrite H. reflexivity.
Qed.

Lemma zsh_valid_file_parses_witness :
  parse_zsh_history
    [": 1700000000:0;ls -la :0; x"; ": 1700000007:12;git status  "] false
    None None
  = [("ls", 1700000000); ("git", 1700000007)].
Proof.
  etransitivity.
  - apply (zsh_valid_file_parses _
             [("1700000000", "0", "ls -la :0; x");
              ("1700000007", "12", "git status")]).
    repeat constructor; right; reflexivity.
  - reflexivity.
Defined.

(** ** What the bash parser returns *)

Section BashLoop.

Variable now : Z.
Variable full_command : bool.
Variable date_filter : date_filter_t.
Variable command_filter : option string.

Let step := bash_line now full_command date_filter command_filter.

(** The list built so far only grows: a step from [(pending, history)] is
    the step from [(pending, [])] with [history] in front. *)
Lemma bash_line_acc pending history raw :
  step (BashState pending history) raw
  = match step (BashState pending []) raw with
    | Some st =>
        Some (BashState (current_timestamp st) (history ++ history_of st)%list)
    | None => None
    end.
Proof.
  unfold step.
  rewrite (bash_line_refines full_command date_filter command_filter now
             pending history raw).
  rewrite (bash_line_refines full_command date_filter command_filter now
             pending [] raw).
  destruct (bash_line now full_command None None (BashState pending []) raw);
    reflexivity.
Qed.

Lemma bash_loop_acc lines : forall pending history,
  for_each step (BashState pending history) lines
  = match for_each step (BashState pending []) lines with
    | Some st =>
        Some (BashState (current_timestamp st) (history ++ history_of st)%list)
    | None => None
    end.
Proof.
  induction lines as [|raw lines IH]; intros pending history.
  - simpl. rewrite app_nil_r. reflexivity.
  - cbn [for_each]. rewrite bash_line_acc.
    destruct (step (BashState pending []) raw) as [[p h]|]; [|reflexivity].
    cbn [current_timestamp history_of].
    rewrite IH. rewrite (IH p h).
    destruct (for_each step (BashState p []) lines) as [[p' h']|];
      [|reflexivity].
    cbn [current_timestamp history_of]. rewrite app_assoc. reflexivity.
Qed.

Lemma for_each_app {S A : Type} (body : S -> A -> option S) l1 : forall l2 st,
  for_each body st (l1 ++ l2)%list
  = match for_each body st l1 with
    | Some st' => for_each body st' l2
    | None => None
    end.
Proof.
  induction l1 as [|x l1 IH]; intros l2 st; simpl; [reflexivity|].
  destruct (body st x); [apply IH|reflexivity].
Qed.

(** A step raises exactly on the lines that [bash_aborts] describes. *)
Lemma bash_line_none st raw :
  step st raw = None <-> bash_aborts raw = true.
Proof.
  unfold step, bash_line, bash_aborts.
  destruct (is_timestamp_line (strip raw)); cbn [andb].
  - destruct (int (slice_from 1 (strip raw))); split; congruence.
  - split; [|discriminate].
    destruct (truthy (strip raw)); [|discriminate].
    destruct (match date_filter with Some _ => _ | None => _ end);
      [discriminate|].
    destruct (truthy _); [|discriminate].
    destruct (_ && _); discriminate.
Qed.

Lemma bash_loop_none lines : forall st,
  for_each step st lines = None <-> existsb bash_aborts lines = true.
Proof.
  induction lines as [|raw lines IH]; intros st; cbn [for_each existsb].
  - split; discriminate.
  - destruct (step st raw) as [st'|] eqn:Hs.
    + rewrite IH. destruct (bash_aborts raw) eqn:Ha; [|reflexivity].
      apply (proj2 (bash_line_none st raw)) in Ha. congruence.
    + apply (proj1 (bash_line_none st raw)) in Hs. rewrite Hs.
      split; reflexivity.
Qed.

(** After a command line nothing is pending. *)
Lemma bash_command_line_clears st raw st' :
  is_command_line raw = true -> step st raw = Some st' ->
  current_timestamp st' = None.
Proof.
  unfold is_command_line. intros H. apply andb_true_iff in H.
  destruct H as [Hm Ht]. apply negb_true_iff in Hm.
  unfold step.
  rewrite (bash_command_step now full_command date_filter command_filter st
             raw Hm) by (destruct (strip raw); [discriminate|congruence]).
  intros [= <-]. reflexivity.
Qed.

End BashLoop.

(** X10.  The bash parser starts afresh after every command line: when no
    line makes it raise, parsing a file cut just after a command line gives
    the records of the first part followed by the records of the second
    part parsed on its own, under any filters. *)
Theorem bash_parser_splits_after_command
    (now : Z) (l1 l2 : list string) (cmd : string) (full_command : bool)
    (date_filter : date_filter_t) (command_filter : option string) :
  is_command_line cmd = true ->
  existsb bash_aborts (l1 ++ cmd :: l2)%list = false ->
  parse_bash_history now (l1 ++ cmd :: l2)%list full_command date_filter
    command_filter
  = (parse_bash_history now (l1 ++ [cmd])%list full_command date_filter
       command_filter
     ++ parse_bash_history now l2 full_command date_filter command_filter)%list.
Proof.
  intros Hcmd Hok. unfold parse_bash_history.
  change (l1 ++ cmd :: l2)%list with (l1 ++ [cmd] ++ l2)%list in *.
  rewrite app_assoc in *.
  rewrite for_each_app.
  destruct (for_each (bash_line now full_command date_filter command_filter)
              (BashState None []) (l1 ++ [cmd])%list) as [[p h]|] eqn:H1.
  - assert (p = None) as ->.
    { rewrite for_each_app in H1.
      destruct (for_each _ _ l1) as [st1|]; [|discriminate].
      cbn [for_each] in H1.
      destruct (bash_line now full_command date_filter command_filter st1 cmd)
        as [st2|] eqn:H2; [|discriminate].
      injection H1 as E.
      pose proof (bash_command_line_clears now full_command date_filter
                    command_filter st1 cmd st2 Hcmd H2) as Hclear.
      rewrite E in Hclear. exact Hclear. }
    rewrite (bash_loop_acc now full_command date_filter command_filter l2
               None h).
    destruct (for_each _ (BashState None []) l2) as [[p2 h2]|] eqn:H2;
      [reflexivity|].
    apply (proj1 (bash_loop_none _ _ _ _ _ _)) in H2.
    rewrite existsb_app in Hok. apply orb_false_iff in Hok.
    destruct Hok as [_ Hok]. congruence.
  - apply (proj1 (bash_loop_none _ _ _ _ _ _)) in H1.
    rewrite existsb_app in Hok. apply orb_false_iff in Hok.
    destruct Hok as [Hok _]. congruence.
Qed.

Lemma bash_parser_splits_after_command_witness :
  parse_bash_history 9 ["#4"; "ls"; "#7"; " "; "pwd"] false None None
  = [("ls", 4); ("pwd", 7)].
Proof.
  etransitivity.
  - apply (bash_parser_splits_after_command 9 ["#4"] ["#7"; " "; "pwd"] "ls");
      reflexivity.
  - reflexivity.
Defined.

Lemma is_timestamp_line_inv line :
  is_timestamp_line line = true ->
  exists ds, line = String "#" ds /\ slice_from 1 line = ds.
Proof.
  unfold is_timestamp_line. intros H.
  apply andb_true_iff in H. destruct H as [H _].
  apply andb_true_iff in H. destruct H as [H _].
  destruct line as [|c r]; [discriminate|].
  cbn [startswith] in H. apply andb_true_iff in H. destruct H as [H _].
  apply Ascii.eqb_eq in H. subst c. exists r. split; reflexivity.
Qed.

Lemma int_acc_nonneg s : forall acc t,
  0 <= acc -> int_acc acc s = Some t -> 0 <= t.
Proof.
  induction s as [|c s IH]; intros acc t Hacc; cbn [int_acc].
  - intros [= <-]. exact Hacc.
  - destruct (isdecimal c) eqn:Hc; [|discriminate].
    apply IH. pose proof (digit_value_range c Hc). lia.
Qed.

Lemma int_nonneg s t : int s = Some t -> 0 <= t.
Proof.
  unfold int. destruct (truthy s); [|discriminate].
  apply int_acc_nonneg. lia.
Qed.

Section BashRecords.

Variable now : Z.
Variable full_command : bool.
Variable lines : list string.

Local Abbreviation origin_ok := (from_clock_or_marker now lines).

Let pending_ok (p : option Z) : Prop :=
  forall t, p = Some t -> t <> 0 -> origin_ok t.

Lemma bash_plain_step_origin p raw st :
  In raw lines -> pending_ok p ->
  bash_line now full_command None None (BashState p []) raw = Some st ->
  pending_ok (current_timestamp st)
  /\ Forall (fun r : record => origin_ok (snd r)) (history_of st)
  /\ List.length (history_of st) = (if is_command_line raw then 1 else 0)%nat.
Proof.
  intros Hin Hp. unfold bash_line, is_command_line.
  destruct (is_timestamp_line (strip raw)) eqn:Hm; cbn [negb andb].
  - destruct (is_timestamp_line_inv _ Hm) as (ds & Hs & ->).
    destruct (int ds) as [t|] eqn:Hi; [|discriminate].
    intros [= <-]. cbn [current_timestamp history_of].
    split; [|split; [constructor|reflexivity]].
    intros t' [= <-] Hne. unfold from_clock_or_marker.
    right. exists raw, ds. auto.
  - destruct (truthy (strip raw)) eqn:Ht.
    + rewrite (extract_command_truthy raw full_command Ht).
      cbn [filter_active andb]. intros [= <-].
      cbn [current_timestamp history_of app List.length].
      split; [intros t [=]|]. split; [|reflexivity].
      constructor; [|constructor]. cbn [snd]. unfold effective_timestamp.
      unfold from_clock_or_marker.
      destruct p as [t|]; [|left; reflexivity].
      destruct (Z.eqb_spec t 0); [left; reflexivity|].
      apply (Hp t eq_refl). assumption.
    + intros [= <-]. cbn [current_timestamp history_of].
      split; [exact Hp|]. split; [constructor|reflexivity].
Qed.

Lemma bash_plain_loop_origin todo : forall p history st,
  incl todo lines -> pending_ok p ->
  Forall (fun r : record => origin_ok (snd r)) history ->
  for_each (bash_line now full_command None None) (BashState p history) todo
  = Some st ->
  Forall (fun r : record => origin_ok (snd r)) (history_of st)
  /\ List.length (history_of st)
     = (List.length history + List.length (List.filter is_command_line todo))%nat.
Proof.
  induction todo as [|raw todo IH]; intros p history st Hincl Hp Hh.
  - simpl. intros [= <-]. cbn [history_of]. split; [exact Hh|lia].
  - cbn [for_each].
    rewrite (bash_line_acc now full_command None None p history raw).
    destruct (bash_line now full_command None None (BashState p []) raw)
      as [[p1 h1]|] eqn:Hstep; [|discriminate].
    destruct (bash_plain_step_origin p raw _ (Hincl raw (or_introl eq_refl))
                Hp Hstep) as (Hp1 & Hh1 & Hlen).
    cbn [current_timestamp history_of] in *.
    intros Hrest.
    destruct (IH p1 (history ++ h1)%list st) as [H1 H2]; auto.
    { intros x Hx; apply Hincl; right; exact Hx. }
    { apply Forall_app; split; assumption. }
    split; [exact H1|]. rewrite H2, length_app, Hlen.
    cbn [List.filter]. destruct (is_command_line raw); cbn [List.length]; lia.
Qed.

End BashRecords.

(** With no filter and no line that raises, the parser returns one record
    per command line. *)
Lemma bash_plain_record_count now lines full_command :
  existsb bash_aborts lines = false ->
  List.length (parse_bash_history now lines full_command None None)
  = List.length (List.filter is_command_line lines).
Proof.
  intros Hok. unfold parse_bash_history.
  destruct (for_each (bash_line now full_command None None)
              (BashState None []) lines) as [st|] eqn:Hloop.
  - destruct (bash_plain_loop_origin now full_command lines lines None []
                st) as [_ H]; auto.
    + intros x Hx; exact Hx.
    + intros t [=].
  - apply (proj1 (bash_loop_none _ _ _ _ _ _)) in Hloop. congruence.
Qed.

(** X9.  The bash parser gives up on a whole file because of one line.  Its
    loop raises exactly when the file has a line that passes the timestamp
    test ([#] followed by characters that [isdigit] accepts) and whose
    digits [int] rejects; this does not depend on the filters, the mode or
    the clock, and the parser then returns no record at all.  An empty
    result alone does not tell that the loop raised: with no filter, the
    parser returns no record exactly when the file has such a line or has
    no command line (a line that is neither blank nor a timestamp line). *)
Theorem bash_parser_aborts_on_bad_marker
    (now : Z) (lines : list string) (full_command : bool)
    (date_filter : date_filter_t) (command_filter : option string) :
  (for_each (bash_line now full_command date_filter command_filter)
     (BashState None []) lines = None
   <-> existsb bash_aborts lines = true)
  /\ (existsb bash_aborts lines = true ->
      parse_bash_history now lines full_command date_filter command_filter
      = [])
  /\ (parse_bash_history now lines full_command None None = []
      <-> existsb bash_aborts lines = true
          \/ List.filter is_command_line lines = []).
Proof.
  assert (Hraise : forall df cf,
            existsb bash_aborts lines = true ->
            parse_bash_history now lines full_command df cf = []).
  { intros df cf H. unfold parse_bash_history.
    apply (proj2 (bash_loop_none now full_command df cf lines
                    (BashState None []))) in H.
    rewrite H. reflexivity. }
  split; [apply bash_loop_none|].
  split; [apply Hraise|].
  destruct (existsb bash_aborts lines) eqn:Hbad.
  - split; [intros _; left; reflexivity|intros _; apply Hraise; reflexivity].
  - pose proof (bash_plain_record_count now lines full_command Hbad) as Hlen.
    split.
    + intros H. right. rewrite H in Hlen. symmetry in Hlen.
      apply length_zero_iff_nil in Hlen. exact Hlen.
    + intros [H|H]; [discriminate|]. rewrite H in Hlen.
      apply length_zero_iff_nil in Hlen. exact Hlen.
Qed.

(** A marker written with the superscript two loses the records of the
    lines around it, under any filter; without the marker the two command
    lines give records. *)
Lemma bash_parser_aborts_on_bad_marker_witness :
  parse_bash_history 5
    ["ls"; String "#" (String (ascii_of_nat 178) EmptyString); "pwd"]
    false None (Some "ls")
  = []
  /\ parse_bash_history 5 ["ls"; "pwd"] false None None <> [].
Proof.
  split.
  - apply (proj1 (proj2 (bash_parser_aborts_on_bad_marker 5
             ["ls"; String "#" (String (ascii_of_nat 178) EmptyString); "pwd"]
             false None (Some "ls")))).
    reflexivity.
  - intros H.
    apply (proj1 (proj2 (proj2 (bash_parser_aborts_on_bad_marker 5
             ["ls"; "pwd"] false None None)))) in H.
    destruct H as [H|H]; discriminate H.
Defined.

(** X11.  One record per command line.  When no line makes the bash parser
    raise, parsing with no filter returns exactly as many records as the
    file has command lines (lines that are not blank and not timestamp
    lines), and parsing with filters returns at most that many. *)
Theorem bash_one_record_per_command_line
    (now : Z) (lines : list string) (full_command : bool)
    (date_filter : date_filter_t) (command_filter : option string) :
  existsb bash_aborts lines = false ->
  List.length (parse_bash_history now lines full_command None None)
  = List.length (List.filter is_command_line lines)
  /\ (List.length
        (parse_bash_history now lines full_command date_filter command_filter)
      <= List.length (List.filter is_command_line lines))%nat.
Proof.
  intros Hok.
  assert (Hplain :
            List.length (parse_bash_history now lines full_command None None)
            = List.length (List.filter is_command_line lines)).
  { unfold parse_bash_history.
    destruct (for_each (bash_line now full_command None None)
                (BashState None []) lines) as [st|] eqn:Hloop.
    - destruct (bash_plain_loop_origin now full_command lines lines None []
                  st) as [_ H]; auto.
      + intros x Hx; exact Hx.
      + intros t [=].
    - apply (proj1 (bash_loop_none _ _ _ _ _ _)) in Hloop. congruence. }
  split; [exact Hplain|]. rewrite <- Hplain.
  rewrite (parse_bash_refines now lines full_command date_filter
             command_filter).
  apply sublist_length, filter_afterwards_sublist.
Qed.

Lemma bash_one_record_per_command_line_witness :
  List.length
    (parse_bash_history 9 ["#4"; "ls"; " "; "#7"; "#8"; "pwd"; "cd /"]
       false None None) = 3%nat.
Proof.
  destruct (bash_one_record_per_command_line 9
              ["#4"; "ls"; " "; "#7"; "#8"; "pwd"; "cd /"] false None None)
    as [H _]; [reflexivity|].
  etransitivity; [exact H|]. reflexivity.
Defined.

Lemma bash_timestamps_origin
    now lines full_command date_filter command_filter :
  Forall (fun r : record => from_clock_or_marker now lines (snd r))
    (parse_bash_history now lines full_command date_filter command_filter).
Proof.
  assert (Hplain :
            Forall (fun r : record => from_clock_or_marker now lines (snd r))
              (parse_bash_history now lines full_command None None)).
  { unfold parse_bash_history.
    destruct (for_each (bash_line now full_command None None)
                (BashState None []) lines) as [st|] eqn:Hloop; [|constructor].
    destruct (bash_plain_loop_origin now full_command lines lines None [] st)
      as [H _]; auto.
    - intros x Hx; exact Hx.
    - intros t [=]. }
  rewrite (parse_bash_refines now lines full_command date_filter
             command_filter).
  eapply Forall_of_sublist; [apply filter_afterwards_sublist|exact Hplain].
Qed.

(** X12.  Where bash timestamps come from.  Every record the bash parser
    returns carries either the clock reading or the number of a marker line
    of the file that is not 0; so with a clock reading that is not negative
    no record has a negative timestamp. *)
Theorem bash_timestamps_from_clock_or_marker
    (now : Z) (lines : list string) (full_command : bool)
    (date_filter : date_filter_t) (command_filter : option string) :
  Forall (fun r : record => from_clock_or_marker now lines (snd r))
    (parse_bash_history now lines full_command date_filter command_filter)
  /\ (0 <= now ->
      Forall (fun r : record => 0 <= snd r)
        (parse_bash_history now lines full_command date_filter
           command_filter)).
Proof.
  pose proof (bash_timestamps_origin now lines full_command date_filter
                command_filter) as Hall.
  split; [exact Hall|]. intros Hnow.
  eapply List.Forall_impl; [|exact Hall].
  intros r [->|(raw & ds & _ & _ & Hi & _)]; [exact Hnow|].
  exact (int_nonneg _ _ Hi).
Qed.

Lemma bash_timestamps_from_clock_or_marker_witness :
  Forall (fun r : record => 0 <= snd r)
    (parse_bash_history 9 ["#4"; "ls"; "pwd"] false None None).
Proof.
  apply (bash_timestamps_from_clock_or_marker 9 ["#4"; "ls"; "pwd"]). lia.
Defined.

(** ** Format detection and dispatch *)

(** The detector and the bash parser apply the same test to a line: the
    length test of the parser adds nothing, since [isdigit] rejects the
    empty text. *)
Lemma is_timestamp_line_looks line :
  is_timestamp_line line = looks_like_marker line.
Proof.
  unfold is_timestamp_line, looks_like_marker.
  destruct line as [|c r]; [reflexivity|].
  destruct (startswith (String c r) "#"); [|reflexivity]. cbn [andb].
  change (slice_from 1 (String c r)) with r.
  destruct r as [|d r']; [reflexivity|].
  assert ((1 <? Z.of_nat (String.length (String c (String d r')))) = true) as ->;
    [|reflexivity].
  apply Z.ltb_lt. cbn [String.length]. lia.
Qed.

Lemma existsb_false_in {A : Type} (f : A -> bool) l x :
  existsb f l = false -> In x l -> f x = false.
Proof.
  induction l as [|y l IH]; simpl; [tauto|].
  intros H. apply orb_false_iff in H. destruct H as [Hy Hl].
  intros [<-|Hx]; [exact Hy|exact (IH Hl Hx)].
Qed.

Lemma take_all {A : Type} (l : list A) n :
  (List.length l <= n)%nat -> take n l = l.
Proof. intros H. apply take_ge. exact H. Qed.

(** X13.  Detection and the bash parser agree.  When a file of at most 11
    lines is classified as plain [bash], it has no timestamp line: the bash
    parser does not raise on it and every record it returns, under any
    filters, carries the clock reading. *)
Theorem plain_bash_records_carry_the_clock
    (now : Z) (lines : list string) (full_command : bool)
    (date_filter : date_filter_t) (command_filter : option string) :
  detect_shell_type lines = "bash" ->
  (List.length lines <= 11)%nat ->
  existsb bash_aborts lines = false
  /\ Forall (fun r : record => snd r = now)
       (parse_bash_history now lines full_command date_filter command_filter).
Proof.
  intros Hdetect Hlen.
  assert (Hnone : forall raw, In raw lines ->
                              is_timestamp_line (strip raw) = false).
  { unfold detect_shell_type in Hdetect. rewrite (take_all _ _ Hlen) in Hdetect.
    destruct (existsb zsh_pattern_match (map strip lines)); [discriminate|].
    destruct (existsb looks_like_marker (map strip lines)) eqn:Hm;
      [discriminate|].
    intros raw Hin. rewrite is_timestamp_line_looks.
    apply (existsb_false_in _ _ _ Hm). apply in_map. exact Hin. }
  split.
  - destruct (existsb bash_aborts lines) eqn:He; [|reflexivity].
    apply existsb_exists in He. destruct He as (raw & Hin & Ha).
    unfold bash_aborts in Ha. rewrite (Hnone raw Hin) in Ha. discriminate.
  - pose proof (bash_timestamps_origin now lines full_command date_filter
                  command_filter) as Hall.
    eapply List.Forall_impl; [|exact Hall].
    intros r [->|(raw & ds & Hin & Hs & Hi & _)]; [reflexivity|].
    pose proof (is_timestamp_line_marker ds (snd r) Hi) as Hm.
    rewrite <- Hs, (Hnone raw Hin) in Hm. discriminate.
Qed.

Lemma plain_bash_records_carry_the_clock_witness :
  Forall (fun r : record => snd r = 9)
    (parse_bash_history 9 ["ls"; "# note"; "pwd"] false None None).
Proof.
  apply (plain_bash_records_carry_the_clock 9 ["ls"; "# note"; "pwd"]).
  - reflexivity.
  - cbn [List.length]. lia.
Defined.

Lemma zsh_entry_pattern T D cmd :
  String.length T = 10%nat -> all_chars isdecimal T = true ->
  truthy D = true -> all_chars isdecimal D = true ->
  zsh_pattern_match (zsh_entry T D cmd) = true.
Proof.
  intros HT HTd HD HDd. unfold zsh_pattern_match, match_duration.
  rewrite (zsh_entry_match T D cmd HT HTd).
  rewrite digits_span_app by (exact HDd || reflexivity).
  destruct D as [|d D']; [discriminate|]. reflexivity.
Qed.

(** X14.  Detection reads the first 11 lines only, and a zsh entry among
    them decides: when one of the first 11 lines is, once stripped, an
    entry [: T:D;cmd] with ten digits [T] and digits [D], the file is
    classified [zsh] whatever its other lines are, and [parse_history]
    without a given shell type runs the zsh parser. *)
Theorem zsh_entry_decides_detection
    (now : Z) (lines : list string) (i : nat) (raw T D cmd : string)
    (full_command : bool) (date_filter : date_filter_t)
    (command_filter : option string) :
  lines !! i = Some raw -> (i < 11)%nat ->
  strip raw = zsh_entry T D cmd ->
  String.length T = 10%nat -> all_chars isdecimal T = true ->
  truthy D = true -> all_chars isdecimal D = true ->
  detect_shell_type lines = "zsh"
  /\ (forall l, detect_shell_type (take 11 l) = detect_shell_type l)
  /\ parse_history now lines full_command None date_filter command_filter
     = parse_zsh_history lines full_command date_filter command_filter.
Proof.
  intros Hi Hlt Hraw HT HTd HD HDd.
  assert (Hdetect : forall l, take 11 l !! i = Some raw ->
                              detect_shell_type l = "zsh").
  { intros l Hl. unfold detect_shell_type.
    assert (existsb zsh_pattern_match (map strip (take 11 l)) = true) as ->;
      [|reflexivity].
    apply existsb_exists. exists (strip raw). split.
    - apply in_map. apply list_elem_of_In.
      exact (list_elem_of_lookup_2 _ _ _ Hl).
    - rewrite Hraw. apply zsh_entry_pattern; assumption. }
  assert (H1 : detect_shell_type lines = "zsh")
    by (apply Hdetect; rewrite lookup_take_lt by exact Hlt; exact Hi).
  split; [exact H1|]. split.
  - intros l. unfold detect_shell_type.
    rewrite take_take, Nat.min_id. reflexivity.
  - unfold parse_history. rewrite H1. reflexivity.
Qed.

Lemma zsh_entry_decides_detection_witness :
  detect_shell_type ["#1700000000"; "ls"; ": 1700000000:3;pwd"] = "zsh".
Proof.
  apply (zsh_entry_decides_detection 0
           ["#1700000000"; "ls"; ": 1700000000:3;pwd"] 2
           ": 1700000000:3;pwd" "1700000000" "3" "pwd" false None None);
    try reflexivity.
  lia.
Defined.

Lemma parse_history_refines
    now lines full_command shell_type date_filter command_filter :
  parse_history now lines full_command shell_type date_filter command_filter
  = filter_afterwards date_filter command_filter
      (parse_history now lines full_command shell_type None None).
Proof.
  unfold parse_history.
  destruct (String.eqb _ "zsh"); [apply parse_zsh_refines|].
  destruct (in_list _ _); [apply parse_bash_refines|].
  symmetry. apply after_nil.
Qed.

Lemma filter_afterwards_in date_filter command_filter history r :
  In r (filter_afterwards date_filter command_filter history) ->
  In r history
  /\ (forall s e, date_filter = Some (s, e) -> in_date_window s e r = true)
  /\ (forall f, command_filter = Some f -> truthy f = true ->
                matches_filter (fst r) f = true).
Proof.
  unfold filter_afterwards. intros H.
  assert (Hdated :
            In r match date_filter with
                 | Some (s, e) => date_filter_loop s e history
                 | None => history
                 end
            /\ (forall f, command_filter = Some f -> truthy f = true ->
                          matches_filter (fst r) f = true)).
  { destruct command_filter as [f|]; cbn [filter_active default] in H.
    - destruct (truthy f) eqn:Hf.
      + rewrite command_filter_loop_filter in H. apply filter_In in H.
        split; [tauto|]. intros f' [= <-] _. tauto.
      + split; [exact H|]. intros f' [= <-] Hf'. congruence.
    - split; [exact H|]. intros f' [=]. }
  destruct Hdated as [Hin Hcmd]. split; [|split; [|exact Hcmd]].
  - destruct date_filter as [[s e]|]; [|exact Hin].
    rewrite date_filter_loop_filter in Hin. apply filter_In in Hin. tauto.
  - intros s e ->. rewrite date_filter_loop_filter in Hin.
    apply filter_In in Hin. tauto.
Qed.

(** X15.  Filtering through the dispatcher.  For every shell type, given or
    detected, [parse_history] with a date and a command filter returns what
    it returns with no filter, filtered afterwards; so every record it
    returns passes the date tests and matches the command filter, and a
    shell type other than [zsh], [bash] and [bash_timestamped] gives no
    record. *)
Theorem parse_history_applies_the_filters
    (now : Z) (lines : list string) (full_command : bool)
    (shell_type : option string)
    (date_filter : date_filter_t) (command_filter : option string) :
  parse_history now lines full_command shell_type date_filter command_filter
  = filter_afterwards date_filter command_filter
      (parse_history now lines full_command shell_type None None)
  /\ (forall r,
         In r (parse_history now lines full_command shell_type date_filter
                 command_filter) ->
         (forall s e, date_filter = Some (s, e) ->
                      in_date_window s e r = true)
         /\ (forall f, command_filter = Some f -> truthy f = true ->
                       matches_filter (fst r) f = true))
  /\ (forall given,
         shell_type = Some given ->
         given <> "zsh" -> given <> "bash" -> given <> "bash_timestamped" ->
         parse_history now lines full_command shell_type date_filter
           command_filter = []).
Proof.
  split; [apply parse_history_refines|]. split.
  - intros r Hr. rewrite parse_history_refines in Hr.
    apply filter_afterwards_in in Hr. tauto.
  - intros given -> H1 H2 H3. unfold parse_history.
    apply String.eqb_neq in H1, H2, H3.
    rewrite H1. unfold in_list. cbn [existsb]. rewrite H2, H3. reflexivity.
Qed.

(** ** The commands of parsed records *)

Lemma zsh_line_extractions full_command raw out :
  zsh_line full_command None None [] raw = Some out ->
  Forall (is_extraction full_command) out.
Proof.
  unfold zsh_line.
  destruct (negb (truthy (strip raw))); [intros [= <-]; constructor|].
  destruct (search_timestamp (strip raw)) as [g|];
    [|intros [= <-]; constructor].
  destruct (int g) as [timestamp|]; [|discriminate].
  cbn [filter_active andb].
  match goal with
  | |- context [match ?loc with Some _ => _ | None => Some [] end] =>
      assert (Hloc : loc = None \/ exists x, loc = Some (strip x))
  end.
  { destruct (contains _ _); [|left; reflexivity].
    destruct (negb _); [right; eauto|].
    destruct (search_duration_end _); [right; eauto|left; reflexivity]. }
  destruct Hloc as [-> | [x ->]]; [intros [= <-]; constructor|].
  destruct (truthy (strip x)) eqn:Hx; cbn [negb];
    [|intros [= <-]; constructor].
  destruct (truthy (extract_command (strip x) full_command));
    intros [= <-]; constructor; [|constructor].
  exists x. split; [exact Hx|reflexivity].
Qed.

Lemma bash_line_extractions now full_command pending raw st :
  bash_line now full_command None None (BashState pending []) raw = Some st ->
  Forall (is_extraction full_command) (history_of st).
Proof.
  unfold bash_line.
  destruct (is_timestamp_line (strip raw)).
  { destruct (int _); [|discriminate]. intros [= <-]; constructor. }
  destruct (truthy (strip raw)) eqn:Hline; [|intros [= <-]; constructor].
  rewrite (extract_command_truthy raw full_command Hline).
  cbn. intros [= <-]. constructor; [|constructor].
  exists raw. split; [exact Hline|reflexivity].
Qed.

Lemma parsed_records_are_extractions
    now lines full_command shell_type date_filter command_filter :
  Forall (is_extraction full_command)
    (parse_history now lines full_command shell_type date_filter
       command_filter).
Proof.
  rewrite parse_history_refines.
  eapply Forall_of_sublist; [apply filter_afterwards_sublist|].
  unfold parse_history.
  destruct (String.eqb _ "zsh").
  - unfold parse_zsh_history.
    assert (H : forall history,
               Forall (is_extraction full_command) history ->
               forall out,
                 for_each (zsh_line full_command None None) history lines
                 = Some out -> Forall (is_extraction full_command) out).
    { induction lines as [|raw rest IH]; intros history Hh out; simpl;
        [intros [= <-]; exact Hh|].
      rewrite (zsh_line_refines full_command None None history raw).
      destruct (zsh_line full_command None None [] raw) as [o|] eqn:Ho;
        [|discriminate].
      apply IH. rewrite filter_afterwards_none.
      apply Forall_app; split; [exact Hh|].
      exact (zsh_line_extractions _ _ _ Ho). }
    destruct (for_each _ _ _) as [out|] eqn:Hout; [|constructor].
    exact (H [] ltac:(constructor) out Hout).
  - destruct (in_list _ _); [|constructor].
    unfold parse_bash_history.
    assert (H : forall pending history,
               Forall (is_extraction full_command) history ->
               forall st,
                 for_each (bash_line now full_command None None)
                   (BashState pending history) lines = Some st ->
                 Forall (is_extraction full_command) (history_of st)).
    { induction lines as [|raw rest IH]; intros pending history Hh st; simpl;
        [intros [= <-]; exact Hh|].
      rewrite (bash_line_refines full_command None None now pending history raw).
      destruct (bash_line now full_command None None (BashState pending []) raw)
        as [o|] eqn:Ho; [|discriminate].
      apply IH. rewrite filter_afterwards_none.
      apply Forall_app; split; [exact Hh|].
      exact (bash_line_extractions _ _ _ _ _ Ho). }
    destruct (for_each _ _ _) as [st|] eqn:Hst; [|constructor].
    exact (H None [] ltac:(constructor) st Hst).
Qed.

Lemma extract_reduced_token full_cmd :
  split full_cmd <> [] -> is_token (extract_command full_cmd false) = true.
Proof.
  intros Hs. unfold extract_command.
  destruct full_cmd as [|c r]; [contradiction Hs; reflexivity|].
  cbn [truthy negb].
  pose proof (split_all_tokens (String c r)) as Htok.
  destruct (split (String c r)) as [|w ws]; [contradiction|].
  inversion Htok as [|? ? Hw _]; subst.
  destruct (_ && _); [|exact Hw].
  destruct (startswith _ _); [reflexivity|].
  destruct (scan_known_cases (String c r) ["export"; "echo"; "set"; "alias"])
    as [->|Hin]; [reflexivity|].
  destruct Hin as [H|[H|[H|[H|[]]]]]; rewrite <- H; reflexivity.
Qed.

(** X16.  The commands of parsed records.  Every record that
    [parse_history] returns, for any shell type and filters, has a command
    that is not empty and has a leading token; in reduced mode the command
    is a single token, with no whitespace in it. *)
Theorem parsed_commands_are_well_formed
    (now : Z) (lines : list string) (full_command : bool)
    (shell_type : option string)
    (date_filter : date_filter_t) (command_filter : option string) :
  Forall
    (fun r : record =>
       truthy (fst r) = true
       /\ has_leading_token r
       /\ (full_command = false -> is_token (fst r) = true))
    (parse_history now lines full_command shell_type date_filter
       command_filter).
Proof.
  eapply List.Forall_impl; [|apply parsed_records_are_extractions].
  intros r (x & Hx & Hr). unfold has_leading_token. rewrite Hr.
  split; [apply extract_command_truthy; exact Hx|].
  split; [apply extract_command_leading; exact Hx|].
  intros ->. apply extract_reduced_token.
  destruct (strip x) as [|c s] eqn:Hs; [discriminate|].
  apply split_token. exact (strip_head _ _ _ Hs).
Qed.

Lemma parse_history_applies_the_filters_witness :
  matches_filter "git status" "git" = true.
Proof.
  destruct (parse_history_applies_the_filters 9
              [": 1700000000:0;git status"; ": 1700000001:0;ls"] true None
              None (Some "git")) as (_ & H & _).
  destruct (H ("git status", 1700000000)) as [_ Hf].
  - left. reflexivity.
  - exact (Hf "git" eq_refl eq_refl).
Defined.

Lemma parsed_commands_are_well_formed_witness :
  Forall (fun r : record => is_token (fst r) = true)
    (parse_history 9 ["ls -la"; "  git   status"] false (Some "bash") None
       None).
Proof.
  eapply List.Forall_impl;
    [|apply (parsed_commands_are_well_formed 9 ["ls -la"; "  git   status"]
               false (Some "bash") None None)].
  intros r (_ & _ & H). apply H. reflexivity.
Defined.

(** ** Loading aliases *)

Lemma split_once_none_contains sep s :
  split_once sep s = None -> contains s (String sep EmptyString) = false.
Proof.
  induction s as [|c r IH]; [reflexivity|].
  cbn [split_once]. destruct (Ascii.eqb_spec c sep) as [->|Hne]; [discriminate|].
  destruct (split_once sep r) as [[a b]|]; [discriminate|]. intros _.
  specialize (IH eq_refl). unfold contains in *.
  rewrite find_cons. cbn [startswith].
  destruct (Ascii.eqb_spec sep c) as [->|_]; [contradiction Hne; reflexivity|].
  cbn [andb]. apply negb_false_iff in IH. rewrite IH. reflexivity.
Qed.

(** A line raises exactly when [alias_raises] says so, whatever the tables
    hold. *)
Lemma alias_line_none basename st raw :
  alias_line basename st raw = None <-> alias_raises raw = true.
Proof.
  unfold alias_line, alias_raises.
  destruct (startswith (strip raw) "alias "); cbn [andb];
    [|split; discriminate].
  destruct (split_once "=" (slice_from 6 (strip raw)))
    as [[alias_name alias_cmd]|] eqn:Hs.
  - pose proof (split_once_contains _ _ _ _ Hs) as Hc.
    rewrite Hc. unfold slice_from in Hc.
    rewrite (contains_suffix_from _ _ _ Hc).
    destruct (truthy (strip_by is_quote (strip alias_cmd))); cbn [andb];
      [|split; discriminate].
    destruct (split (strip_by is_quote (strip alias_cmd)));
      split; congruence.
  - rewrite (split_once_none_contains _ _ Hs).
    destruct (contains (strip raw) "="); split; discriminate.
Qed.

Lemma alias_file_stops basename raw l2 : forall l1 st,
  alias_raises raw = true ->
  alias_file basename st (l1 ++ raw :: l2)%list = alias_file basename st l1.
Proof.
  induction l1 as [|x l1 IH]; intros st Hr.
  - cbn [app alias_file].
    rewrite (proj2 (alias_line_none basename st raw) Hr). reflexivity.
  - cbn [app alias_file].
    destruct (alias_line basename st x); [apply IH; exact Hr|reflexivity].
Qed.

(** X17.  A blank alias value silences the rest of its file.  When a line
    is a definition whose value holds only whitespace once unquoted (such
    as an alias equal to one quoted space), the loader drops the lines that
    follow it in that file; the lines before it and the other files are
    loaded as if the file ended there. *)
Theorem blank_alias_value_ends_the_file
    (files_before files_after : list (string * list string))
    (basename raw : string) (l1 l2 : list string) :
  alias_raises raw = true ->
  load_aliases
    (files_before ++ (basename, l1 ++ raw :: l2) :: files_after)%list
  = load_aliases (files_before ++ (basename, l1) :: files_after)%list.
Proof.
  intros Hr. unfold load_aliases.
  rewrite !fold_left_app. cbn [fold_left fst snd].
  rewrite (alias_file_stops basename raw l2 l1 _ Hr). reflexivity.
Qed.

Lemma blank_alias_value_ends_the_file_witness :
  resolve_command "g"
    (aliases (load_aliases
                [(".bashrc", ["alias ll='ls -la'"; "alias x=' '"; "alias g=git"])]))
  = "g".
Proof.
  etransitivity.
  - apply (f_equal (fun st => resolve_command "g" (aliases st))).
    apply (blank_alias_value_ends_the_file [] [] ".bashrc" "alias x=' '"
             ["alias ll='ls -la'"] ["alias g=git"]).
    reflexivity.
  - vm_compute. reflexivity.
Defined.

Lemma alias_file_app basename l1 : forall l2 st,
  existsb alias_raises l1 = false ->
  alias_file basename st (l1 ++ l2)%list
  = alias_file basename (alias_file basename st l1) l2.
Proof.
  induction l1 as [|x l1 IH]; intros l2 st Hok; [reflexivity|].
  cbn [existsb] in Hok. apply orb_false_iff in Hok. destruct Hok as [Hx Hl].
  cbn [app alias_file].
  destruct (alias_line basename st x) as [st'|] eqn:E.
  - apply IH; exact Hl.
  - apply (proj1 (alias_line_none basename st x)) in E. congruence.
Qed.

(** X18.  The last definition read wins.  When the last line of the last
    file defines [name] with base command [base], and no earlier line of
    that file raises, the loaded table maps [name] to [base] and records
    that file as its source, whatever the earlier files and lines
    defined. *)
Theorem last_alias_definition_wins
    (files : list (string * list string)) (basename : string)
    (lines : list string) (raw name base : string) :
  existsb alias_raises lines = false ->
  defines raw name base ->
  let st := load_aliases (files ++ [(basename, lines ++ [raw])])%list in
  aliases st !! name = Some base
  /\ alias_sources st !! name = Some basename
  /\ resolve_command name (aliases st) = base.
Proof.
  intros Hok Hdef st. subst st. unfold load_aliases.
  rewrite fold_left_app. cbn [fold_left fst snd].
  rewrite (alias_file_app basename lines [raw] _ Hok).
  cbn [alias_file]. rewrite (alias_line_defines basename _ raw name base Hdef).
  cbn [aliases alias_sources]. unfold resolve_command.
  rewrite !lookup_insert_eq. auto.
Qed.

Lemma last_alias_definition_wins_witness :
  resolve_command "g"
    (aliases (load_aliases
                [(".aliases", ["alias g=grep"]);
                 (".bashrc", ["alias ll='ls -la'"; "alias g='git status'"])]))
  = "git".
Proof.
  destruct (last_alias_definition_wins [(".aliases", ["alias g=grep"])]
              ".bashrc" ["alias ll='ls -la'"] "alias g='git status'" "g" "git")
    as (_ & _ & H).
  - reflexivity.
  - split; [reflexivity|]. exists "g", "'git status'". repeat split; reflexivity.
  - exact H.
Defined.

(** X19.  The two tables go together.  After loading, an alias has a
    resolved command exactly when it has a source file, and every resolved
    command is a single token: not empty and free of whitespace. *)
Theorem alias_tables_go_together (files : list (string * list string)) :
  let st := load_aliases files in
  dom (aliases st) = dom (alias_sources st)
  /\ (forall name base,
         aliases st !! name = Some base -> is_token base = true).
Proof.
  intros st. split.
  - subst st. unfold load_aliases.
    assert (Hline : forall b st0 raw st1,
               dom (aliases st0) = dom (alias_sources st0) ->
               alias_line b st0 raw = Some st1 ->
               dom (aliases st1) = dom (alias_sources st1)).
    { intros b st0 raw st1 H0 H1.
      destruct (alias_line_inv _ _ _ _ H1) as [->|(n & v & _ & ->)];
        [exact H0|].
      cbn [aliases alias_sources]. rewrite !dom_insert_L, H0. reflexivity. }
    assert (Hfile : forall b lines st0,
               dom (aliases st0) = dom (alias_sources st0) ->
               dom (aliases (alias_file b st0 lines))
               = dom (alias_sources (alias_file b st0 lines))).
    { intros b lines. induction lines as [|raw lines IH]; intros st0 H0;
        [exact H0|].
      cbn [alias_file].
      destruct (alias_line b st0 raw) as [st1|] eqn:E; [|exact H0].
      apply IH. exact (Hline _ _ _ _ H0 E). }
    assert (Hall : forall fs st0,
               dom (aliases st0) = dom (alias_sources st0) ->
               dom (aliases
                      (fold_left (fun st f => alias_file (fst f) st (snd f))
                         fs st0))
               = dom (alias_sources
                        (fold_left (fun st f => alias_file (fst f) st (snd f))
                           fs st0))).
    { induction fs as [|f fs IH]; intros st0 H0; [exact H0|].
      cbn [fold_left]. apply IH. apply Hfile. exact H0. }
    apply Hall. cbn [aliases alias_sources]. rewrite !dom_empty_L. reflexivity.
  - intros name base Hl.
    destruct (load_aliases_origin files name base Hl)
      as (? & ? & raw & _ & _ & Hd).
    exact (defines_token _ _ _ Hd).
Qed.

Lemma alias_tables_go_together_witness :
  is_token "ls" = true.
Proof.
  destruct (alias_tables_go_together [(".bashrc", ["alias ll='ls -la'"])])
    as [_ H].
  apply (H "ll" "ls"). vm_compute. reflexivity.
Defined.

(** ** Resolution of a history *)

(** X20.  Resolution rewrites commands and nothing else: it keeps the
    number of records, their order and every timestamp; with an empty table
    it returns the history unchanged; and with a loaded table every record
    that had a leading token still has one. *)
Theorem resolution_keeps_the_records
    (files : list (string * list string)) (table : gmap string string)
    (use_full_commands : bool) (history : list record) :
  map snd (resolve_history use_full_commands table history) = map snd history
  /\ resolve_history use_full_commands ∅ history = history
  /\ (Forall has_leading_token history ->
      Forall has_leading_token
        (resolve_history use_full_commands (aliases (load_aliases files))
           history)).
Proof.
  split; [|split; [reflexivity|apply resolve_history_leading]].
  unfold resolve_history. destruct (bool_decide _); [reflexivity|].
  induction history as [|[command timestamp] history IH]; [reflexivity|].
  cbn [map]. rewrite IH. f_equal.
  unfold resolve_record. destruct use_full_commands; [|reflexivity].
  destruct (split command); reflexivity.
Qed.

Lemma resolution_keeps_the_records_witness :
  Forall has_leading_token
    (resolve_history true
       (aliases (load_aliases [(".bashrc", ["alias g=git"])]))
       [("g  status", 4); ("ls", 5)]).
Proof.
  apply (resolution_keeps_the_records [(".bashrc", ["alias g=git"])] ∅ true
           [("g  status", 4); ("ls", 5)]).
  repeat constructor; discriminate.
Defined.

(** ** Counting and ranking *)

Lemma fold_bump_spec (history : list record) : forall d,
  dict_ok d ->
  let d' := fold_left (fun counts item => bump (fst item) counts) history d in
  dict_ok d' /\ forall c, tally d' c = tally d c + occurrences history c.
Proof.
  unfold occurrences.
  induction history as [|[command timestamp] history IH]; intros d Hd.
  - simpl. split; [exact Hd|intros c; lia].
  - cbn [fold_left fst List.filter].
    destruct (IH (bump command d) (bump_ok command d Hd)) as [Hok Ht].
    split; [exact Hok|]. intros c. rewrite Ht, tally_bump.
    destruct (String.eqb command c); cbn [List.length]; lia.
Qed.

Lemma bump_keys_list k d :
  map fst (bump k d)
  = if in_list k (map fst d) then map fst d else (map fst d ++ [k])%list.
Proof.
  unfold in_list. induction d as [|[k' n] d IH]; [reflexivity|].
  cbn [bump map fst existsb]. rewrite (String.eqb_sym k k').
  destruct (String.eqb k' k); cbn [orb map fst]; [reflexivity|].
  rewrite IH. destruct (existsb (String.eqb k) (map fst d)); reflexivity.
Qed.

Lemma List_filter_filter {A : Type} (f g : A -> bool) l :
  List.filter f (List.filter g l) = List.filter (fun x => g x && f x) l.
Proof.
  induction l as [|x l IH]; simpl; [reflexivity|].
  destruct (g x); simpl; [destruct (f x); [f_equal|]|]; exact IH.
Qed.

Lemma in_list_app x l1 l2 :
  in_list x (l1 ++ l2)%list = in_list x l1 || in_list x l2.
Proof. unfold in_list. apply existsb_app. Qed.

Lemma fold_bump_keys (history : list record) : forall d,
  map fst (fold_left (fun counts item => bump (fst item) counts) history d)
  = (map fst d
     ++ List.filter (fun y => negb (in_list y (map fst d)))
          (first_occurrences (map fst history)))%list.
Proof.
  induction history as [|[command timestamp] history IH]; intros d.
  - simpl. rewrite app_nil_r. reflexivity.
  - cbn [fold_left fst map first_occurrences List.filter].
    rewrite IH, bump_keys_list.
    destruct (in_list command (map fst d)) eqn:Hin; cbn [negb].
    + f_equal. rewrite List_filter_filter. apply List.filter_ext.
      intros y. destruct (String.eqb_spec y command) as [->|_];
        [rewrite Hin; reflexivity|]. cbn [negb andb]. reflexivity.
    + rewrite <- app_assoc. cbn [app]. do 2 f_equal.
      rewrite List_filter_filter. apply List.filter_ext.
      intros y. rewrite in_list_app. unfold in_list at 2. cbn [existsb].
      rewrite orb_false_r, negb_orb. apply andb_comm.
Qed.

Lemma command_counter_sum (history : list record) :
  fold_right Z.add 0 (map snd (command_counter history))
  = Z.of_nat (List.length history).
Proof.
  unfold command_counter.
  assert (Hb : forall k d,
             fold_right Z.add 0 (map snd (bump k d))
             = fold_right Z.add 0 (map snd d) + 1).
  { intros k d. induction d as [|[k' n] d IH]; [reflexivity|].
    cbn [bump]. destruct (String.eqb k' k); cbn [map snd fold_right];
      [|rewrite IH]; lia. }
  assert (Hs : forall (h : list record) d,
             fold_right Z.add 0
               (map snd
                  (fold_left (fun counts item => bump (fst item) counts) h d))
             = fold_right Z.add 0 (map snd d) + Z.of_nat (List.length h)).
  { induction h as [|r h IH]; intros d; [simpl; lia|].
    cbn [fold_left List.length]. rewrite IH, Hb. lia. }
  rewrite Hs. reflexivity.
Qed.

(** X21.  The counter is exact.  [Counter] over the commands of a history
    has one entry per distinct command, in the order in which the commands
    first occur; the count of a command is the number of records with that
    command; and the counts add up to the number of records. *)
Theorem command_counter_is_exact (history : list record) :
  let counts := command_counter history in
  map fst counts = first_occurrences (map fst history)
  /\ List.NoDup (map fst counts)
  /\ (forall c k, In (c, k) counts <-> 0 < k /\ k = occurrences history c)
  /\ fold_right Z.add 0 (map snd counts) = Z.of_nat (List.length history).
Proof.
  intros counts. subst counts. unfold command_counter.
  destruct (fold_bump_spec history []) as [Hok Ht]; [split; constructor|].
  split.
  { rewrite fold_bump_keys. cbn [map app].
    apply List_filter_true. intros; reflexivity. }
  split; [exact (proj1 Hok)|]. split.
  { intros c k. rewrite (dict_ok_in _ c k Hok), Ht. cbn [tally].
    rewrite Z.add_0_l. reflexivity. }
  apply command_counter_sum.
Qed.

Lemma command_counter_is_exact_witness :
  In ("git", 2) (command_counter [("git", 1); ("ls", 2); ("git", 3)]).
Proof.
  destruct (command_counter_is_exact [("git", 1); ("ls", 2); ("git", 3)])
    as (_ & _ & H & _).
  apply H. split; [lia|reflexivity].
Defined.

Section Stability.

Context {A : Type}.
Variable precedes : A -> A -> bool.
Variable P : A -> bool.
Hypothesis separated :
  forall a x, precedes a x = false -> P a = true -> P x = false.

Lemma insert_sorted_filter a l :
  List.filter P (insert_sorted precedes a l) = List.filter P (a :: l).
Proof.
  induction l as [|x l IH]; [reflexivity|].
  cbn [insert_sorted]. destruct (precedes a x) eqn:Hax; [reflexivity|].
  cbn [List.filter] in *. rewrite IH.
  destruct (P a) eqn:Ha; [|reflexivity].
  rewrite (separated a x Hax Ha). reflexivity.
Qed.

(** The sort is stable: the elements picked by [P] keep their order. *)
Lemma sorted_filter l : List.filter P (sorted precedes l) = List.filter P l.
Proof.
  induction l as [|a l IH]; [reflexivity|].
  cbn [sorted]. rewrite insert_sorted_filter. cbn [List.filter].
  rewrite IH. reflexivity.
Qed.

End Stability.

Lemma sorted_by_tally_stable items v :
  List.filter (fun e : string * Z => snd e =? v) (sorted_by_tally items)
  = List.filter (fun e : string * Z => snd e =? v) items.
Proof.
  apply sorted_filter. intros a x Hax Ha.
  apply Z.leb_gt in Hax. apply Z.eqb_eq in Ha. apply Z.eqb_neq. lia.
Qed.

(** X22.  The ranking.  [top_commands] is empty when fewer than one command
    is asked for.  Otherwise it is the head of a list that holds the
    counter's entries sorted by count, largest first, and it has [n]
    entries or all of them; entries with equal counts stay in the order in
    which their commands first occur in the history; and every listed
    count is the number of records with that command. *)
Theorem ranking_is_sorted_and_stable (history : list record) (n : Z) :
  let counts := command_counter history in
  let top := top_commands history n in
  (n < 1 -> top = [])
  /\ (1 <= n ->
      exists rest,
        Permutation (top ++ rest)%list counts
        /\ StronglySorted (fun a b : string * Z => snd b <= snd a)
             (top ++ rest)%list
        /\ List.length top = Nat.min (Z.to_nat n) (List.length counts)
        /\ forall v,
             List.filter (fun e : string * Z => snd e =? v) (top ++ rest)%list
             = List.filter (fun e : string * Z => snd e =? v) counts)
  /\ (forall c k, In (c, k) top -> k = occurrences history c).
Proof.
  intros counts top.
  assert (Htop : top = most_common counts n).
  { subst top counts. unfold top_commands.
    destruct history; [|reflexivity].
    unfold most_common. destruct (n <? 1); [reflexivity|].
    symmetry. apply take_nil. }
  split; [|split].
  - intros Hn. rewrite Htop. unfold most_common.
    destruct (Z.ltb_spec n 1); [reflexivity|lia].
  - intros Hn. exists (drop (Z.to_nat n) (sorted_by_tally counts)).
    rewrite Htop. unfold most_common.
    destruct (Z.ltb_spec n 1); [lia|].
    destruct (sorted_by_tally_spec counts) as [Hperm Hsorted].
    rewrite take_drop. split; [exact Hperm|]. split; [exact Hsorted|].
    split; [|intros v; apply sorted_by_tally_stable].
    rewrite length_take, (Permutation_length Hperm). reflexivity.
  - intros c k Hin.
    assert (Hc : In (c, k) counts).
    { rewrite Htop in Hin. unfold most_common in Hin.
      destruct (n <? 1); [destruct Hin|].
      apply (Permutation_in _ (proj1 (sorted_by_tally_spec counts))).
      apply list_elem_of_In. apply list_elem_of_In in Hin.
      apply elem_of_take in Hin. destruct Hin as (i & Hi & _).
      exact (list_elem_of_lookup_2 _ _ _ Hi). }
    subst counts. unfold command_counter in Hc.
    destruct (fold_bump_spec history []) as [Hok Ht]; [split; constructor|].
    apply (dict_ok_in _ c k Hok) in Hc. destruct Hc as [_ ->].
    rewrite Ht. cbn [tally]. lia.
Qed.

Lemma ranking_is_sorted_and_stable_witness :
  top_commands [("b", 1); ("a", 2); ("a", 3)] 0 = [].
Proof.
  apply (ranking_is_sorted_and_stable [("b", 1); ("a", 2); ("a", 3)] 0). lia.
Defined.

(** ** Diversity *)

Lemma occurrences_positive history c :
  0 < occurrences history c <-> In c (map fst history).
Proof.
  unfold occurrences.
  induction history as [|[c' t] history IH]; cbn [List.filter map fst In].
  - simpl. lia.
  - destruct (String.eqb_spec c' c) as [->|Hne].
    + cbn [List.length]. split; [intros _; left; reflexivity|lia].
    + rewrite IH. split; [tauto|]. intros [H|H]; [contradiction|exact H].
Qed.

Lemma length_le_sum (d : list (string * Z)) :
  Forall (fun e => 0 < snd e) d ->
  Z.of_nat (List.length d) <= fold_right Z.add 0 (map snd d).
Proof.
  induction 1 as [|e d He _ IH]; [simpl; lia|].
  cbn [List.length map fold_right]. lia.
Qed.

(** X23.  Diversity figures.  The number of unique commands is the number
    of entries of the counter; for a history that is not empty it is at
    least 1 and at most the number of records, so the two averages of
    [show_advanced_analysis] never divide by zero; and the commands used
    once are among the unique commands. *)
Theorem diversity_figures (history : list record) :
  unique_commands history = List.length (command_counter history)
  /\ (history <> [] ->
      (0 < unique_commands history <= List.length history)%nat)
  /\ (List.length (single_use history) <= unique_commands history)%nat
  /\ (forall c, In c (single_use history) <-> occurrences history c = 1).
Proof.
  destruct (fold_bump_spec history []) as [Hok Ht]; [split; constructor|].
  fold (command_counter history) in Hok, Ht.
  assert (Hkeys : forall c k,
             In (c, k) (command_counter history)
             <-> 0 < k /\ k = occurrences history c).
  { intros c k. rewrite (dict_ok_in _ c k Hok), Ht. cbn [tally].
    rewrite Z.add_0_l. reflexivity. }
  assert (Huniq : unique_commands history
                  = List.length (command_counter history)).
  { unfold unique_commands.
    rewrite <- (length_map fst (command_counter history)).
    rewrite <- (size_list_to_set (C := gset string)
                  (map fst (command_counter history)))
      by (apply NoDup_ListNoDup; exact (proj1 Hok)).
    f_equal. apply set_eq. intros c. rewrite !elem_of_list_to_set.
    rewrite !list_elem_of_In, <- occurrences_positive.
    rewrite in_map_iff. split.
    - intros Hc. exists (c, occurrences history c). split; [reflexivity|].
      apply Hkeys. split; [exact Hc|reflexivity].
    - intros ([c' k] & <- & Hin). apply Hkeys in Hin. cbn [fst].
      destruct Hin as [Hk ->]. exact Hk. }
  split; [exact Huniq|]. split; [|split].
  - intros Hne. rewrite Huniq. split.
    + destruct history as [|[c t] history]; [contradiction|].
      assert (Hin : In (c, occurrences ((c, t) :: history) c)
                      (command_counter ((c, t) :: history))).
      { apply Hkeys. split; [|reflexivity].
        apply occurrences_positive. left; reflexivity. }
      assert (Hpos : forall (l : list (string * Z)) x,
                 In x l -> (0 < List.length l)%nat)
        by (intros [|y l] x H; [destruct H|cbn [List.length]; lia]).
      exact (Hpos _ _ Hin).
    + pose proof (length_le_sum _ (proj2 Hok)) as Hle.
      pose proof (command_counter_sum history) as Hsum.
      lia.
  - rewrite Huniq. unfold single_use. rewrite length_map.
    apply sublist_length, List_filter_sublist.
  - intros c. unfold single_use. rewrite in_map_iff. split.
    + intros ([c' k] & <- & Hin). apply filter_In in Hin.
      destruct Hin as [Hin H1]. cbn [fst snd] in *.
      apply Z.eqb_eq in H1. subst k. apply Hkeys in Hin.
      symmetry. tauto.
    + intros H1. exists (c, 1). split; [reflexivity|].
      apply filter_In. split; [|reflexivity].
      apply Hkeys. split; [lia|]. symmetry; exact H1.
Qed.

Lemma diversity_figures_witness :
  let history : list record := [("git", 1); ("ls", 2); ("git", 3)] in
  (0 < unique_commands history <= List.length history)%nat.
Proof.
  intros history. apply (diversity_figures history). discriminate.
Defined.

(** ** Where correlated commands come from *)

Lemma List_filter_nonempty {A : Type} (f : A -> bool) l :
  (0 < List.length (List.filter f l))%nat -> exists x, In x l /\ f x = true.
Proof.
  induction l as [|x l IH]; simpl; [lia|].
  destruct (f x) eqn:Hx.
  - intros _. exists x. split; [left; reflexivity|exact Hx].
  - intros H. destruct (IH H) as (y & Hy & Hf). exists y. split; [right|];
      assumption.
Qed.

(** An entry of the correlations has a record of its own in the history, a
    command that is not the target, and the target occurs in the history. *)
Lemma correlated_command_origin history target window c k :
  In (c, k) (get_command_correlations history target window) ->
  0 < k /\ c <> target
  /\ (exists tj, In (c, tj) history)
  /\ (exists ti tj,
         In (target, ti) history /\ In (c, tj) history
         /\ Z.abs (tj - ti) <= window).
Proof.
  intros Hin.
  destruct (get_command_correlations_spec history target window) as [Hok Ht].
  apply (dict_ok_in _ c k Hok) in Hin. destruct Hin as [Hk ->].
  split; [exact Hk|]. rewrite Ht in Hk. unfold neighbour_pairs in Hk.
  cbv zeta in Hk.
  match type of Hk with
  | 0 < Z.of_nat ?n => assert (Hpos : (0 < n)%nat) by lia
  end.
  apply List_filter_nonempty in Hpos. destruct Hpos as ([i j] & _ & Hn).
  cbn [fst snd] in Hn. apply is_neighbour_true in Hn.
  destruct Hn as (ti & tj & Hi & Hj & _ & _ & Hw & Hc).
  apply nth_error_In in Hi, Hj.
  pose proof (proj1 (sorted_by_time_spec history)) as Hperm.
  apply (Permutation_in _ Hperm) in Hi, Hj.
  split; [exact Hc|]. split; [exists tj; exact Hj|].
  exists ti, tj. auto.
Qed.

(** X24.  What can be correlated.  Every entry of the correlations is a
    command of some record of the history other than the target, with a
    positive tally, and some occurrence of the target lies within the
    window of some record of that command.  So there is no entry at all
    when the target does not occur in the history, and none when the
    window is negative. *)
Theorem correlations_come_from_the_history
    (history : list record) (target_command : string) (window_seconds : Z) :
  let correlations :=
    get_command_correlations history target_command window_seconds in
  (forall c k,
      In (c, k) correlations ->
      0 < k /\ c <> target_command
      /\ exists ti tj,
           In (target_command, ti) history /\ In (c, tj) history
           /\ Z.abs (tj - ti) <= window_seconds)
  /\ ((forall r, In r history -> fst r <> target_command) ->
      correlations = [])
  /\ (window_seconds < 0 -> correlations = []).
Proof.
  intros correlations. subst correlations.
  split; [|split].
  - intros c k Hin.
    destruct (correlated_command_origin _ _ _ _ _ Hin) as (Hk & Hc & _ & H).
    auto.
  - intros Hno.
    destruct (get_command_correlations history target_command window_seconds)
      as [|[c k] rest] eqn:E; [reflexivity|].
    assert (Hin : In (c, k) (get_command_correlations history target_command
                               window_seconds))
      by (rewrite E; left; reflexivity).
    destruct (correlated_command_origin _ _ _ _ _ Hin)
      as (_ & _ & _ & ti & _ & Hti & _).
    exfalso. exact (Hno _ Hti eq_refl).
  - intros Hw.
    destruct (get_command_correlations history target_command window_seconds)
      as [|[c k] rest] eqn:E; [reflexivity|].
    assert (Hin : In (c, k) (get_command_correlations history target_command
                               window_seconds))
      by (rewrite E; left; reflexivity).
    destruct (correlated_command_origin _ _ _ _ _ Hin)
      as (_ & _ & _ & ti & tj & _ & _ & Habs).
    pose proof (Z.abs_nonneg (tj - ti)). lia.
Qed.

Lemma correlations_come_from_the_history_witness :
  get_command_correlations [("ls", 1); ("pwd", 2)] "git" 300 = [].
Proof.
  destruct (correlations_come_from_the_history [("ls", 1); ("pwd", 2)] "git"
              300) as (_ & H & _).
  apply H. intros r [<-|[<-|[]]]; discriminate.
Defined.

(** X25.  Correlations as [main] wires them.  [run_analysis] hands to
    [show_command_analysis] only the records whose command is the target or
    starts with the target and a space, so every command in the reported
    correlations is a longer variation of the target itself: it starts with
    the target followed by a space.  Commands other than the target's own
    invocations are never reported. *)
Theorem reported_correlations_are_variations_of_the_target
    (history : list record) (target_command : string) (c : string) (k : Z) :
  In (c, k)
    (top_correlations (command_filter_loop target_command history)
       target_command true) ->
  startswith c (target_command ++ " ") = true /\ c <> target_command.
Proof.
  intros Hin. rewrite top_correlations_take in Hin.
  apply list_elem_of_In in Hin. apply elem_of_take in Hin.
  destruct Hin as (i & Hi & _). apply list_elem_of_lookup_2 in Hi.
  apply list_elem_of_In in Hi.
  apply (Permutation_in _ (proj1 (sorted_by_tally_spec _))) in Hi.
  destruct (correlated_command_origin _ _ _ _ _ Hi)
    as (_ & Hc & (tj & Hj) & _).
  split; [|exact Hc].
  rewrite command_filter_loop_filter in Hj. apply filter_In in Hj.
  destruct Hj as [_ Hm]. cbn [fst] in Hm. unfold matches_filter in Hm.
  apply orb_true_iff in Hm. destruct Hm as [Hm|Hm]; [exact Hm|].
  apply String.eqb_eq in Hm. contradiction.
Qed.

Lemma reported_correlations_are_variations_of_the_target_witness :
  startswith "git status" ("git" ++ " ") = true /\ "git status" <> "git".
Proof.
  apply (reported_correlations_are_variations_of_the_target
           [("git", 10); ("ls", 11); ("git status", 12)] "git" "git status" 1).
  left. reflexivity.
Defined.
